(** * Taiga back-end: projects, templates, watchers and votes

    A shallow embedding of the parts of [taiga/projects/models.py],
    [taiga/projects/notifications/mixins.py], [taiga/projects/votes/utils.py]
    and [taiga/projects/votes/mixins/] that the properties below talk about.

    Python objects that are mutated in place and database tables that are
    written are carried in an explicit state; an exception keeps the state
    reached when it was raised, as a Python exception does. *)

From Stdlib Require Import ZArith List String Bool Lia SpecFloat DecimalString.
From Stdlib Require Import Sorting.Sorted Sorting.Permutation.
From stdpp Require Import gmap strings.
From Equations Require Import Equations.
Import ListNotations.

Local Open Scope string_scope.
Local Open Scope list_scope.
Local Open Scope Z_scope.


(** ** Exceptions and the state-and-exception monad *)

Inductive Exc : Type :=
| Exception (msg : string)
| TypeError
| KeyError (key : string)
| IndexError
| DoesNotExist (model : string)
| MultipleObjectsReturned (model : string)
| IntegrityError (model : string)
| ValidationError (msg : string).

Inductive Outcome (S A : Type) : Type :=
| Ok (a : A) (s : S)
| Raise (e : Exc) (s : S).

Arguments Ok {S A} a s.
Arguments Raise {S A} e s.

Definition M (S A : Type) : Type := S -> Outcome S A.

Definition ret {S A} (a : A) : M S A := fun s => Ok a s.

Definition bind {S A B} (c : M S A) (k : A -> M S B) : M S B :=
  fun s => match c s with
           | Ok a s' => k a s'
           | Raise e s' => Raise e s'
           end.

Definition raise {S A} (e : Exc) : M S A := fun s => Raise e s.

Definition gets {S A} (f : S -> A) : M S A := fun s => Ok (f s) s.

Definition modify {S} (f : S -> S) : M S unit := fun s => Ok tt (f s).

Notation "x <- c ;; k" := (bind c (fun x => k))
  (at level 100, c at next level, right associativity).
Notation "c ;;; k" := (bind c (fun _ => k))
  (at level 100, right associativity).

(** [for x in xs: body(x)] *)
Fixpoint for_ {S A} (xs : list A) (body : A -> M S unit) : M S unit :=
  match xs with
  | [] => ret tt
  | x :: rest => body x ;;; for_ rest body
  end.

(** [if cond: body] *)
Definition when {S} (cond : bool) (body : M S unit) : M S unit :=
  if cond then body else ret tt.

(** Iterating over a nullable JSON field: [for x in None] is a [TypeError]. *)
Definition iter_json {S A} (field : option (list A)) : M S (list A) :=
  match field with
  | Some xs => ret xs
  | None => raise TypeError
  end.

(** Truth value of a nullable JSON list: [None] and [[]] are false. *)
Definition truthy_list {A} (field : option (list A)) : bool :=
  match field with
  | Some (_ :: _) => true
  | _ => false
  end.

(** ** Taxonomy tables

    Every taxonomy model of [models.py] has an auto-incremented [id], a
    [name], a foreign key [project] and some more columns, kept in [F]. *)

Record Row (F : Type) : Type := mkRow {
  row_id : Z;
  row_project : Z;
  row_name : string;
  row_fields : F
}.

Arguments mkRow {F} _ _ _ _.
Arguments row_id {F} _.
Arguments row_project {F} _.
Arguments row_name {F} _.
Arguments row_fields {F} _.

(** A dictionary of a template's JSON list: the row without [id] and
    [project]. *)
Record Snapshot (F : Type) : Type := mkSnapshot {
  snap_name : string;
  snap_fields : F
}.

Arguments mkSnapshot {F} _ _.
Arguments snap_name {F} _.
Arguments snap_fields {F} _.

(** Columns of [UserStoryStatus]. *)
Record UserStoryStatusFields : Type := {
  us_slug : string;
  us_order : Z;
  us_is_closed : bool;
  us_is_archived : bool;
  us_color : string;
  us_wip_limit : option Z
}.

(** Columns of [Points]; [value] is a nullable binary64 float. *)
Record PointsFields : Type := {
  pt_order : Z;
  pt_value : option spec_float
}.

(** Columns of [TaskStatus] and of [IssueStatus]. *)
Record StatusFields : Type := {
  st_slug : string;
  st_order : Z;
  st_is_closed : bool;
  st_color : string
}.

(** Columns of [Priority], [Severity] and [IssueType]. *)
Record ColorFields : Type := {
  co_order : Z;
  co_color : string
}.

(** Columns of [users.Role] that the template reads and writes. *)
Record RoleFields : Type := {
  ro_slug : string;
  ro_order : Z;
  ro_computable : bool;
  ro_permissions : list string
}.

(** Models whose [save] recomputes the slug carry a slug column. *)
Class HasSlug (F : Type) : Type := {
  get_slug : F -> string;
  set_slug : string -> F -> F;
  get_set_slug : forall s f, get_slug (set_slug s f) = s
}.

#[export] Instance UserStoryStatus_slug : HasSlug UserStoryStatusFields := {|
  get_slug := us_slug;
  set_slug := fun s f =>
    {| us_slug := s; us_order := us_order f; us_is_closed := us_is_closed f;
       us_is_archived := us_is_archived f; us_color := us_color f;
       us_wip_limit := us_wip_limit f |};
  get_set_slug := fun _ _ => eq_refl
|}.

#[export] Instance Status_slug : HasSlug StatusFields := {|
  get_slug := st_slug;
  set_slug := fun s f =>
    {| st_slug := s; st_order := st_order f; st_is_closed := st_is_closed f;
       st_color := st_color f |};
  get_set_slug := fun _ _ => eq_refl
|}.

(** [Meta.ordering] of a model, after its leading [project] where it has
    one: the rows reached through [project.<related_name>] all have the
    same project. For every model here that is an integer column followed
    by a string column. *)
Class HasOrdering (F : Type) : Type := {
  ordering : string -> F -> Z * string
}.

(** [ordering = ["project", "order", "name"]] *)
#[export] Instance UserStoryStatus_ordering : HasOrdering UserStoryStatusFields := {|
  ordering := fun name f => (us_order f, name)
|}.

#[export] Instance Points_ordering : HasOrdering PointsFields := {|
  ordering := fun name f => (pt_order f, name)
|}.

#[export] Instance Status_ordering : HasOrdering StatusFields := {|
  ordering := fun name f => (st_order f, name)
|}.

#[export] Instance Color_ordering : HasOrdering ColorFields := {|
  ordering := fun name f => (co_order f, name)
|}.

(** Modelled from the spec: [users.Role] is declared outside these sources,
    and the spec leaves the order of its rows open; its [Meta.ordering] is
    taken as [["order", "slug"]]. *)
#[export] Instance Role_ordering : HasOrdering RoleFields := {|
  ordering := fun name f => (ro_order f, ro_slug f)
|}.

(** [ORDER BY] on such a pair of columns: by the integer, then by the
    string. Strings are compared character by character, by their codes
    (the database's collation is taken to be the binary one). *)
Definition key_leb (a b : Z * string) : bool :=
  (fst a <? fst b) || ((fst a =? fst b) && String.leb (snd a) (snd b)).

Section Table.
Context {F : Type} `{HasOrdering F}.

Definition row_key (r : Row F) : Z * string :=
  ordering (row_name r) (row_fields r).

(** The result of [ORDER BY]: rows that the ordering does not tell apart
    stay in table order. *)
Fixpoint insert_ordered (r : Row F) (rows : list (Row F)) : list (Row F) :=
  match rows with
  | [] => [r]
  | x :: rest =>
      if key_leb (row_key r) (row_key x) then r :: rows
      else x :: insert_ordered r rest
  end.

Definition order_by (rows : list (Row F)) : list (Row F) :=
  fold_right insert_ordered [] rows.

(** [project.<related_name>.all()]: the rows of one project, in the order
    of the model's [Meta.ordering]. *)
Definition related (pid : Z) (tbl : list (Row F)) : list (Row F) :=
  order_by (List.filter (fun r => row_project r =? pid) tbl).

(** The value of the [id] sequence for the next [INSERT]. *)
Definition next_id (tbl : list (Row F)) : Z :=
  1 + fold_right Z.max 0 (map row_id tbl).

(** [unique_together = ("project", "name")] *)
Definition name_taken (pid : Z) (name : string) (tbl : list (Row F)) : bool :=
  existsb (fun r => String.eqb (row_name r) name) (related pid tbl).

(** [Model.objects.get(name=name, project=project)]; a [name] of [None]
    compiles to [name IS NULL], which matches no row of a [NOT NULL] column. *)
Definition get_by_name (model : string) (name : option string) (pid : Z)
    (tbl : list (Row F)) : Exc + Row F :=
  match name with
  | None => inl (DoesNotExist model)
  | Some n =>
      match List.filter (fun r => String.eqb (row_name r) n) (related pid tbl) with
      | [] => inl (DoesNotExist model)
      | [r] => inr r
      | _ :: _ :: _ => inl (MultipleObjectsReturned model)
      end
  end.

(** Following a nullable foreign key: [getattr(project.default_x, "name", None)]. *)
Definition fk_name (model : string) (fk : option Z) (tbl : list (Row F))
    : Exc + option string :=
  match fk with
  | None => inr None
  | Some i =>
      match List.find (fun r => row_id r =? i) tbl with
      | Some r => inr (Some (row_name r))
      | None => inl (DoesNotExist model)
      end
  end.

(** The dictionary appended to a template's list for one row. *)
Definition snapshot (r : Row F) : Snapshot F :=
  mkSnapshot (row_name r) (row_fields r).

End Table.

(** ** Memberships, projects and project templates *)

(** [class Membership]: a membership of a project, or an invitation to one
    when [user] is null. An unsaved instance has no [id]. *)
Record Membership : Type := mkMembership {
  m_id : option Z;
  m_user : option Z;
  m_project : Z;
  m_role : Z;
  m_is_owner : bool;
  m_email : option string;
  m_token : option string
}.

(** [class ProjectDefaults]: nullable one-to-one keys to taxonomy rows. *)
Record ProjectDefaults : Type := mkProjectDefaults {
  default_points : option Z;
  default_us_status : option Z;
  default_task_status : option Z;
  default_priority : option Z;
  default_severity : option Z;
  default_issue_status : option Z;
  default_issue_type : option Z
}.

Definition set_default_points (v : option Z) (d : ProjectDefaults) : ProjectDefaults :=
  let '(mkProjectDefaults _ x1 x2 x3 x4 x5 x6) := d in
  mkProjectDefaults v x1 x2 x3 x4 x5 x6.

Definition set_default_us_status (v : option Z) (d : ProjectDefaults) : ProjectDefaults :=
  let '(mkProjectDefaults x0 _ x2 x3 x4 x5 x6) := d in
  mkProjectDefaults x0 v x2 x3 x4 x5 x6.

Definition set_default_task_status (v : option Z) (d : ProjectDefaults) : ProjectDefaults :=
  let '(mkProjectDefaults x0 x1 _ x3 x4 x5 x6) := d in
  mkProjectDefaults x0 x1 v x3 x4 x5 x6.

Definition set_default_priority (v : option Z) (d : ProjectDefaults) : ProjectDefaults :=
  let '(mkProjectDefaults x0 x1 x2 _ x4 x5 x6) := d in
  mkProjectDefaults x0 x1 x2 v x4 x5 x6.

Definition set_default_severity (v : option Z) (d : ProjectDefaults) : ProjectDefaults :=
  let '(mkProjectDefaults x0 x1 x2 x3 _ x5 x6) := d in
  mkProjectDefaults x0 x1 x2 x3 v x5 x6.

Definition set_default_issue_status (v : option Z) (d : ProjectDefaults) : ProjectDefaults :=
  let '(mkProjectDefaults x0 x1 x2 x3 x4 _ x6) := d in
  mkProjectDefaults x0 x1 x2 x3 x4 v x6.

Definition set_default_issue_type (v : option Z) (d : ProjectDefaults) : ProjectDefaults :=
  let '(mkProjectDefaults x0 x1 x2 x3 x4 x5 _) := d in
  mkProjectDefaults x0 x1 x2 x3 x4 x5 v.


(** [class Project]; an unsaved instance has no [id]. *)
Record Project : Type := mkProject {
  p_id : option Z;
  p_name : string;
  p_slug : string;
  p_owner_id : option Z;
  p_modified_date : option Z;
  p_importing : bool;
  p_is_backlog_activated : bool;
  p_is_kanban_activated : bool;
  p_is_wiki_activated : bool;
  p_is_issues_activated : bool;
  p_videoconferences : option string;
  p_videoconferences_extra_data : option string;
  p_creation_template : option Z;
  p_defaults : ProjectDefaults
}.

Definition set_p_id (v : option Z) (p : Project) : Project :=
  let '(mkProject _ x1 x2 x3 x4 x5 x6 x7 x8 x9 x10 x11 x12 x13) := p in
  mkProject v x1 x2 x3 x4 x5 x6 x7 x8 x9 x10 x11 x12 x13.

Definition set_p_slug (v : string) (p : Project) : Project :=
  let '(mkProject x0 x1 _ x3 x4 x5 x6 x7 x8 x9 x10 x11 x12 x13) := p in
  mkProject x0 x1 v x3 x4 x5 x6 x7 x8 x9 x10 x11 x12 x13.

Definition set_p_modified_date (v : option Z) (p : Project) : Project :=
  let '(mkProject x0 x1 x2 x3 _ x5 x6 x7 x8 x9 x10 x11 x12 x13) := p in
  mkProject x0 x1 x2 x3 v x5 x6 x7 x8 x9 x10 x11 x12 x13.

Definition set_p_is_backlog_activated (v : bool) (p : Project) : Project :=
  let '(mkProject x0 x1 x2 x3 x4 x5 _ x7 x8 x9 x10 x11 x12 x13) := p in
  mkProject x0 x1 x2 x3 x4 x5 v x7 x8 x9 x10 x11 x12 x13.

Definition set_p_is_kanban_activated (v : bool) (p : Project) : Project :=
  let '(mkProject x0 x1 x2 x3 x4 x5 x6 _ x8 x9 x10 x11 x12 x13) := p in
  mkProject x0 x1 x2 x3 x4 x5 x6 v x8 x9 x10 x11 x12 x13.

Definition set_p_is_wiki_activated (v : bool) (p : Project) : Project :=
  let '(mkProject x0 x1 x2 x3 x4 x5 x6 x7 _ x9 x10 x11 x12 x13) := p in
  mkProject x0 x1 x2 x3 x4 x5 x6 x7 v x9 x10 x11 x12 x13.

Definition set_p_is_issues_activated (v : bool) (p : Project) : Project :=
  let '(mkProject x0 x1 x2 x3 x4 x5 x6 x7 x8 _ x10 x11 x12 x13) := p in
  mkProject x0 x1 x2 x3 x4 x5 x6 x7 x8 v x10 x11 x12 x13.

Definition set_p_videoconferences (v : option string) (p : Project) : Project :=
  let '(mkProject x0 x1 x2 x3 x4 x5 x6 x7 x8 x9 _ x11 x12 x13) := p in
  mkProject x0 x1 x2 x3 x4 x5 x6 x7 x8 x9 v x11 x12 x13.

Definition set_p_videoconferences_extra_data (v : option string) (p : Project) : Project :=
  let '(mkProject x0 x1 x2 x3 x4 x5 x6 x7 x8 x9 x10 _ x12 x13) := p in
  mkProject x0 x1 x2 x3 x4 x5 x6 x7 x8 x9 x10 v x12 x13.

Definition set_p_creation_template (v : option Z) (p : Project) : Project :=
  let '(mkProject x0 x1 x2 x3 x4 x5 x6 x7 x8 x9 x10 x11 _ x13) := p in
  mkProject x0 x1 x2 x3 x4 x5 x6 x7 x8 x9 x10 x11 v x13.

Definition set_p_defaults (v : ProjectDefaults) (p : Project) : Project :=
  let '(mkProject x0 x1 x2 x3 x4 x5 x6 x7 x8 x9 x10 x11 x12 _) := p in
  mkProject x0 x1 x2 x3 x4 x5 x6 x7 x8 x9 x10 x11 x12 v.


(** [class ProjectTemplate]; the JSON fields are nullable. *)
Record ProjectTemplate : Type := mkProjectTemplate {
  t_id : option Z;
  t_default_owner_role : option string;
  t_is_backlog_activated : bool;
  t_is_kanban_activated : bool;
  t_is_wiki_activated : bool;
  t_is_issues_activated : bool;
  t_videoconferences : option string;
  t_videoconferences_extra_data : option string;
  t_default_options : option (gmap string (option string));
  t_us_statuses : option (list (Snapshot UserStoryStatusFields));
  t_points : option (list (Snapshot PointsFields));
  t_task_statuses : option (list (Snapshot StatusFields));
  t_issue_statuses : option (list (Snapshot StatusFields));
  t_issue_types : option (list (Snapshot ColorFields));
  t_priorities : option (list (Snapshot ColorFields));
  t_severities : option (list (Snapshot ColorFields));
  t_roles : option (list (Snapshot RoleFields))
}.

Definition set_t_default_owner_role (v : option string) (t : ProjectTemplate) : ProjectTemplate :=
  let '(mkProjectTemplate x0 _ x2 x3 x4 x5 x6 x7 x8 x9 x10 x11 x12 x13 x14 x15 x16) := t in
  mkProjectTemplate x0 v x2 x3 x4 x5 x6 x7 x8 x9 x10 x11 x12 x13 x14 x15 x16.

Definition set_t_is_backlog_activated (v : bool) (t : ProjectTemplate) : ProjectTemplate :=
  let '(mkProjectTemplate x0 x1 _ x3 x4 x5 x6 x7 x8 x9 x10 x11 x12 x13 x14 x15 x16) := t in
  mkProjectTemplate x0 x1 v x3 x4 x5 x6 x7 x8 x9 x10 x11 x12 x13 x14 x15 x16.

Definition set_t_is_kanban_activated (v : bool) (t : ProjectTemplate) : ProjectTemplate :=
  let '(mkProjectTemplate x0 x1 x2 _ x4 x5 x6 x7 x8 x9 x10 x11 x12 x13 x14 x15 x16) := t in
  mkProjectTemplate x0 x1 x2 v x4 x5 x6 x7 x8 x9 x10 x11 x12 x13 x14 x15 x16.

Definition set_t_is_wiki_activated (v : bool) (t : ProjectTemplate) : ProjectTemplate :=
  let '(mkProjectTemplate x0 x1 x2 x3 _ x5 x6 x7 x8 x9 x10 x11 x12 x13 x14 x15 x16) := t in
  mkProjectTemplate x0 x1 x2 x3 v x5 x6 x7 x8 x9 x10 x11 x12 x13 x14 x15 x16.

Definition set_t_is_issues_activated (v : bool) (t : ProjectTemplate) : ProjectTemplate :=
  let '(mkProjectTemplate x0 x1 x2 x3 x4 _ x6 x7 x8 x9 x10 x11 x12 x13 x14 x15 x16) := t in
  mkProjectTemplate x0 x1 x2 x3 x4 v x6 x7 x8 x9 x10 x11 x12 x13 x14 x15 x16.

Definition set_t_videoconferences (v : option string) (t : ProjectTemplate) : ProjectTemplate :=
  let '(mkProjectTemplate x0 x1 x2 x3 x4 x5 _ x7 x8 x9 x10 x11 x12 x13 x14 x15 x16) := t in
  mkProjectTemplate x0 x1 x2 x3 x4 x5 v x7 x8 x9 x10 x11 x12 x13 x14 x15 x16.

Definition set_t_videoconferences_extra_data (v : option string) (t : ProjectTemplate) : ProjectTemplate :=
  let '(mkProjectTemplate x0 x1 x2 x3 x4 x5 x6 _ x8 x9 x10 x11 x12 x13 x14 x15 x16) := t in
  mkProjectTemplate x0 x1 x2 x3 x4 x5 x6 v x8 x9 x10 x11 x12 x13 x14 x15 x16.

Definition set_t_default_options (v : option (gmap string (option string))) (t : ProjectTemplate) : ProjectTemplate :=
  let '(mkProjectTemplate x0 x1 x2 x3 x4 x5 x6 x7 _ x9 x10 x11 x12 x13 x14 x15 x16) := t in
  mkProjectTemplate x0 x1 x2 x3 x4 x5 x6 x7 v x9 x10 x11 x12 x13 x14 x15 x16.

Definition set_t_us_statuses (v : option (list (Snapshot UserStoryStatusFields))) (t : ProjectTemplate) : ProjectTemplate :=
  let '(mkProjectTemplate x0 x1 x2 x3 x4 x5 x6 x7 x8 _ x10 x11 x12 x13 x14 x15 x16) := t in
  mkProjectTemplate x0 x1 x2 x3 x4 x5 x6 x7 x8 v x10 x11 x12 x13 x14 x15 x16.

Definition set_t_points (v : option (list (Snapshot PointsFields))) (t : ProjectTemplate) : ProjectTemplate :=
  let '(mkProjectTemplate x0 x1 x2 x3 x4 x5 x6 x7 x8 x9 _ x11 x12 x13 x14 x15 x16) := t in
  mkProjectTemplate x0 x1 x2 x3 x4 x5 x6 x7 x8 x9 v x11 x12 x13 x14 x15 x16.

Definition set_t_task_statuses (v : option (list (Snapshot StatusFields))) (t : ProjectTemplate) : ProjectTemplate :=
  let '(mkProjectTemplate x0 x1 x2 x3 x4 x5 x6 x7 x8 x9 x10 _ x12 x13 x14 x15 x16) := t in
  mkProjectTemplate x0 x1 x2 x3 x4 x5 x6 x7 x8 x9 x10 v x12 x13 x14 x15 x16.

Definition set_t_issue_statuses (v : option (list (Snapshot StatusFields))) (t : ProjectTemplate) : ProjectTemplate :=
  let '(mkProjectTemplate x0 x1 x2 x3 x4 x5 x6 x7 x8 x9 x10 x11 _ x13 x14 x15 x16) := t in
  mkProjectTemplate x0 x1 x2 x3 x4 x5 x6 x7 x8 x9 x10 x11 v x13 x14 x15 x16.

Definition set_t_issue_types (v : option (list (Snapshot ColorFields))) (t : ProjectTemplate) : ProjectTemplate :=
  let '(mkProjectTemplate x0 x1 x2 x3 x4 x5 x6 x7 x8 x9 x10 x11 x12 _ x14 x15 x16) := t in
  mkProjectTemplate x0 x1 x2 x3 x4 x5 x6 x7 x8 x9 x10 x11 x12 v x14 x15 x16.

Definition set_t_priorities (v : option (list (Snapshot ColorFields))) (t : ProjectTemplate) : ProjectTemplate :=
  let '(mkProjectTemplate x0 x1 x2 x3 x4 x5 x6 x7 x8 x9 x10 x11 x12 x13 _ x15 x16) := t in
  mkProjectTemplate x0 x1 x2 x3 x4 x5 x6 x7 x8 x9 x10 x11 x12 x13 v x15 x16.

Definition set_t_severities (v : option (list (Snapshot ColorFields))) (t : ProjectTemplate) : ProjectTemplate :=
  let '(mkProjectTemplate x0 x1 x2 x3 x4 x5 x6 x7 x8 x9 x10 x11 x12 x13 x14 _ x16) := t in
  mkProjectTemplate x0 x1 x2 x3 x4 x5 x6 x7 x8 x9 x10 x11 x12 x13 x14 v x16.

Definition set_t_roles (v : option (list (Snapshot RoleFields))) (t : ProjectTemplate) : ProjectTemplate :=
  let '(mkProjectTemplate x0 x1 x2 x3 x4 x5 x6 x7 x8 x9 x10 x11 x12 x13 x14 x15 _) := t in
  mkProjectTemplate x0 x1 x2 x3 x4 x5 x6 x7 x8 x9 x10 x11 x12 x13 x14 x15 v.


(** The tables that templates read and write. *)
Record Database : Type := mkDatabase {
  db_us_statuses : list (Row UserStoryStatusFields);
  db_points : list (Row PointsFields);
  db_task_statuses : list (Row StatusFields);
  db_issue_statuses : list (Row StatusFields);
  db_issue_types : list (Row ColorFields);
  db_priorities : list (Row ColorFields);
  db_severities : list (Row ColorFields);
  db_roles : list (Row RoleFields);
  db_memberships : list Membership
}.

Definition set_db_us_statuses (v : list (Row UserStoryStatusFields)) (db : Database) : Database :=
  let '(mkDatabase _ x1 x2 x3 x4 x5 x6 x7 x8) := db in
  mkDatabase v x1 x2 x3 x4 x5 x6 x7 x8.

Definition set_db_points (v : list (Row PointsFields)) (db : Database) : Database :=
  let '(mkDatabase x0 _ x2 x3 x4 x5 x6 x7 x8) := db in
  mkDatabase x0 v x2 x3 x4 x5 x6 x7 x8.

Definition set_db_task_statuses (v : list (Row StatusFields)) (db : Database) : Database :=
  let '(mkDatabase x0 x1 _ x3 x4 x5 x6 x7 x8) := db in
  mkDatabase x0 x1 v x3 x4 x5 x6 x7 x8.

Definition set_db_issue_statuses (v : list (Row StatusFields)) (db : Database) : Database :=
  let '(mkDatabase x0 x1 x2 _ x4 x5 x6 x7 x8) := db in
  mkDatabase x0 x1 x2 v x4 x5 x6 x7 x8.

Definition set_db_issue_types (v : list (Row ColorFields)) (db : Database) : Database :=
  let '(mkDatabase x0 x1 x2 x3 _ x5 x6 x7 x8) := db in
  mkDatabase x0 x1 x2 x3 v x5 x6 x7 x8.

Definition set_db_priorities (v : list (Row ColorFields)) (db : Database) : Database :=
  let '(mkDatabase x0 x1 x2 x3 x4 _ x6 x7 x8) := db in
  mkDatabase x0 x1 x2 x3 x4 v x6 x7 x8.

Definition set_db_severities (v : list (Row ColorFields)) (db : Database) : Database :=
  let '(mkDatabase x0 x1 x2 x3 x4 x5 _ x7 x8) := db in
  mkDatabase x0 x1 x2 x3 x4 x5 v x7 x8.

Definition set_db_roles (v : list (Row RoleFields)) (db : Database) : Database :=
  let '(mkDatabase x0 x1 x2 x3 x4 x5 x6 _ x8) := db in
  mkDatabase x0 x1 x2 x3 x4 x5 x6 v x8.


(** ** Fields that are read and written through an accessor pair *)

Record Lens (S A : Type) : Type := mkLens {
  view : S -> A;
  update : A -> S -> S;
  view_update : forall a s, view (update a s) = a;
  update_view : forall s, update (view s) s = s;
  update_update : forall a b s, update a (update b s) = update a s
}.

Arguments mkLens {S A} _ _ _ _ _.
Arguments view {S A} _ _.
Arguments update {S A} _ _ _.
Arguments view_update {S A} _ _ _.
Arguments update_view {S A} _ _.
Arguments update_update {S A} _ _ _ _.

(** A model class with its manager ([Model.objects]). *)
Record Manager (F : Type) : Type := mkManager {
  model_name : string;
  table : Lens Database (list (Row F))
}.

Arguments mkManager {F} _ _.
Arguments model_name {F} _.
Arguments table {F} _.

Definition objects {F} (T : Manager F) (db : Database) : list (Row F) :=
  view (table T) db.

Definition set_objects {F} (T : Manager F) (tbl : list (Row F)) (db : Database) : Database :=
  update (table T) tbl db.

Ltac by_cases_on_record :=
  intros; repeat match goal with
                 | x : Database |- _ => destruct x
                 | x : ProjectTemplate |- _ => destruct x
                 end; reflexivity.

Definition us_statuses_table : Lens Database (list (Row UserStoryStatusFields)).
Proof. refine (mkLens db_us_statuses set_db_us_statuses _ _ _); by_cases_on_record. Defined.

Definition points_table : Lens Database (list (Row PointsFields)).
Proof. refine (mkLens db_points set_db_points _ _ _); by_cases_on_record. Defined.

Definition task_statuses_table : Lens Database (list (Row StatusFields)).
Proof. refine (mkLens db_task_statuses set_db_task_statuses _ _ _); by_cases_on_record. Defined.

Definition issue_statuses_table : Lens Database (list (Row StatusFields)).
Proof. refine (mkLens db_issue_statuses set_db_issue_statuses _ _ _); by_cases_on_record. Defined.

Definition issue_types_table : Lens Database (list (Row ColorFields)).
Proof. refine (mkLens db_issue_types set_db_issue_types _ _ _); by_cases_on_record. Defined.

Definition priorities_table : Lens Database (list (Row ColorFields)).
Proof. refine (mkLens db_priorities set_db_priorities _ _ _); by_cases_on_record. Defined.

Definition severities_table : Lens Database (list (Row ColorFields)).
Proof. refine (mkLens db_severities set_db_severities _ _ _); by_cases_on_record. Defined.

Definition roles_table : Lens Database (list (Row RoleFields)).
Proof. refine (mkLens db_roles set_db_roles _ _ _); by_cases_on_record. Defined.

Definition UserStoryStatus := mkManager "UserStoryStatus" us_statuses_table.
Definition Points := mkManager "Points" points_table.
Definition TaskStatus := mkManager "TaskStatus" task_statuses_table.
Definition IssueStatus := mkManager "IssueStatus" issue_statuses_table.
Definition IssueType := mkManager "IssueType" issue_types_table.
Definition Priority := mkManager "Priority" priorities_table.
Definition Severity := mkManager "Severity" severities_table.
Definition Role := mkManager "Role" roles_table.

(** The JSON lists of a template. *)
Definition t_us_statuses_field : Lens ProjectTemplate (option (list (Snapshot UserStoryStatusFields))).
Proof. refine (mkLens t_us_statuses set_t_us_statuses _ _ _); by_cases_on_record. Defined.

Definition t_points_field : Lens ProjectTemplate (option (list (Snapshot PointsFields))).
Proof. refine (mkLens t_points set_t_points _ _ _); by_cases_on_record. Defined.

Definition t_task_statuses_field : Lens ProjectTemplate (option (list (Snapshot StatusFields))).
Proof. refine (mkLens t_task_statuses set_t_task_statuses _ _ _); by_cases_on_record. Defined.

Definition t_issue_statuses_field : Lens ProjectTemplate (option (list (Snapshot StatusFields))).
Proof. refine (mkLens t_issue_statuses set_t_issue_statuses _ _ _); by_cases_on_record. Defined.

Definition t_issue_types_field : Lens ProjectTemplate (option (list (Snapshot ColorFields))).
Proof. refine (mkLens t_issue_types set_t_issue_types _ _ _); by_cases_on_record. Defined.

Definition t_priorities_field : Lens ProjectTemplate (option (list (Snapshot ColorFields))).
Proof. refine (mkLens t_priorities set_t_priorities _ _ _); by_cases_on_record. Defined.

Definition t_severities_field : Lens ProjectTemplate (option (list (Snapshot ColorFields))).
Proof. refine (mkLens t_severities set_t_severities _ _ _); by_cases_on_record. Defined.

Definition t_roles_field : Lens ProjectTemplate (option (list (Snapshot RoleFields))).
Proof. refine (mkLens t_roles set_t_roles _ _ _); by_cases_on_record. Defined.

(** The objects that [apply_to_project] mutates: the database and the
    project instance it was given. *)
Record Heap : Type := mkHeap {
  h_db : Database;
  h_project : Project
}.

Definition on_db (f : Database -> Database) (h : Heap) : Heap :=
  mkHeap (f (h_db h)) (h_project h).

Definition on_project (f : Project -> Project) (h : Heap) : Heap :=
  mkHeap (h_db h) (f (h_project h)).

Definition on_defaults (f : ProjectDefaults -> ProjectDefaults) (p : Project) : Project :=
  set_p_defaults (f (p_defaults p)) p.

(** Lifting a query result into the monad. *)
Definition lift {S A} (r : Exc + A) : M S A :=
  match r with
  | inr a => ret a
  | inl e => raise e
  end.

(** [try: body except <handled>: handler] *)
Definition try_except {S A} (body : M S A) (handled : Exc -> bool) (handler : M S A) : M S A :=
  fun s => match body s with
           | Ok a s' => Ok a s'
           | Raise e s' => if handled e then handler s' else Raise e s'
           end.

(** ** [ProjectTemplate.load_data_from_project] and [apply_to_project] *)

Section Template.

(** [taiga.base.utils.slug.slugify_uniquely_for_queryset(value, queryset)],
    given the slugs of the rows of [queryset]. *)
Variable slugify_uniquely_for_queryset : string -> list string -> string.

(** [unique_together = ("project", "slug")] *)
Definition slug_taken {F} `{HasOrdering F} `{HasSlug F} (pid : Z) (slug : string) (tbl : list (Row F)) : bool :=
  existsb (fun r => String.eqb (get_slug (row_fields r)) slug) (related pid tbl).

(** [Model.objects.create(name=..., ..., project=project)] for [Points],
    [IssueType], [Priority] and [Severity]: an [INSERT] checked against
    [unique_together = ("project", "name")]. *)
Definition create {F} `{HasOrdering F} (T : Manager F) (name : string) (fields : F) (pid : Z) : M Heap unit :=
  fun h =>
    let tbl := objects T (h_db h) in
    if name_taken pid name tbl then Raise (IntegrityError (model_name T)) h
    else Ok tt (on_db (set_objects T (tbl ++ [mkRow (next_id tbl) pid name fields])) h).

(** [Model.objects.create] for [UserStoryStatus], [TaskStatus] and
    [IssueStatus], whose [save] first replaces the slug:
    [qs = self.project.<statuses>; self.slug = slugify_uniquely_for_queryset(self.name, qs)]
    (the instance has no id yet, so nothing is excluded from [qs]). *)
Definition create_with_slug {F} `{HasOrdering F} `{HasSlug F} (T : Manager F) (name : string) (fields : F)
    (pid : Z) : M Heap unit :=
  fun h =>
    let tbl := objects T (h_db h) in
    let qs := related pid tbl in
    let slug := slugify_uniquely_for_queryset name (map (fun r => get_slug (row_fields r)) qs) in
    if name_taken pid name tbl || slug_taken pid slug tbl
    then Raise (IntegrityError (model_name T)) h
    else Ok tt (on_db (set_objects T (tbl ++ [mkRow (next_id tbl) pid name (set_slug slug fields)])) h).

(** Modelled from the spec: [users.Role] is declared outside these sources;
    [Role.objects.create] is taken as the creation of a fresh row scoped to
    the project, with a new id. *)
Definition create_role (name : string) (fields : RoleFields) (pid : Z) : M Heap unit :=
  fun h =>
    let tbl := objects Role (h_db h) in
    Ok tt (on_db (set_objects Role (tbl ++ [mkRow (next_id tbl) pid name fields])) h).

(** [Model.objects.get(name=name, project=project)] *)
Definition get {F} `{HasOrdering F} (T : Manager F) (name : option string) (pid : Z) : M Heap (Row F) :=
  fun h => lift (get_by_name (model_name T) name pid (objects T (h_db h))) h.

(** [self.default_options[key]] *)
Definition default_option {S} (self : ProjectTemplate) (key : string) : M S (option string) :=
  match t_default_options self with
  | None => raise TypeError
  | Some options =>
      match options !! key with
      | Some v => ret v
      | None => raise (KeyError key)
      end
  end.

Definition apply_to_project (self : ProjectTemplate) : M Heap Project :=
  project <- gets h_project ;;
  match p_id project with
  | None => raise (Exception "Project need an id (must be a saved project)")
  | Some pid =>
      modify (on_project (set_p_creation_template (t_id self))) ;;;
      modify (on_project (set_p_is_backlog_activated (t_is_backlog_activated self))) ;;;
      modify (on_project (set_p_is_kanban_activated (t_is_kanban_activated self))) ;;;
      modify (on_project (set_p_is_wiki_activated (t_is_wiki_activated self))) ;;;
      modify (on_project (set_p_is_issues_activated (t_is_issues_activated self))) ;;;
      modify (on_project (set_p_videoconferences (t_videoconferences self))) ;;;
      modify (on_project (set_p_videoconferences_extra_data (t_videoconferences_extra_data self))) ;;;

      us_statuses <- iter_json (t_us_statuses self) ;;
      for_ us_statuses (fun us_status =>
        create_with_slug UserStoryStatus (snap_name us_status) (snap_fields us_status) pid) ;;;

      points <- iter_json (t_points self) ;;
      for_ points (fun point =>
        create Points (snap_name point) (snap_fields point) pid) ;;;

      task_statuses <- iter_json (t_task_statuses self) ;;
      for_ task_statuses (fun task_status =>
        create_with_slug TaskStatus (snap_name task_status) (snap_fields task_status) pid) ;;;

      issue_statuses <- iter_json (t_issue_statuses self) ;;
      for_ issue_statuses (fun issue_status =>
        create_with_slug IssueStatus (snap_name issue_status) (snap_fields issue_status) pid) ;;;

      issue_types <- iter_json (t_issue_types self) ;;
      for_ issue_types (fun issue_type =>
        create IssueType (snap_name issue_type) (snap_fields issue_type) pid) ;;;

      priorities <- iter_json (t_priorities self) ;;
      for_ priorities (fun priority =>
        create Priority (snap_name priority) (snap_fields priority) pid) ;;;

      severities <- iter_json (t_severities self) ;;
      for_ severities (fun severity =>
        create Severity (snap_name severity) (snap_fields severity) pid) ;;;

      roles <- iter_json (t_roles self) ;;
      for_ roles (fun role =>
        create_role (snap_name role) (snap_fields role) pid) ;;;

      when (truthy_list (t_points self)) (
        name <- default_option self "points" ;;
        row <- get Points name pid ;;
        modify (on_project (on_defaults (set_default_points (Some (row_id row)))))) ;;;
      when (truthy_list (t_us_statuses self)) (
        name <- default_option self "us_status" ;;
        row <- get UserStoryStatus name pid ;;
        modify (on_project (on_defaults (set_default_us_status (Some (row_id row)))))) ;;;
      when (truthy_list (t_task_statuses self)) (
        name <- default_option self "task_status" ;;
        row <- get TaskStatus name pid ;;
        modify (on_project (on_defaults (set_default_task_status (Some (row_id row)))))) ;;;
      when (truthy_list (t_issue_statuses self)) (
        name <- default_option self "issue_status" ;;
        row <- get IssueStatus name pid ;;
        modify (on_project (on_defaults (set_default_issue_status (Some (row_id row)))))) ;;;
      when (truthy_list (t_issue_types self)) (
        name <- default_option self "issue_type" ;;
        row <- get IssueType name pid ;;
        modify (on_project (on_defaults (set_default_issue_type (Some (row_id row)))))) ;;;
      when (truthy_list (t_priorities self)) (
        name <- default_option self "priority" ;;
        row <- get Priority name pid ;;
        modify (on_project (on_defaults (set_default_priority (Some (row_id row)))))) ;;;
      when (truthy_list (t_severities self)) (
        name <- default_option self "severity" ;;
        row <- get Severity name pid ;;
        modify (on_project (on_defaults (set_default_severity (Some (row_id row)))))) ;;;

      gets h_project
  end.

End Template.

(** [project.<related_name>.all()] of a project instance; an unsaved
    project has no related rows. *)
Definition all {F} `{HasOrdering F} (project : Project) (tbl : list (Row F)) : list (Row F) :=
  match p_id project with
  | Some pid => related pid tbl
  | None => []
  end.

(** [self.<field>.append(entry)] on a JSON list of the template. *)
Definition append {F} (field : Lens ProjectTemplate (option (list (Snapshot F))))
    (entry : Snapshot F) : M ProjectTemplate unit :=
  fun self =>
    match view field self with
    | Some entries => Ok tt (update field (Some (entries ++ [entry])) self)
    | None => Raise TypeError self
    end.

(** [Membership.objects.get(project=project, user=user)] *)
Definition get_membership (db : Database) (project : Project) (user : Z) : Exc + Membership :=
  match List.filter
          (fun m => match p_id project, m_user m with
                    | Some pid, Some u => (m_project m =? pid) && (u =? user)
                    | _, _ => false
                    end)
          (db_memberships db) with
  | [] => inl (DoesNotExist "Membership")
  | [m] => inr m
  | _ :: _ :: _ => inl (MultipleObjectsReturned "Membership")
  end.

(** [project.owner]: following the non-null key to the owner. *)
Definition owner_of (project : Project) : Exc + Z :=
  match p_owner_id project with
  | Some u => inr u
  | None => inl (DoesNotExist "User")
  end.

(** [membership.role.slug] *)
Definition role_slug (db : Database) (m : Membership) : Exc + string :=
  match List.find (fun r => row_id r =? m_role m) (db_roles db) with
  | Some r => inr (ro_slug (row_fields r))
  | None => inl (DoesNotExist "Role")
  end.

Definition is_membership_does_not_exist (e : Exc) : bool :=
  match e with
  | DoesNotExist model => String.eqb model "Membership"
  | _ => false
  end.

(** [self.roles[0].get("slug", None)] *)
Definition first_role_slug (self : ProjectTemplate) : Exc + option string :=
  match t_roles self with
  | None => inl TypeError
  | Some [] => inl IndexError
  | Some (role :: _) => inr (Some (ro_slug (snap_fields role)))
  end.

Definition load_data_from_project (db : Database) (project : Project) : M ProjectTemplate unit :=
  modify (set_t_is_backlog_activated (p_is_backlog_activated project)) ;;;
  modify (set_t_is_kanban_activated (p_is_kanban_activated project)) ;;;
  modify (set_t_is_wiki_activated (p_is_wiki_activated project)) ;;;
  modify (set_t_is_issues_activated (p_is_issues_activated project)) ;;;
  modify (set_t_videoconferences (p_videoconferences project)) ;;;
  modify (set_t_videoconferences_extra_data (p_videoconferences_extra_data project)) ;;;

  points <- lift (fk_name "Points" (default_points (p_defaults project)) (db_points db)) ;;
  us_status <- lift (fk_name "UserStoryStatus" (default_us_status (p_defaults project)) (db_us_statuses db)) ;;
  task_status <- lift (fk_name "TaskStatus" (default_task_status (p_defaults project)) (db_task_statuses db)) ;;
  issue_status <- lift (fk_name "IssueStatus" (default_issue_status (p_defaults project)) (db_issue_statuses db)) ;;
  issue_type <- lift (fk_name "IssueType" (default_issue_type (p_defaults project)) (db_issue_types db)) ;;
  priority <- lift (fk_name "Priority" (default_priority (p_defaults project)) (db_priorities db)) ;;
  severity <- lift (fk_name "Severity" (default_severity (p_defaults project)) (db_severities db)) ;;
  modify (set_t_default_options (Some (
    <["points" := points]> (
    <["us_status" := us_status]> (
    <["task_status" := task_status]> (
    <["issue_status" := issue_status]> (
    <["issue_type" := issue_type]> (
    <["priority" := priority]> (
    <["severity" := severity]> ∅))))))))) ;;;

  modify (set_t_us_statuses (Some [])) ;;;
  for_ (all project (db_us_statuses db)) (fun us_status =>
    append t_us_statuses_field (snapshot us_status)) ;;;

  modify (set_t_points (Some [])) ;;;
  for_ (all project (db_points db)) (fun us_point =>
    append t_points_field (snapshot us_point)) ;;;

  modify (set_t_task_statuses (Some [])) ;;;
  for_ (all project (db_task_statuses db)) (fun task_status =>
    append t_task_statuses_field (snapshot task_status)) ;;;

  modify (set_t_issue_statuses (Some [])) ;;;
  for_ (all project (db_issue_statuses db)) (fun issue_status =>
    append t_issue_statuses_field (snapshot issue_status)) ;;;

  modify (set_t_issue_types (Some [])) ;;;
  for_ (all project (db_issue_types db)) (fun issue_type =>
    append t_issue_types_field (snapshot issue_type)) ;;;

  modify (set_t_priorities (Some [])) ;;;
  for_ (all project (db_priorities db)) (fun priority =>
    append t_priorities_field (snapshot priority)) ;;;

  modify (set_t_severities (Some [])) ;;;
  for_ (all project (db_severities db)) (fun severity =>
    append t_severities_field (snapshot severity)) ;;;

  modify (set_t_roles (Some [])) ;;;
  for_ (all project (db_roles db)) (fun role =>
    append t_roles_field (snapshot role)) ;;;

  try_except
    (owner <- lift (owner_of project) ;;
     owner_membership <- lift (get_membership db project owner) ;;
     slug <- lift (role_slug db owner_membership) ;;
     modify (set_t_default_owner_role (Some slug)))
    is_membership_does_not_exist
    (slug <- gets first_role_slug ;;
     slug <- lift slug ;;
     modify (set_t_default_owner_role slug)).

(** ** [Membership.clean] *)

Definition same_key (a b : option Z) : bool :=
  match a, b with
  | Some x, Some y => x =? y
  | None, None => true
  | _, _ => false
  end.

(** [Membership.objects.filter(user=user, project=project)]; a [user] of
    [None] compiles to [user_id IS NULL]. The result is kept in table
    order (the order of [Meta.ordering] is not modelled). *)
Definition filter_memberships (db : Database) (user : option Z) (project : Z) : list Membership :=
  List.filter (fun m => same_key (m_user m) user && (m_project m =? project)) (db_memberships db).

(** [if self.user and memberships.count() > 0 and memberships[0].id != self.id: raise]:
    [memberships[0]] is evaluated only when the count is positive. *)
Definition clean (db : Database) (self : Membership) : Exc + unit :=
  let memberships := filter_memberships db (m_user self) (m_project self) in
  match m_user self, memberships with
  | Some _, first :: _ =>
      if negb (same_key (m_id first) (m_id self))
      then inl (ValidationError "The user is already member of the project")
      else inr tt
  | _, _ => inr tt
  end.

(** ** Users, notify policies and [Project.get_related_people] *)

Record User : Type := mkUser {
  u_id : Z;
  u_username : string;
  u_is_active : bool;
  u_is_system : bool
}.

#[export] Instance User_eq_dec : EqDecision User.
Proof. solve_decision. Defined.

(** Modelled from the spec: [taiga.projects.notifications.choices] is
    outside these sources; the levels of a notify policy, [ignore] among
    them. *)
Inductive NotifyLevel : Type := notwatch | watch | ignore.

#[export] Instance NotifyLevel_eq_dec : EqDecision NotifyLevel.
Proof. solve_decision. Defined.

(** A row of [notifications.NotifyPolicy]; [User.notify_policies] is its
    reverse relation. *)
Record NotifyPolicy : Type := mkNotifyPolicy {
  np_user : Z;
  np_project : Z;
  np_notify_level : NotifyLevel
}.

Record Accounts : Type := mkAccounts {
  users : list User;
  notify_policies : list NotifyPolicy
}.

(** The keyword lookups that the queries of [Project] use. *)
Inductive Lookup : Type :=
| id__exact (v : Z)
| notify_policies__project_id (v : option Z)
| notify_policies__notify_level (v : NotifyLevel).

(** [django.db.models.Q] *)
Inductive Q : Type :=
| Q_empty
| Q_lookup (l : Lookup)
| Q_and (a b : Q)
| Q_or (a b : Q)
| Q_not (a : Q).

Notation "a & b" := (Q_and a b) (at level 40, left associativity).
Notation "~~ a" := (Q_not a) (at level 35, right associativity).

Inductive Connector : Type := AND | OR.

(** [q.add(data, connector)] *)
Definition Q_add (q data : Q) (connector : Connector) : Q :=
  match connector with
  | AND => Q_and q data
  | OR => Q_or q data
  end.

(** A row of [users LEFT OUTER JOIN notify_policies]. All lookups of one
    [filter()] call share the joined policy row; the negated lookup
    compiles to a sub-query tied to that same row. *)
Definition JoinedRow : Type := (User * option NotifyPolicy)%type.

Definition join_policies (db : Accounts) (u : User) : list JoinedRow :=
  match List.filter (fun p => np_user p =? u_id u) (notify_policies db) with
  | [] => [(u, None)]
  | ps => map (fun p => (u, Some p)) ps
  end.

Definition eval_lookup (l : Lookup) (row : JoinedRow) : bool :=
  match l, row with
  | id__exact v, (u, _) => u_id u =? v
  | notify_policies__project_id (Some v), (_, Some p) => np_project p =? v
  | notify_policies__project_id (Some _), (_, None) => false
  | notify_policies__project_id None, (_, Some _) => false
  | notify_policies__project_id None, (_, None) => true
  | notify_policies__notify_level v, (_, Some p) => bool_decide (np_notify_level p = v)
  | notify_policies__notify_level _, (_, None) => false
  end.

(** An empty [Q()] adds no condition and is skipped inside a connector. *)
Fixpoint eval_Q (q : Q) (row : JoinedRow) : option bool :=
  match q with
  | Q_empty => None
  | Q_lookup l => Some (eval_lookup l row)
  | Q_and a b =>
      match eval_Q a row, eval_Q b row with
      | None, r => r
      | r, None => r
      | Some x, Some y => Some (x && y)
      end
  | Q_or a b =>
      match eval_Q a row, eval_Q b row with
      | None, r => r
      | r, None => r
      | Some x, Some y => Some (x || y)
      end
  | Q_not a =>
      match eval_Q a row with
      | None => None
      | Some x => Some (negb x)
      end
  end.

(** [get_user_model().objects.filter(q)]: one result per joined row that
    satisfies [q]. *)
Definition filter_users (db : Accounts) (q : Q) : list User :=
  map fst (List.filter (fun row => default true (eval_Q q row))
             (flat_map (join_policies db) (users db))).

(** [Project._get_q_watchers] *)
Definition _get_q_watchers (self : Project) : Q :=
  Q_lookup (notify_policies__project_id (p_id self))
  & ~~ Q_lookup (notify_policies__notify_level ignore).

(** [Project.get_watchers] *)
Definition get_watchers (db : Accounts) (self : Project) : list User :=
  filter_users db (_get_q_watchers self).

(** [if self.owner_id:] *)
Definition truthy_id (i : option Z) : bool :=
  match i with
  | Some v => negb (v =? 0)
  | None => false
  end.

(** [Project.get_related_people] *)
Definition get_related_people (db : Accounts) (self : Project) : list User :=
  let related_people_q := Q_empty in
  let related_people_q :=
    match p_owner_id self with
    | Some owner_id =>
        if truthy_id (Some owner_id)
        then Q_add related_people_q (Q_lookup (id__exact owner_id)) OR
        else related_people_q
    | None => related_people_q
    end in
  let related_people_q := Q_add related_people_q (_get_q_watchers self) OR in
  let related_people := filter_users db related_people_q in
  let related_people := List.filter (fun u => negb (bool_decide (u_is_active u = false))) related_people in
  let related_people := List.filter (fun u => negb (bool_decide (u_is_system u = true))) related_people in
  remove_dups related_people.

(** ** [Project.save] *)

(** The [Project] table, the users that owners are looked up in, and the
    instance being saved. *)
Record SaveHeap : Type := mkSaveHeap {
  sh_projects : list Project;
  sh_users : list User;
  sh_self : Project
}.

Definition on_self (f : Project -> Project) (h : SaveHeap) : SaveHeap :=
  mkSaveHeap (sh_projects h) (sh_users h) (f (sh_self h)).

(** [str(i)] *)
Definition str (i : Z) : string := NilZero.string_of_int (Z.to_int i).

(** ["{}-{}".format(a, b)] *)
Definition format_dash (a b : string) : string :=
  String.append a (String.append "-" b).

(** Truth value of a string and of a nullable string. *)
Definition truthy_string (s : string) : bool := negb (String.eqb s "").

Definition truthy_option_string (s : option string) : bool :=
  match s with
  | Some v => truthy_string v
  | None => false
  end.

(** [type(self).objects.filter(slug=slug).exists()] *)
Definition slug_exists (projects : list Project) (slug : string) : bool :=
  existsb (fun p => String.eqb (p_slug p) slug) projects.

(** [self.owner]: the user row that [owner_id] refers to. *)
Definition find_owner (users : list User) (self : Project) : Exc + User :=
  match p_owner_id self with
  | None => inl (DoesNotExist "User")
  | Some i =>
      match List.find (fun u => u_id u =? i) users with
      | Some u => inr u
      | None => inl (DoesNotExist "User")
      end
  end.

Definition next_project_id (projects : list Project) : Z :=
  1 + fold_right Z.max 0 (map (fun p => default 0 (p_id p)) projects).

(** The unique index of a [OneToOneField] of [ProjectDefaults]: the key of
    the instance is not null and one of the projects holds it. *)
Definition key_taken (key : ProjectDefaults -> option Z) (self : Project)
    (projects : list Project) : bool :=
  match key (p_defaults self) with
  | Some k => existsb (fun p => same_key (key (p_defaults p)) (Some k)) projects
  | None => false
  end.

Definition defaults_taken (self : Project) (projects : list Project) : bool :=
  key_taken default_points self projects
  || key_taken default_us_status self projects
  || key_taken default_task_status self projects
  || key_taken default_priority self projects
  || key_taken default_severity self projects
  || key_taken default_issue_status self projects
  || key_taken default_issue_type self projects.

(** The stored rows that the unique constraints compare the instance
    with: every row but its own. *)
Definition other_projects (h : SaveHeap) : list Project :=
  List.filter (fun p => negb (same_key (p_id p) (p_id (sh_self h)))) (sh_projects h).

(** [super().save()]: an [UPDATE] of the row with the instance's id, or an
    [INSERT] (with a fresh id for an unsaved instance), checked against the
    [unique] constraint of [slug], the unique indexes of the seven
    [OneToOneField]s [default_*] and the [NOT NULL] constraint of [owner].
    The [max_length] of the character columns is left to the database
    backend. *)
Definition super_save : M SaveHeap unit :=
  fun h =>
    let self := sh_self h in
    let others := other_projects h in
    if slug_exists others (p_slug self) || defaults_taken self others
    then Raise (IntegrityError "Project") h
    else
      match p_owner_id self, p_id self with
      | None, _ => Raise (IntegrityError "Project") h
      | Some _, Some i =>
          if existsb (fun p => same_key (p_id p) (Some i)) (sh_projects h)
          then Ok tt (mkSaveHeap
                        (map (fun p => if same_key (p_id p) (Some i) then self else p) (sh_projects h))
                        (sh_users h) self)
          else Ok tt (mkSaveHeap (sh_projects h ++ [self]) (sh_users h) self)
      | Some _, None =>
          let self' := set_p_id (Some (next_project_id (sh_projects h))) self in
          Ok tt (mkSaveHeap (sh_projects h ++ [self']) (sh_users h) self')
      end.

(** The loop of [save], entered with [slug = base_slug] and the first
    element [i] of [arithmetic_progression()], whose step is [step]:
    [for i in arithmetic_progression():
         if not type(self).objects.filter(slug=slug).exists() or i > 100: break
         slug = "{}-{}".format(base_slug, i)] *)
Equations? slug_loop (step : positive) (projects : list Project) (base_slug : string)
  (i : Z) (slug : string) : string by wf (Z.to_nat (101 - i)) lt :=
slug_loop step projects base_slug i slug
  with negb (slug_exists projects slug), Z_lt_dec 100 i => {
  | true, _ := slug;
  | false, left _ := slug;
  | false, right _ :=
      slug_loop step projects base_slug (i + Z.pos step) (format_dash base_slug (str i)) }.
Proof. lia. Qed.

Section ProjectSave.

(** [taiga.base.utils.slug.slugify_uniquely(value, model)], given the slugs
    stored in the table of [model]. *)
Variable slugify_uniquely : string -> list string -> string.

(** [taiga.base.utils.sequence.arithmetic_progression()] is declared outside
    these sources; it is taken as the unbounded sequence [start],
    [start + step], ... of its name, with a positive step. *)
Variable start : Z.
Variable step : positive.

(** [timezone.now()] *)
Variable now : Z.

Definition save : M SaveHeap unit :=
  self <- gets sh_self ;;
  when (negb (p_importing self) || negb (bool_decide (is_Some (p_modified_date self))))
    (modify (on_self (set_p_modified_date (Some now)))) ;;;

  when (negb (truthy_string (p_slug self))) (
    users <- gets sh_users ;;
    owner <- lift (find_owner users self) ;;
    let base_name := format_dash (u_username owner) (p_name self) in
    projects <- gets sh_projects ;;
    let base_slug := slugify_uniquely base_name (map p_slug projects) in
    let slug := slug_loop step projects base_slug start base_slug in
    modify (on_self (set_p_slug slug))) ;;;

  when (negb (truthy_option_string (p_videoconferences self)))
    (modify (on_self (set_p_videoconferences_extra_data None))) ;;;

  super_save.

End ProjectSave.

(** ** Querysets and their [extra(select=...)] annotations *)

(** A model class as the annotators use it:
    [ContentType.objects.get_for_model(model).id] and [model._meta.db_table]. *)
Record Model : Type := mkModel {
  content_type_id : Z;
  db_table : string
}.

(** Rows of [votes_votes] (the counter per object) and of [votes_vote]
    (one row per object and voter). *)
Record Votes : Type := mkVotes {
  votes_content_type_id : Z;
  votes_object_id : Z;
  votes_count : option Z
}.

Record Vote : Type := mkVote {
  vote_content_type_id : Z;
  vote_object_id : Z;
  vote_user_id : Z
}.

(** Modelled from the spec: a row of the Watch Store,
    [(entity_kind, entity_id, user_id)]. *)
Record Watched : Type := mkWatched {
  watched_content_type_id : Z;
  watched_object_id : Z;
  watched_user_id : Z
}.

Record SocialDB : Type := mkSocialDB {
  votes_votes : list Votes;
  votes_vote : list Vote;
  notifications_watched : list Watched
}.

(** The SQL fragments that the annotators format, by their parameters
    ([watchers_sql] and [is_watched_sql] are those of the annotators of
    [notifications/utils.py], modelled from the spec). *)
Inductive ExtraSelect : Type :=
| votes_count_sql (type_id : Z) (tbl : string)
| is_voted_sql (type_id : Z) (tbl : string) (user_id : Z)
| watchers_sql (type_id : Z) (tbl : string)
| is_watched_sql (type_id : Z) (tbl : string) (user_id : Z).

(** A fragment is user-scoped when it names a user. *)
Definition user_scoped (sql : ExtraSelect) : bool :=
  match sql with
  | is_voted_sql _ _ _ | is_watched_sql _ _ _ => true
  | votes_count_sql _ _ | watchers_sql _ _ => false
  end.

(** A lazy queryset: its model, the ids of the rows its [FROM]/[WHERE]
    selects, and the dictionary of extra select clauses. *)
Record QuerySet : Type := mkQuerySet {
  qs_model : Model;
  qs_rows : list Z;
  qs_extra : gmap string ExtraSelect
}.

(** [queryset.extra(select={as_field: sql})] *)
Definition extra (queryset : QuerySet) (as_field : string) (sql : ExtraSelect) : QuerySet :=
  mkQuerySet (qs_model queryset) (qs_rows queryset) (<[as_field := sql]> (qs_extra queryset)).

(** Attribute values of a fetched object. *)
Inductive Value : Type :=
| VNone
| VBool (b : bool)
| VInt (n : Z)
| VList (l : list Z).

(** A fetched model instance: its id and the attributes attached to it. *)
Record Obj : Type := mkObj {
  obj_id : Z;
  obj_attrs : gmap string Value
}.

Definition coalesce (v : option Z) (d : Z) : Z := default d v.

(** [SUM(column)] is [NULL] over no rows. *)
Definition sql_sum (vs : list Z) : option Z :=
  match vs with
  | [] => None
  | _ => Some (fold_right Z.add 0 vs)
  end.

(** The value of a fragment for the outer row [{tbl}.id = row_id]. *)
Definition eval_sql (db : SocialDB) (row_id : Z) (sql : ExtraSelect) : Value :=
  match sql with
  | votes_count_sql type_id _ =>
      let e := map (fun v => coalesce (votes_count v) 0)
                 (List.filter (fun v => (votes_content_type_id v =? type_id)
                                        && (votes_object_id v =? row_id))
                    (votes_votes db)) in
      VInt (coalesce (sql_sum e) 0)
  | is_voted_sql type_id _ user_id =>
      let count := length (List.filter (fun v => (vote_content_type_id v =? type_id)
                                                 && (vote_object_id v =? row_id)
                                                 && (vote_user_id v =? user_id))
                             (votes_vote db)) in
      VBool (0 <? Z.of_nat count)
  | watchers_sql type_id _ =>
      VList (map watched_user_id
               (List.filter (fun w => (watched_content_type_id w =? type_id)
                                      && (watched_object_id w =? row_id))
                  (notifications_watched db)))
  | is_watched_sql type_id _ user_id =>
      let count := length (List.filter (fun w => (watched_content_type_id w =? type_id)
                                                 && (watched_object_id w =? row_id)
                                                 && (watched_user_id w =? user_id))
                             (notifications_watched db)) in
      VBool (0 <? Z.of_nat count)
  end.

(** Evaluating the queryset: one query, whose every row carries the value
    of every extra select clause. *)
Definition fetch (db : SocialDB) (queryset : QuerySet) : list Obj :=
  map (fun row_id => mkObj row_id (eval_sql db row_id <$> qs_extra queryset)) (qs_rows queryset).

(** [taiga/projects/votes/utils.py] *)
Definition attach_votes_count_to_queryset (queryset : QuerySet) (as_field : string) : QuerySet :=
  let model := qs_model queryset in
  let type_id := content_type_id model in
  let sql := votes_count_sql type_id (db_table model) in
  extra queryset as_field sql.

Definition attach_is_vote_to_queryset (user : User) (queryset : QuerySet) (as_field : string) : QuerySet :=
  let model := qs_model queryset in
  let type_id := content_type_id model in
  let sql := is_voted_sql type_id (db_table model) (u_id user) in
  extra queryset as_field sql.

(** Modelled from the spec: [taiga/projects/notifications/utils.py] is
    outside these sources. [attach_watchers_to_queryset] attaches the ids
    of the watchers of each row as one extra select clause. *)
Definition attach_watchers_to_queryset (queryset : QuerySet) (as_field : string) : QuerySet :=
  let model := qs_model queryset in
  extra queryset as_field (watchers_sql (content_type_id model) (db_table model)).

(** Modelled from the spec: [attach_is_watched_to_queryset(queryset, user)]
    of the absent module attaches the viewer's [is_watched] as one extra
    select clause. *)
Definition attach_is_watched_to_queryset (queryset : QuerySet) (user : User) (as_field : string) : QuerySet :=
  let model := qs_model queryset in
  extra queryset as_field (is_watched_sql (content_type_id model) (db_table model) (u_id user)).

(** [request.user]: a user, or Django's [AnonymousUser]. *)
Inductive RequestUser : Type :=
| AnonymousUser
| Authenticated (user : User).

Definition is_authenticated (user : RequestUser) : bool :=
  match user with
  | AnonymousUser => false
  | Authenticated _ => true
  end.

(** [BaseVotedResource.attach_votes_attrs_to_queryset] *)
Definition attach_votes_attrs_to_queryset (request_user : RequestUser) (queryset : QuerySet) : QuerySet :=
  let qs := attach_votes_count_to_queryset queryset "votes_count" in
  match request_user with
  | Authenticated user => attach_is_vote_to_queryset user qs "is_voted"
  | AnonymousUser => qs
  end.

(** [WatchedResourceMixin.attach_watchers_attrs_to_queryset] *)
Definition attach_watchers_attrs_to_queryset (request_user : RequestUser) (queryset : QuerySet) : QuerySet :=
  let qs := attach_watchers_to_queryset queryset "watchers" in
  match request_user with
  | Authenticated user => attach_is_watched_to_queryset qs user "is_watched"
  | AnonymousUser => qs
  end.

(** Python truth value, [a or b] and [getattr(obj, name, default)]. *)
Definition truthy (v : Value) : bool :=
  match v with
  | VNone => false
  | VBool b => b
  | VInt n => negb (n =? 0)
  | VList l => negb (bool_decide (l = []))
  end.

Definition py_or (a b : Value) : Value := if truthy a then a else b.

Definition getattr (obj : Obj) (name : string) (default_value : Value) : Value :=
  default default_value (obj_attrs obj !! name).

(** [BaseVotedResourceSerializer] and [WatchedResourceModelSerializer] *)
Definition get_votes_counter (obj : Obj) : Value :=
  py_or (getattr obj "votes_count" (VInt 0)) (VInt 0).

Definition get_is_voted (obj : Obj) : Value :=
  py_or (getattr obj "is_voted" (VBool false)) (VBool false).

Definition get_is_watched (obj : Obj) : Value :=
  py_or (getattr obj "is_watched" (VBool false)) (VBool false).

(** ** Watched resources: notifications and the watchers field *)

(** An instance of a watched model (user story, task, issue, ...). *)
Record Instance : Type := mkInstance {
  i_model : Model;
  i_id : Z;
  i_project : Z;
  i_owner : option Z;
  i_assigned_to : option Z;
  i_watchers : option (list Z)
}.

(** A history entry, as far as [send_notifications] reads it. *)
Record HistoryEntry : Type := mkHistoryEntry {
  he_id : Z;
  he_comment : string;
  he_owner : Z
}.

#[export] Instance HistoryEntry_eq_dec : EqDecision HistoryEntry.
Proof. solve_decision. Defined.

(** The calls into [taiga.projects.notifications.services], in the order
    they are made. *)
Inductive Call : Type :=
| call_analize_object_for_watchers (obj : Instance) (comment : string) (user : Z)
| call_send_notifications (obj : Instance) (history : HistoryEntry)
| call_add_watcher (obj : Instance) (user : Z)
| call_remove_watcher (obj : Instance) (user : Z).

Record World : Type := mkWorld {
  w_accounts : Accounts;
  w_watched : list Watched;
  w_outbox : list (Z * HistoryEntry);
  w_calls : list Call
}.

Definition log (c : Call) : M World unit :=
  modify (fun w => mkWorld (w_accounts w) (w_watched w) (w_outbox w) (w_calls w ++ [c])).

Definition watches (obj : Instance) (user : Z) (w : Watched) : bool :=
  (watched_content_type_id w =? content_type_id (i_model obj))
  && (watched_object_id w =? i_id obj)
  && (watched_user_id w =? user).

Module services.

(** Modelled from the spec: [taiga/projects/notifications/services.py] is
    outside these sources. [add_watcher(obj, user)] is the idempotent insert
    of the Watch Store. *)
Definition add_watcher (obj : Instance) (user : Z) : M World unit :=
  log (call_add_watcher obj user) ;;;
  modify (fun w =>
    if existsb (watches obj user) (w_watched w) then w
    else mkWorld (w_accounts w)
           (w_watched w ++ [mkWatched (content_type_id (i_model obj)) (i_id obj) user])
           (w_outbox w) (w_calls w)).

(** Modelled from the spec: [remove_watcher(obj, user)] of the absent
    services module is the idempotent delete of the Watch Store. *)
Definition remove_watcher (obj : Instance) (user : Z) : M World unit :=
  log (call_remove_watcher obj user) ;;;
  modify (fun w =>
    mkWorld (w_accounts w)
      (List.filter (fun x => negb (watches obj user x)) (w_watched w))
      (w_outbox w) (w_calls w)).

(** Modelled from the spec: [get_watchers(obj)] of the absent services
    module are the users with a stored watch on the object. *)
Definition get_watchers (obj : Instance) (w : World) : list User :=
  List.filter (fun u => existsb (watches obj (u_id u)) (w_watched w)) (users (w_accounts w)).

(** Modelled from the spec: [get_related_people(obj)] of the absent
    services module is owner, assignee (if present) and watchers, without
    duplicates and without inactive and system accounts. *)
Definition get_related_people (obj : Instance) (w : World) : list User :=
  remove_dups
    (List.filter (fun u => u_is_active u && negb (u_is_system u))
       (List.filter (fun u => bool_decide (i_owner obj = Some (u_id u))
                              || bool_decide (i_assigned_to obj = Some (u_id u)))
          (users (w_accounts w))
        ++ get_watchers obj w)).

(** Modelled from the spec: the notify policy of the user for the project
    is at the level [ignore]. *)
Definition ignores (w : World) (project : Z) (u : User) : bool :=
  existsb (fun p => (np_user p =? u_id u) && (np_project p =? project)
                    && bool_decide (np_notify_level p = ignore))
    (notify_policies (w_accounts w)).

Section Mentions.

(** The users that the mentions of a text resolve to. *)
Variable mentions : string -> list Z.

(** Modelled from the spec: [analize_object_for_watchers(obj, comment, user)]
    of the absent services module adds the users mentioned in the comment
    as watchers of the object. *)
Definition analize_object_for_watchers (obj : Instance) (comment : string) (user : Z) : M World unit :=
  log (call_analize_object_for_watchers obj comment user) ;;;
  for_ (mentions comment) (fun mentioned => add_watcher obj mentioned).

End Mentions.

(** Modelled from the spec: [send_notifications(obj, history)] of the
    absent services module delivers the change to the related people of the
    object whose notify policy for the owning project is not [ignore]. *)
Definition send_notifications (obj : Instance) (history : HistoryEntry) : M World unit :=
  log (call_send_notifications obj history) ;;;
  modify (fun w =>
    let recipients :=
      List.filter (fun u => negb (ignores w (i_project obj) u)) (get_related_people obj w) in
    mkWorld (w_accounts w) (w_watched w)
      (w_outbox w ++ map (fun u => (u_id u, history)) recipients) (w_calls w)).

End services.

(** What [WatchedResourceMixin] uses of the resource it is mixed into:
    the class flag [_not_notify], and [get_last_history] and
    [get_object_for_snapshot] of the history mixin. *)
Record Resource : Type := mkResource {
  _not_notify : bool;
  get_last_history : option HistoryEntry;
  get_object_for_snapshot : Instance -> Instance
}.

Module WatchedResourceMixin.

Section Mentions.
Variable mentions : string -> list Z.

Definition send_notifications (self : Resource) (obj : Instance) (history : option HistoryEntry)
    : M World unit :=
  let history :=
    match history with
    | None => get_last_history self
    | Some h => Some h
    end in
  match history with
  | None => ret tt
  | Some history =>
      if _not_notify self then ret tt
      else
        let obj := get_object_for_snapshot self obj in
        services.analize_object_for_watchers mentions obj (he_comment history) (he_owner history) ;;;
        services.send_notifications obj history
  end.

End Mentions.

End WatchedResourceMixin.

(** The serializer instance ([self.fields]) and the world it works on. *)
Record SerializerHeap : Type := mkSerializerHeap {
  sz_fields : gset string;
  sz_world : World
}.

Definition in_world {A} (c : M World A) : M SerializerHeap A :=
  fun h => match c (sz_world h) with
           | Ok a w => Ok a (mkSerializerHeap (sz_fields h) w)
           | Raise e w => Raise e (mkSerializerHeap (sz_fields h) w)
           end.

Module WatchedResourceModelSerializer.

Section Serializer.

(** [self.validate_watchers(attrs, source)] and the [restore_object] of the
    parent [ModelSerializer] are declared outside these sources: the first
    reads the world and may raise, the second builds the instance from the
    remaining attributes. *)
Variable validate_watchers : gmap string Value -> string -> World -> Exc + unit.
Variable super_restore_object : gmap string Value -> option Instance -> Instance.

(** [set(attrs.pop("watchers", []))] *)
Definition pop_watchers (attrs : gmap string Value) : Exc + gset Z :=
  match attrs !! "watchers" with
  | None => inr ∅
  | Some (VList ids) => inr (list_to_set ids)
  | Some _ => inl TypeError
  end.

(** [User.objects.filter(id__in=ids)] *)
Definition users_in (ids : list Z) (w : World) : list User :=
  List.filter (fun u => bool_decide (u_id u ∈ ids)) (users (w_accounts w)).

Definition set_watchers (ids : list Z) (obj : Instance) : Instance :=
  mkInstance (i_model obj) (i_id obj) (i_project obj) (i_owner obj) (i_assigned_to obj) (Some ids).

Definition restore_object (attrs : gmap string Value) (instance : option Instance)
    : M SerializerHeap Instance :=
  modify (fun h => mkSerializerHeap (sz_fields h ∖ {["watchers"]}) (sz_world h)) ;;;
  in_world (fun w => lift (validate_watchers attrs "watchers" w) w) ;;;
  new_watcher_ids <- lift (pop_watchers attrs) ;;
  let attrs := delete "watchers" attrs in
  let obj := super_restore_object attrs instance in
  if bool_decide (instance = None) || (size new_watcher_ids =? 0)%nat
  then ret obj
  else
    old_watchers <- in_world (gets (services.get_watchers obj)) ;;
    let old_watcher_ids : gset Z := list_to_set (map u_id old_watchers) in
    let adding_watcher_ids := elements (new_watcher_ids ∖ old_watcher_ids) in
    let removing_watcher_ids := elements (old_watcher_ids ∖ new_watcher_ids) in
    adding_users <- in_world (gets (users_in adding_watcher_ids)) ;;
    removing_users <- in_world (gets (users_in removing_watcher_ids)) ;;
    for_ adding_users (fun user => in_world (services.add_watcher obj (u_id user))) ;;;
    for_ removing_users (fun user => in_world (services.remove_watcher obj (u_id user))) ;;;
    watchers <- in_world (gets (services.get_watchers obj)) ;;
    ret (set_watchers (map u_id watchers) obj).

End Serializer.

End WatchedResourceModelSerializer.

(** ** The favourites feed *)

Module Favourites.

(** Modelled from the spec: [taiga/users/services.py] ([get_favourites_list])
    and the vote and watch stores are outside these sources; this module
    follows the data model and the feed contract of the specification.
    The entity kinds of the feed. *)
Inductive EntityKind : Type := project | userstory | task | issue.

#[export] Instance EntityKind_eq_dec : EqDecision EntityKind.
Proof. solve_decision. Defined.

(** Modelled from the spec: the [action] tag of a feed item. *)
Inductive Action : Type := vote | watch.

#[export] Instance Action_eq_dec : EqDecision Action.
Proof. solve_decision. Defined.

(** Modelled from the spec: the value pair [(entity_kind, entity_id)]. *)
Record PolymorphicReference : Type := mkRef {
  entity_kind : EntityKind;
  entity_id : Z
}.

#[export] Instance PolymorphicReference_eq_dec : EqDecision PolymorphicReference.
Proof. solve_decision. Defined.

(** Modelled from the spec: a stored vote or watch,
    [(entity_ref, user_id, created_at)]. *)
Record Mark : Type := mkMark {
  mark_ref : PolymorphicReference;
  mark_user : Z;
  mark_created_at : Z
}.

(** Modelled from the spec: the counter kept per voted entity. *)
Record VoteCount : Type := mkVoteCount {
  vc_ref : PolymorphicReference;
  vc_count : Z
}.

(** Modelled from the spec: an entity as the feed shows it: its reference,
    its owning project (itself, for a project), its name or subject, and
    its number [ref]. *)
Record Entity : Type := mkEntity {
  e_ref : PolymorphicReference;
  e_project : Z;
  e_display : string;
  e_number : option Z
}.

(** Modelled from the spec: the entities and the vote and watch stores. *)
Record Store : Type := mkStore {
  entities : list Entity;
  votes : list Mark;
  vote_counts : list VoteCount;
  watches : list Mark
}.

(** Modelled from the spec: the mark is the one of the user on the entity
    (marks are unique per entity and user). *)
Definition marked (ref : PolymorphicReference) (user : Z) (m : Mark) : bool :=
  bool_decide (mark_ref m = ref) && (mark_user m =? user).

(** Modelled from the spec: the counter of the entity is created at 1 on
    the first vote and incremented afterwards. *)
Definition bump (ref : PolymorphicReference) (counts : list VoteCount) : list VoteCount :=
  if existsb (fun c => bool_decide (vc_ref c = ref)) counts
  then map (fun c => if bool_decide (vc_ref c = ref) then mkVoteCount ref (vc_count c + 1) else c) counts
  else counts ++ [mkVoteCount ref 1].

(** Modelled from the spec: [add_vote(entity, user)] is an idempotent
    insert, with the counter created or incremented in the same step. *)
Definition add_vote (ref : PolymorphicReference) (user now : Z) (s : Store) : Store :=
  if existsb (marked ref user) (votes s) then s
  else mkStore (entities s) (votes s ++ [mkMark ref user now]) (bump ref (vote_counts s)) (watches s).

(** Modelled from the spec: [add_watcher(entity, user)] is an idempotent
    insert. *)
Definition add_watcher (ref : PolymorphicReference) (user now : Z) (s : Store) : Store :=
  if existsb (marked ref user) (watches s) then s
  else mkStore (entities s) (votes s) (vote_counts s) (watches s ++ [mkMark ref user now]).

(** Modelled from the spec: [votes_count(entity)] reads the counter, 0 when
    there is none. *)
Definition votes_count (s : Store) (ref : PolymorphicReference) : Z :=
  match List.find (fun c => bool_decide (vc_ref c = ref)) (vote_counts s) with
  | Some c => vc_count c
  | None => 0
  end.

(** Modelled from the spec: the watchers are counted by scanning the
    stored watches. *)
Definition watchers_count (s : Store) (ref : PolymorphicReference) : Z :=
  Z.of_nat (length (List.filter (fun m => bool_decide (mark_ref m = ref)) (watches s))).

(** Modelled from the spec: an item of the feed; fields that do not apply
    to the kind are [None]. *)
Record FeedItem : Type := mkFeedItem {
  fi_type : EntityKind;
  fi_action : Action;
  fi_id : Z;
  fi_ref : option Z;
  fi_name : option string;
  fi_subject : option string;
  fi_project : option Z;
  fi_total_votes : Z;
  fi_total_watchers : Z;
  fi_is_voted : bool;
  fi_is_watched : bool
}.

(** Modelled from the spec: the [q] filter is a case-insensitive substring
    match; lower case of ASCII letters. *)
Definition lower_ascii (c : Ascii.ascii) : Ascii.ascii :=
  let n := Ascii.nat_of_ascii c in
  if ((65 <=? n) && (n <=? 90))%nat then Ascii.ascii_of_nat (n + 32) else c.

(** Modelled from the spec: lower case of a string, for the [q] filter. *)
Fixpoint lower (s : string) : string :=
  match s with
  | EmptyString => EmptyString
  | String c rest => String (lower_ascii c) (lower rest)
  end.

(** Modelled from the spec: substring search, for the [q] filter. *)
Fixpoint contains (needle hay : string) : bool :=
  String.prefix needle hay
  || match hay with
     | EmptyString => false
     | String _ rest => contains needle rest
     end.

(** Modelled from the spec: the [q] filter on the name or subject. *)
Definition matches_q (q : string) (display : string) : bool :=
  contains (lower q) (lower display).

Section Feed.

(** Modelled from the spec: [can_view(user, project)] of the authorization
    collaborator. *)
Variable can_view : Z -> Z -> bool.

(** Modelled from the spec: resolving a reference to the live entity. *)
Definition resolve (s : Store) (ref : PolymorphicReference) : option Entity :=
  List.find (fun e => bool_decide (e_ref e = ref)) (entities s).

(** Modelled from the spec: the item shown for an entity, with its totals
    and the viewer's own [is_voted] and [is_watched]. *)
Definition item (s : Store) (viewer : Z) (action : Action) (e : Entity) : FeedItem :=
  let ref := e_ref e in
  let is_project := bool_decide (entity_kind ref = project) in
  mkFeedItem (entity_kind ref) action (entity_id ref)
    (if is_project then None else e_number e)
    (if is_project then Some (e_display e) else None)
    (if is_project then None else Some (e_display e))
    (if is_project then None else Some (e_project e))
    (votes_count s ref) (watchers_count s ref)
    (existsb (marked ref viewer) (votes s))
    (existsb (marked ref viewer) (watches s)).

(** Modelled from the spec: the items of one store, for the marks of the
    favourited-by user whose entity exists and whose owning project the
    viewer can view. *)
Definition items_of (s : Store) (for_user viewer : Z) (action : Action) (marks : list Mark)
    : list (FeedItem * string) :=
  flat_map (fun m =>
    if mark_user m =? for_user then
      match resolve s (mark_ref m) with
      | Some e => if can_view viewer (e_project e) then [(item s viewer action e, e_display e)] else []
      | None => []
      end
    else []) marks.

(** Modelled from the spec: the [type], [action] and [q] filters. *)
Definition keep (type : option EntityKind) (action : option Action) (q : option string)
    (it : FeedItem * string) : bool :=
  match type with
  | Some t => bool_decide (fi_type (fst it) = t)
  | None => true
  end
  && match action with
     | Some a => bool_decide (fi_action (fst it) = a)
     | None => true
     end
  && match q with
     | Some text => matches_q text (snd it)
     | None => true
     end.

(** Modelled from the spec:
    [get_favourites(subject_user, viewer_user, type?, action?, q?)] merges
    every entity the subject voted for and every entity the subject
    watches, in store order (the ranking is not specified). *)
Definition get_favourites (s : Store) (subject_user viewer_user : Z)
    (type : option EntityKind) (action : option Action) (q : option string) : list FeedItem :=
  map fst (List.filter (keep type action q)
             (items_of s subject_user viewer_user vote (votes s)
              ++ items_of s subject_user viewer_user watch (watches s))).

End Feed.

(** The scenario: user [A] votes on project [P], a user story, a task and
    an issue inside [P], and watches the same four. *)
Definition scenario_entities (P us t i : Z) : list Entity :=
  [ mkEntity (mkRef project P) P "Testing project" None;
    mkEntity (mkRef userstory us) P "Testing user story" (Some 1);
    mkEntity (mkRef task t) P "Testing task" (Some 2);
    mkEntity (mkRef issue i) P "Testing issue" (Some 3) ].

Definition scenario (A P us t i now : Z) : Store :=
  let s := mkStore (scenario_entities P us t i) [] [] [] in
  let s := add_vote (mkRef project P) A now s in
  let s := add_vote (mkRef userstory us) A now s in
  let s := add_vote (mkRef task t) A now s in
  let s := add_vote (mkRef issue i) A now s in
  let s := add_watcher (mkRef project P) A now s in
  let s := add_watcher (mkRef userstory us) A now s in
  let s := add_watcher (mkRef task t) A now s in
  add_watcher (mkRef issue i) A now s.

(** What the filters read of an item, and the filters on it. *)
Definition triple (it : FeedItem * string) : EntityKind * Action * string :=
  (fi_type (fst it), fi_action (fst it), snd it).

Definition keep_triple (type : option EntityKind) (action : option Action) (q : option string)
    (tr : EntityKind * Action * string) : bool :=
  match type with
  | Some t => bool_decide (fst (fst tr) = t)
  | None => true
  end
  && match action with
     | Some a => bool_decide (snd (fst tr) = a)
     | None => true
     end
  && match q with
     | Some text => matches_q text (snd tr)
     | None => true
     end.

(** The marks of [A] that the scenario stores, for votes and for watches. *)
Definition scenario_marks (A P us t i now : Z) : list Mark :=
  [ mkMark (mkRef project P) A now; mkMark (mkRef userstory us) A now;
    mkMark (mkRef task t) A now; mkMark (mkRef issue i) A now ].

End Favourites.

(** ** Example data *)

Module Demo.

(** Two stored rows of one project: a membership and an invitation. *)
Definition clean_demo_db : Database :=
  mkDatabase [] [] [] [] [] [] [] []
    [ mkMembership (Some 1) (Some 10) 1 1 true None None;
      mkMembership (Some 2) None 1 1 false (Some "guest@example.com") (Some "token") ].

(** A stand-in for the slug helpers: the value, every slug that is taken,
    and a dash. *)
Definition slugify (value : string) (slugs : list string) : string :=
  String.append value (String.append (String.concat "" slugs) "-").

(** A project with its taxonomies, another project's status, and an empty
    project. *)
Definition db0 : Database := {|
  db_us_statuses :=
    [ mkRow 1 1 "New" {| us_slug := "new"; us_order := 1; us_is_closed := false;
                         us_is_archived := false; us_color := "#999999"; us_wip_limit := None |};
      mkRow 2 1 "Done" {| us_slug := "done"; us_order := 2; us_is_closed := true;
                          us_is_archived := false; us_color := "#999999"; us_wip_limit := Some 3 |};
      mkRow 3 7 "New" {| us_slug := "new"; us_order := 1; us_is_closed := false;
                         us_is_archived := false; us_color := "#999999"; us_wip_limit := None |} ];
  db_points :=
    [ mkRow 1 1 "?" {| pt_order := 1; pt_value := None |};
      mkRow 2 1 "1" {| pt_order := 2; pt_value := Some (S754_finite false 4503599627370496 (-52)) |} ];
  db_task_statuses :=
    [ mkRow 1 1 "New" {| st_slug := "new"; st_order := 1; st_is_closed := false; st_color := "#999999" |} ];
  db_issue_statuses :=
    [ mkRow 1 1 "New" {| st_slug := "new"; st_order := 1; st_is_closed := false; st_color := "#999999" |} ];
  db_issue_types := [ mkRow 1 1 "Bug" {| co_order := 1; co_color := "#999999" |} ];
  db_priorities :=
    [ mkRow 1 1 "Low" {| co_order := 1; co_color := "#999999" |};
      mkRow 2 1 "High" {| co_order := 2; co_color := "#999999" |} ];
  db_severities := [];
  db_roles :=
    [ mkRow 1 1 "Product Owner" {| ro_slug := "product-owner"; ro_order := 1;
                                   ro_computable := false; ro_permissions := ["view_project"] |} ];
  db_memberships := [ mkMembership (Some 1) (Some 10) 1 1 true None None ]
|}.

Definition P : Project := {|
  p_id := Some 1; p_name := "P"; p_slug := "p"; p_owner_id := Some 10;
  p_modified_date := Some 0; p_importing := false;
  p_is_backlog_activated := true; p_is_kanban_activated := false;
  p_is_wiki_activated := true; p_is_issues_activated := true;
  p_videoconferences := None; p_videoconferences_extra_data := None;
  p_creation_template := None;
  p_defaults := mkProjectDefaults (Some 2) (Some 1) (Some 1) (Some 2) None (Some 1) (Some 1)
|}.

Definition P2 : Project := {|
  p_id := Some 2; p_name := "P2"; p_slug := "p2"; p_owner_id := Some 10;
  p_modified_date := Some 0; p_importing := false;
  p_is_backlog_activated := true; p_is_kanban_activated := false;
  p_is_wiki_activated := true; p_is_issues_activated := true;
  p_videoconferences := None; p_videoconferences_extra_data := None;
  p_creation_template := None;
  p_defaults := mkProjectDefaults None None None None None None None
|}.

Definition T0 : ProjectTemplate :=
  mkProjectTemplate (Some 5) None true false true true None None
    None None None None None None None None None.

(** An unsaved project with a blank slug and extra data but no
    videoconference system, about to be saved. *)
Definition unsaved : Project := {|
  p_id := None; p_name := "Board"; p_slug := ""; p_owner_id := Some 10;
  p_modified_date := None; p_importing := false;
  p_is_backlog_activated := true; p_is_kanban_activated := false;
  p_is_wiki_activated := true; p_is_issues_activated := true;
  p_videoconferences := None; p_videoconferences_extra_data := Some "room";
  p_creation_template := None;
  p_defaults := mkProjectDefaults None None None None None None None
|}.

Definition alice : User := mkUser 10 "alice" true false.
Definition bob : User := mkUser 11 "bob" true false.
Definition robot : User := mkUser 12 "robot" true true.

Definition save_heap : SaveHeap := mkSaveHeap [P; P2] [alice; bob] unsaved.

(** Alice owns project 1; Bob watches it and ignores project 2. *)
Definition accounts : Accounts :=
  mkAccounts [alice; bob; robot]
    [ mkNotifyPolicy 11 1 watch; mkNotifyPolicy 11 2 ignore; mkNotifyPolicy 12 1 watch ].

(** A task table with two rows, one of them voted for by Bob. *)
Definition tasks_model : Model := mkModel 7 "tasks_task".

Definition social : SocialDB :=
  mkSocialDB [ mkVotes 7 1 (Some 1) ] [ mkVote 7 1 11 ] [ mkWatched 7 2 10 ].

Definition tasks : QuerySet := mkQuerySet tasks_model [1; 2] ∅.

(** A change of task 1 whose comment mentions Bob. *)
Definition task1 : Instance := mkInstance tasks_model 1 1 (Some 10) None None.

Definition change : HistoryEntry := mkHistoryEntry 1 "thanks @bob" 10.

Definition mentions (comment : string) : list Z :=
  if String.eqb comment "thanks @bob" then [11] else [].

Definition world : World := mkWorld accounts [] [] [].

Definition resource : Resource := mkResource false (Some change) (fun obj => obj).

Definition serializer : SerializerHeap :=
  mkSerializerHeap {["watchers"; "is_watched"]} world.

End Demo.

(** ** Vocabulary of the properties *)



(** A computation keeps [I] true, in its result as in the state it raises
    from, and raises only exceptions of [E]. *)
Definition maintains {S A} (I : S -> Prop) (E : Exc -> Prop) (c : M S A) : Prop :=
  forall s, I s ->
    match c s with
    | Ok _ s' => I s'
    | Raise e s' => I s' /\ E e
    end.

(** The project of the heap has been stamped with the template. *)
Definition stamped (self : ProjectTemplate) (h : Heap) : Prop :=
  p_creation_template (h_project h) = t_id self.

(** Any exception but the [Exception] that [apply_to_project] raises for an
    unsaved project. *)
Definition not_precondition (e : Exc) : Prop :=
  match e with
  | Exception _ => False
  | _ => True
  end.

(** The table after the loop that creates one row of project [pid] per
    snapshot; [fields_of] gives the columns stored for a snapshot, given
    the table it is inserted in. *)
Fixpoint insert_all {F} (fields_of : list (Row F) -> Snapshot F -> F) (pid : Z)
    (snapshots : list (Snapshot F)) (tbl : list (Row F)) : list (Row F) :=
  match snapshots with
  | [] => tbl
  | s :: rest =>
      insert_all fields_of pid rest
        (tbl ++ [mkRow (next_id tbl) pid (snap_name s) (fields_of tbl s)])
  end.

(** The rows that this loop appends to the table. *)
Fixpoint created {F} (fields_of : list (Row F) -> Snapshot F -> F) (pid : Z)
    (snapshots : list (Snapshot F)) (tbl : list (Row F)) : list (Row F) :=
  match snapshots with
  | [] => []
  | s :: rest =>
      let row := mkRow (next_id tbl) pid (snap_name s) (fields_of tbl s) in
      row :: created fields_of pid rest (tbl ++ [row])
  end.

Definition as_given {F} (tbl : list (Row F)) (s : Snapshot F) : F := snap_fields s.

Definition with_new_slug {F} `{HasOrdering F} `{HasSlug F} (slugify : string -> list string -> string)
    (pid : Z) (tbl : list (Row F)) (s : Snapshot F) : F :=
  set_slug
    (slugify (snap_name s) (map (fun r => get_slug (row_fields r)) (related pid tbl)))
    (snap_fields s).

(** Database constraints and the premises of the round trip, as checks. *)
Fixpoint distinct (names : list string) : bool :=
  match names with
  | [] => true
  | n :: rest => negb (existsb (String.eqb n) rest) && distinct rest
  end.

Definition unique_names {F} `{HasOrdering F} (pid : Z) (tbl : list (Row F)) : bool :=
  distinct (map row_name (related pid tbl)).

(** [unique_together = ("project", "name")] holds of the rows of [pid]. *)
Definition unique_together_ok (pid : Z) (db : Database) : bool :=
  unique_names pid (db_us_statuses db) && unique_names pid (db_points db)
  && unique_names pid (db_task_statuses db) && unique_names pid (db_issue_statuses db)
  && unique_names pid (db_issue_types db) && unique_names pid (db_priorities db)
  && unique_names pid (db_severities db).

Definition no_rows {F} `{HasOrdering F} (pid : Z) (tbl : list (Row F)) : bool :=
  match related pid tbl with
  | [] => true
  | _ :: _ => false
  end.

(** No taxonomy row is scoped to [pid]. *)
Definition empty_project (pid : Z) (db : Database) : bool :=
  no_rows pid (db_us_statuses db) && no_rows pid (db_points db)
  && no_rows pid (db_task_statuses db) && no_rows pid (db_issue_statuses db)
  && no_rows pid (db_issue_types db) && no_rows pid (db_priorities db)
  && no_rows pid (db_severities db) && no_rows pid (db_roles db).

(** The row a [default_*] key refers to. *)
Definition default_row {F} (fk : option Z) (tbl : list (Row F)) : option (Row F) :=
  match fk with
  | Some i => List.find (fun r => row_id r =? i) tbl
  | None => None
  end.

(** The key is null or refers to a stored row and, when project [pid] has
    rows in the table, it refers to one of them. *)
Definition default_exists {F} `{HasOrdering F} (pid : Z) (fk : option Z) (tbl : list (Row F)) : bool :=
  match fk with
  | None => no_rows pid tbl
  | Some _ =>
      match default_row fk tbl with
      | Some d => no_rows pid tbl || (row_project d =? pid)
      | None => false
      end
  end.

Definition defaults_exist (pid : Z) (p : Project) (db : Database) : bool :=
  default_exists pid (default_points (p_defaults p)) (db_points db)
  && default_exists pid (default_us_status (p_defaults p)) (db_us_statuses db)
  && default_exists pid (default_task_status (p_defaults p)) (db_task_statuses db)
  && default_exists pid (default_issue_status (p_defaults p)) (db_issue_statuses db)
  && default_exists pid (default_issue_type (p_defaults p)) (db_issue_types db)
  && default_exists pid (default_priority (p_defaults p)) (db_priorities db)
  && default_exists pid (default_severity (p_defaults p)) (db_severities db).

(** The owner's membership and its role exist, or the project has a role. *)
Definition owner_role_exists (db : Database) (p : Project) : bool :=
  match owner_of p with
  | inl _ => false
  | inr owner =>
      match get_membership db p owner with
      | inr m =>
          match role_slug db m with
          | inr _ => true
          | inl _ => false
          end
      | inl e =>
          is_membership_does_not_exist e
          && match all p (db_roles db) with
             | [] => false
             | _ :: _ => true
             end
      end
  end.

(** Per taxonomy, project [pid2] has after the round trip as many rows as
    project [pid] has. *)
Definition same_count {F} `{HasOrdering F} (pid pid2 : Z) (tbl tbl' : list (Row F)) : Prop :=
  length (related pid2 tbl') = length (related pid tbl).

(** The [default_*] key of the target project after the round trip: left
    as it was when project [pid] has no row in the table; otherwise the id
    of the one row of project [pid2], freshly created, that has the name of
    the row the source's key refers to, and the key resolves to that row in
    the table as it is after the round trip. *)
Definition default_transferred {F} `{HasOrdering F} (pid pid2 : Z) (fk_source fk_before fk_after : option Z)
    (tbl tbl' : list (Row F)) : Prop :=
  match related pid tbl with
  | [] => fk_after = fk_before
  | _ :: _ =>
      exists d r,
        default_row fk_source tbl = Some d
        /\ In r tbl' /\ ~ In r tbl
        /\ row_project r = pid2
        /\ row_name r = row_name d
        /\ fk_after = Some (row_id r)
        /\ default_row fk_after tbl' = Some r
        /\ (forall r', In r' tbl' -> row_project r' = pid2 -> row_name r' = row_name d -> r' = r)
  end.

(** What [load_data_from_project] leaves in the template. *)
Record Loaded (db : Database) (p : Project) (pid : Z) (t : ProjectTemplate) : Prop := {
  loaded_us_statuses : t_us_statuses t = Some (map snapshot (related pid (db_us_statuses db)));
  loaded_points : t_points t = Some (map snapshot (related pid (db_points db)));
  loaded_task_statuses : t_task_statuses t = Some (map snapshot (related pid (db_task_statuses db)));
  loaded_issue_statuses : t_issue_statuses t = Some (map snapshot (related pid (db_issue_statuses db)));
  loaded_issue_types : t_issue_types t = Some (map snapshot (related pid (db_issue_types db)));
  loaded_priorities : t_priorities t = Some (map snapshot (related pid (db_priorities db)));
  loaded_severities : t_severities t = Some (map snapshot (related pid (db_severities db)));
  loaded_roles : t_roles t = Some (map snapshot (related pid (db_roles db)));
  loaded_options :
    exists options,
      t_default_options t = Some options
      /\ options !! "points"
         = Some (row_name <$> default_row (default_points (p_defaults p)) (db_points db))
      /\ options !! "us_status"
         = Some (row_name <$> default_row (default_us_status (p_defaults p)) (db_us_statuses db))
      /\ options !! "task_status"
         = Some (row_name <$> default_row (default_task_status (p_defaults p)) (db_task_statuses db))
      /\ options !! "issue_status"
         = Some (row_name <$> default_row (default_issue_status (p_defaults p)) (db_issue_statuses db))
      /\ options !! "issue_type"
         = Some (row_name <$> default_row (default_issue_type (p_defaults p)) (db_issue_types db))
      /\ options !! "priority"
         = Some (row_name <$> default_row (default_priority (p_defaults p)) (db_priorities db))
      /\ options !! "severity"
         = Some (row_name <$> default_row (default_severity (p_defaults p)) (db_severities db))
}.

(** The effect of one [if self.<list>: project.default_x = ...] step: the
    key is set when a row was looked up, and left alone otherwise. *)
Definition apply_default (setter : option Z -> ProjectDefaults -> ProjectDefaults)
    (found : option Z) (d : ProjectDefaults) : ProjectDefaults :=
  match found with
  | Some i => setter (Some i) d
  | None => d
  end.

Definition pick (found before : option Z) : option Z :=
  match found with
  | Some i => Some i
  | None => before
  end.

(** What one such step finds, for the rows [rows] of the source project in
    a table [tbl] that the creation loop turned into [tbl']. *)
Definition found_default {F} (pid2 : Z) (fk_source : option Z) (rows tbl tbl' : list (Row F))
    (found : option Z) : Prop :=
  match rows with
  | [] => found = None
  | _ :: _ =>
      exists d r,
        default_row fk_source tbl = Some d
        /\ In r tbl' /\ ~ In r tbl
        /\ row_project r = pid2
        /\ row_name r = row_name d
        /\ found = Some (row_id r)
        /\ default_row found tbl' = Some r
        /\ (forall r', In r' tbl' -> row_project r' = pid2 -> row_name r' = row_name d -> r' = r)
  end.

(** ** [UserStoryStatus.save], [TaskStatus.save] and [IssueStatus.save] *)

(** An instance of a taxonomy model with a slug; an unsaved instance has
    no [id]. *)
Record Taxon (F : Type) : Type := mkTaxon {
  tx_id : option Z;
  tx_project : Z;
  tx_name : string;
  tx_fields : F
}.

Arguments mkTaxon {F} _ _ _ _.
Arguments tx_id {F} _.
Arguments tx_project {F} _.
Arguments tx_name {F} _.
Arguments tx_fields {F} _.

(** The database and the instance that [save] is called on. *)
Record Saving (F : Type) : Type := mkSaving {
  sv_db : Database;
  sv_self : Taxon F
}.

Arguments mkSaving {F} _ _.
Arguments sv_db {F} _.
Arguments sv_self {F} _.

Module Status.

Section Save.

(** [taiga.base.utils.slug.slugify_uniquely_for_queryset(value, queryset)],
    given the slugs of the rows of [queryset]. *)
Variable slugify_uniquely_for_queryset : string -> list string -> string.

Context {F : Type} `{HasOrdering F} `{HasSlug F}.

(** [qs.exclude(id=i)] *)
Definition exclude (i : Z) (qs : list (Row F)) : list (Row F) :=
  List.filter (fun r => negb (row_id r =? i)) qs.

(** The rows that the unique constraints compare the instance with: every
    row but the one being updated. *)
Definition others (self : Taxon F) (tbl : list (Row F)) : list (Row F) :=
  match tx_id self with
  | Some i => exclude i tbl
  | None => tbl
  end.

Definition row_of (i : Z) (self : Taxon F) : Row F :=
  mkRow i (tx_project self) (tx_name self) (tx_fields self).

(** [super().save()]: an [UPDATE] of the row with the instance's id, an
    [INSERT] with that id when no row has it, or an [INSERT] with a fresh
    id for an unsaved instance; checked against
    [unique_together = (("project", "name"), ("project", "slug"))]. *)
Definition super_save (T : Manager F) : M (Saving F) unit :=
  fun h =>
    let self := sv_self h in
    let tbl := objects T (sv_db h) in
    if name_taken (tx_project self) (tx_name self) (others self tbl)
       || slug_taken (tx_project self) (get_slug (tx_fields self)) (others self tbl)
    then Raise (IntegrityError (model_name T)) h
    else
      match tx_id self with
      | Some i =>
          if existsb (fun r => row_id r =? i) tbl
          then Ok tt (mkSaving
                        (set_objects T (map (fun r => if row_id r =? i then row_of i self else r) tbl)
                           (sv_db h))
                        self)
          else Ok tt (mkSaving (set_objects T (tbl ++ [row_of i self]) (sv_db h)) self)
      | None =>
          let i := next_id tbl in
          Ok tt (mkSaving (set_objects T (tbl ++ [row_of i self]) (sv_db h))
                   (mkTaxon (Some i) (tx_project self) (tx_name self) (tx_fields self)))
      end.

(** [self.slug = slug] *)
Definition assign_slug (slug : string) (h : Saving F) : Saving F :=
  let self := sv_self h in
  mkSaving (sv_db h)
    (mkTaxon (tx_id self) (tx_project self) (tx_name self) (set_slug slug (tx_fields self))).

(** [qs = self.project.<statuses>; if self.id: qs = qs.exclude(id=self.id)] *)
Definition queryset (T : Manager F) (h : Saving F) : list (Row F) :=
  let self := sv_self h in
  let qs := related (tx_project self) (objects T (sv_db h)) in
  match tx_id self with
  | Some i => if truthy_id (Some i) then exclude i qs else qs
  | None => qs
  end.

Definition save (T : Manager F) : M (Saving F) unit :=
  self <- gets sv_self ;;
  qs <- gets (queryset T) ;;
  modify (assign_slug
            (slugify_uniquely_for_queryset (tx_name self)
               (map (fun r => get_slug (row_fields r)) qs))) ;;;
  super_save T.

End Save.

End Status.

(** ** [Project.get_roles], [Project.get_users] and [Project.update_role_points] *)

(** [Project.get_roles] *)
Definition get_roles (db : Database) (self : Project) : list (Row RoleFields) :=
  all self (db_roles db).

(** [self.memberships]: the memberships and invitations of the project. *)
Definition memberships (db : Database) (self : Project) : list Membership :=
  match p_id self with
  | Some pid => List.filter (fun m => m_project m =? pid) (db_memberships db)
  | None => []
  end.

(** [Project.get_users]: [id IN (...)] over the [user] column of the
    memberships; the [NULL] of an invitation equals no id. *)
Definition get_users (db : Database) (accounts : Accounts) (self : Project) : list User :=
  let members := map m_user (memberships db self) in
  List.filter (fun u => existsb (same_key (Some (u_id u))) members) (users accounts).

(** A user story and a row of [userstories.RolePoints], as far as
    [update_role_points] reads and writes them:
    [RolePoints(role=role, user_story=us, points=null_points_value)]. *)
Record UserStory : Type := mkUserStory {
  story_id : Z;
  story_project : Z
}.

Record RolePoints : Type := mkRolePoints {
  rp_role : Z;
  rp_user_story : Z;
  rp_points : Z
}.

#[export] Instance RolePoints_eq_dec : EqDecision RolePoints.
Proof. solve_decision. Defined.

Record Estimation : Type := mkEstimation {
  est_db : Database;
  est_user_stories : list UserStory;
  est_role_points : list RolePoints
}.

(** [self.user_stories.all()] *)
Definition user_stories (self : Project) (s : Estimation) : list UserStory :=
  match p_id self with
  | Some pid => List.filter (fun us => story_project us =? pid) (est_user_stories s)
  | None => []
  end.

(** [us.role_points.all()] *)
Definition role_points (us : UserStory) (s : Estimation) : list RolePoints :=
  List.filter (fun rp => rp_user_story rp =? story_id us) (est_role_points s).

(** [Role.objects.filter(role_points__in=us.role_points.all()).distinct()] *)
Definition roles_estimated (us : UserStory) (s : Estimation) : list (Row RoleFields) :=
  List.filter (fun r => existsb (fun rp => rp_role rp =? row_id r) (role_points us s))
    (db_roles (est_db s)).

(** [roles.exclude(id__in=usroles)] *)
Definition exclude_roles (usroles roles : list (Row RoleFields)) : list (Row RoleFields) :=
  List.filter (fun r => negb (existsb (fun x => row_id x =? row_id r) usroles)) roles.

(** [RolePoints.objects.bulk_create(new_rolepoints)] *)
Definition bulk_create (new_rolepoints : list RolePoints) (s : Estimation) : Estimation :=
  mkEstimation (est_db s) (est_user_stories s) (est_role_points s ++ new_rolepoints).

(** [RolePoints.objects.filter(user_story__in=self.user_stories.all())
       .exclude(role__id__in=roles.values_list("id", flat=True)).delete()] *)
Definition delete_stale (self : Project) (roles : list (Row RoleFields)) (s : Estimation)
    : Estimation :=
  mkEstimation (est_db s) (est_user_stories s)
    (List.filter
       (fun rp =>
          negb (existsb (fun us => story_id us =? rp_user_story rp) (user_stories self s)
                && negb (existsb (fun r => row_id r =? rp_role rp) roles)))
       (est_role_points s)).

(** [Points.objects.create(name=name, value=None, project=self)]; the
    column [order] takes its default, 10. The row is checked against
    [unique_together = ("project", "name")]; Django refuses to save a row
    that refers to an unsaved project. *)
Definition create_null_points (name : string) (self : Project)
    : M Estimation (Row PointsFields) :=
  fun s =>
    match p_id self with
    | None =>
        Raise (Exception "save() prohibited to prevent data loss due to unsaved related object 'project'.") s
    | Some pid =>
        let tbl := db_points (est_db s) in
        if name_taken pid name tbl then Raise (IntegrityError "Points") s
        else
          let row := mkRow (next_id tbl) pid name {| pt_order := 10; pt_value := None |} in
          Ok row (mkEstimation (set_db_points (tbl ++ [row]) (est_db s))
                    (est_user_stories s) (est_role_points s))
    end.

Section RolePointsUpdate.

(** [slugify_uniquely_for_queryset(value, queryset, slugfield="name")],
    given the names of the rows of [queryset]. *)
Variable slugify_uniquely_for_queryset : string -> list string -> string.

Definition update_role_points (self : Project) (user_stories_arg : option (list UserStory))
    : M Estimation unit :=
  db <- gets est_db ;;
  let roles := List.filter (fun r => ro_computable (row_fields r)) (get_roles db self) in
  if (length roles =? 0)%nat then ret tt
  else
    stories <- match user_stories_arg with
               | None => gets (user_stories self)
               | Some given => ret given
               end ;;
    let none_points :=
      List.filter (fun pt => bool_decide (pt_value (row_fields pt) = None))
        (all self (db_points db)) in
    null_points_value <-
      match none_points with
      | first :: _ => ret first
      | [] =>
          let name := slugify_uniquely_for_queryset "?" (map row_name (all self (db_points db))) in
          create_null_points name self
      end ;;
    for_ stories (fun us =>
      modify (fun s =>
        let usroles := roles_estimated us s in
        let new_roles := exclude_roles usroles roles in
        let new_rolepoints :=
          map (fun role => mkRolePoints (row_id role) (story_id us) (row_id null_points_value))
            new_roles in
        bulk_create new_rolepoints s)) ;;;
    modify (delete_stale self roles).

End RolePointsUpdate.

(** ** [WatchedModelMixin] *)

Module WatchedModelMixin.

Definition get_owner (self : Instance) : option Z := i_owner self.

(** A model without the attribute [assigned_to] has no assignee. *)
Definition get_assigned_to (self : Instance) : option Z := i_assigned_to self.

(** [frozenset(filter(is_not_none, participants))] *)
Definition get_participants (self : Instance) : gset (option Z) :=
  let participants := [get_assigned_to self; get_owner self] in
  let is_not_none := fun x : option Z => negb (bool_decide (x = None)) in
  list_to_set (List.filter is_not_none participants).

End WatchedModelMixin.

(** ** Vocabulary of the further properties *)

(** The table [new] is the table [old] with rows of project [pid] appended. *)
Definition extended {F} (pid : Z) (old new : list (Row F)) : Prop :=
  exists added, new = old ++ added /\ Forall (fun r => row_project r = pid) added.

(** The database [db'] is [db] with taxonomy rows and roles of project
    [pid] appended, and the same memberships. *)
Definition only_appended (pid : Z) (db db' : Database) : Prop :=
  extended pid (db_us_statuses db) (db_us_statuses db')
  /\ extended pid (db_points db) (db_points db')
  /\ extended pid (db_task_statuses db) (db_task_statuses db')
  /\ extended pid (db_issue_statuses db) (db_issue_statuses db')
  /\ extended pid (db_issue_types db) (db_issue_types db')
  /\ extended pid (db_priorities db) (db_priorities db')
  /\ extended pid (db_severities db) (db_severities db')
  /\ extended pid (db_roles db) (db_roles db')
  /\ db_memberships db' = db_memberships db.

(** The project after the seven assignments that open [apply_to_project]. *)
Definition stamp (self : ProjectTemplate) (p : Project) : Project :=
  set_p_videoconferences_extra_data (t_videoconferences_extra_data self)
  (set_p_videoconferences (t_videoconferences self)
  (set_p_is_issues_activated (t_is_issues_activated self)
  (set_p_is_wiki_activated (t_is_wiki_activated self)
  (set_p_is_kanban_activated (t_is_kanban_activated self)
  (set_p_is_backlog_activated (t_is_backlog_activated self)
  (set_p_creation_template (t_id self) p)))))).

(** The project [p'] is [p] with the settings of the template and,
    possibly, other [default_*] keys. *)
Definition stamped_from (self : ProjectTemplate) (p p' : Project) : Prop :=
  p_id p' = p_id p /\ p_name p' = p_name p /\ p_slug p' = p_slug p
  /\ p_owner_id p' = p_owner_id p /\ p_modified_date p' = p_modified_date p
  /\ p_importing p' = p_importing p
  /\ p_creation_template p' = t_id self
  /\ p_is_backlog_activated p' = t_is_backlog_activated self
  /\ p_is_kanban_activated p' = t_is_kanban_activated self
  /\ p_is_wiki_activated p' = t_is_wiki_activated self
  /\ p_is_issues_activated p' = t_is_issues_activated self
  /\ p_videoconferences p' = t_videoconferences self
  /\ p_videoconferences_extra_data p' = t_videoconferences_extra_data self.

(** The settings that [load_data_from_project] copies from the project. *)
Definition settings_loaded (p : Project) (t : ProjectTemplate) : Prop :=
  t_is_backlog_activated t = p_is_backlog_activated p
  /\ t_is_kanban_activated t = p_is_kanban_activated p
  /\ t_is_wiki_activated t = p_is_wiki_activated p
  /\ t_is_issues_activated t = p_is_issues_activated p
  /\ t_videoconferences t = p_videoconferences p
  /\ t_videoconferences_extra_data t = p_videoconferences_extra_data p.

(** The rows are listed in the order of [Meta.ordering]. *)
Definition in_order {F} `{HasOrdering F} (rows : list (Row F)) : Prop :=
  StronglySorted (fun a b => key_leb a b = true) (map row_key rows).

(** The key is null or refers to a stored row. *)
Definition resolves {F} (fk : option Z) (tbl : list (Row F)) : bool :=
  match fk, default_row fk tbl with
  | Some _, None => false
  | _, _ => true
  end.

Definition defaults_resolve (p : Project) (db : Database) : bool :=
  resolves (default_points (p_defaults p)) (db_points db)
  && resolves (default_us_status (p_defaults p)) (db_us_statuses db)
  && resolves (default_task_status (p_defaults p)) (db_task_statuses db)
  && resolves (default_issue_status (p_defaults p)) (db_issue_statuses db)
  && resolves (default_issue_type (p_defaults p)) (db_issue_types db)
  && resolves (default_priority (p_defaults p)) (db_priorities db)
  && resolves (default_severity (p_defaults p)) (db_severities db).

(** The last statement of [load_data_from_project], on its own. *)
Definition load_default_owner_role (db : Database) (project : Project) : M ProjectTemplate unit :=
  try_except
    (owner <- lift (owner_of project) ;;
     owner_membership <- lift (get_membership db project owner) ;;
     slug <- lift (role_slug db owner_membership) ;;
     modify (set_t_default_owner_role (Some slug)))
    is_membership_does_not_exist
    (slug <- gets first_role_slug ;;
     slug <- lift slug ;;
     modify (set_t_default_owner_role slug)).


(** The candidates that the loop of [Project.save] tries after the base
    slug, from the element [i] of the progression on. *)
Definition candidate (base_slug : string) (j : Z) : string :=
  format_dash base_slug (str j).

(** [j] is an element of the progression from [i] on that is at most 100. *)
Definition tried (step : positive) (i j : Z) : Prop :=
  i <= j <= 100 /\ exists n : nat, j = i + Z.of_nat n * Z.pos step.

(** The rows of a project have pairwise distinct ids. *)
Definition distinct_ids {F} (tbl : list (Row F)) : Prop :=
  List.NoDup (map row_id tbl).

(** Appending a row of project [pid] to the table of [T] keeps
    [only_appended]. *)
Definition appendable {F} (T : Manager F) : Prop :=
  forall pid db0 db row,
    only_appended pid db0 db -> row_project row = pid ->
    only_appended pid db0 (set_objects T (objects T db ++ [row]) db).

(** The project of the heap is [p0] with the settings of the template and
    some [default_*] keys. *)
Definition restamped (self : ProjectTemplate) (p0 : Project) (h : Heap) : Prop :=
  exists d, h_project h = set_p_defaults d (stamp self p0).

(** The computation returns the project of the heap it ends in. *)
Definition yields_project (c : M Heap Project) : Prop :=
  forall h p' h', c h = Ok p' h' -> p' = h_project h'.

(** The database after the creation loops of [apply_to_project] for a
    template loaded from project [pid], applied to project [pid2]. *)
Definition copied (slugify : string -> list string -> string) (pid pid2 : Z) (db : Database)
    : Database :=
  mkDatabase
    (insert_all (with_new_slug slugify pid2) pid2
       (map snapshot (related pid (db_us_statuses db))) (db_us_statuses db))
    (insert_all as_given pid2 (map snapshot (related pid (db_points db))) (db_points db))
    (insert_all (with_new_slug slugify pid2) pid2
       (map snapshot (related pid (db_task_statuses db))) (db_task_statuses db))
    (insert_all (with_new_slug slugify pid2) pid2
       (map snapshot (related pid (db_issue_statuses db))) (db_issue_statuses db))
    (insert_all as_given pid2 (map snapshot (related pid (db_issue_types db))) (db_issue_types db))
    (insert_all as_given pid2 (map snapshot (related pid (db_priorities db))) (db_priorities db))
    (insert_all as_given pid2 (map snapshot (related pid (db_severities db))) (db_severities db))
    (insert_all as_given pid2 (map snapshot (related pid (db_roles db))) (db_roles db))
    (db_memberships db).

(** The last part of [apply_to_project], on its own: the seven
    [if self.<list>: project.default_x = ...] statements and the [return]. *)
Definition set_project_defaults (self : ProjectTemplate) (pid : Z) : M Heap Project :=
  when (truthy_list (t_points self)) (
    name <- default_option self "points" ;;
    row <- get Points name pid ;;
    modify (on_project (on_defaults (set_default_points (Some (row_id row)))))) ;;;
  when (truthy_list (t_us_statuses self)) (
    name <- default_option self "us_status" ;;
    row <- get UserStoryStatus name pid ;;
    modify (on_project (on_defaults (set_default_us_status (Some (row_id row)))))) ;;;
  when (truthy_list (t_task_statuses self)) (
    name <- default_option self "task_status" ;;
    row <- get TaskStatus name pid ;;
    modify (on_project (on_defaults (set_default_task_status (Some (row_id row)))))) ;;;
  when (truthy_list (t_issue_statuses self)) (
    name <- default_option self "issue_status" ;;
    row <- get IssueStatus name pid ;;
    modify (on_project (on_defaults (set_default_issue_status (Some (row_id row)))))) ;;;
  when (truthy_list (t_issue_types self)) (
    name <- default_option self "issue_type" ;;
    row <- get IssueType name pid ;;
    modify (on_project (on_defaults (set_default_issue_type (Some (row_id row)))))) ;;;
  when (truthy_list (t_priorities self)) (
    name <- default_option self "priority" ;;
    row <- get Priority name pid ;;
    modify (on_project (on_defaults (set_default_priority (Some (row_id row)))))) ;;;
  when (truthy_list (t_severities self)) (
    name <- default_option self "severity" ;;
    row <- get Severity name pid ;;
    modify (on_project (on_defaults (set_default_severity (Some (row_id row)))))) ;;;
  gets h_project.

(** The statements of [update_role_points] that choose
    [null_points_value], on their own. *)
Definition choose_null_points (slugify : string -> list string -> string) (self : Project)
    (db : Database) : M Estimation (Row PointsFields) :=
  match List.filter (fun pt => bool_decide (pt_value (row_fields pt) = None))
          (all self (db_points db)) with
  | first :: _ => ret first
  | [] => create_null_points (slugify "?" (map row_name (all self (db_points db)))) self
  end.

(** The body of the loop of [update_role_points], on its own. *)
Definition estimate_new_roles (roles : list (Row RoleFields))
    (null_points_value : Row PointsFields) (us : UserStory) (s : Estimation) : Estimation :=
  let usroles := roles_estimated us s in
  let new_roles := exclude_roles usroles roles in
  let new_rolepoints :=
    map (fun role => mkRolePoints (row_id role) (story_id us) (row_id null_points_value))
      new_roles in
  bulk_create new_rolepoints s.

(** The computable roles of a project. *)
Definition computable_roles (db : Database) (self : Project) : list (Row RoleFields) :=
  List.filter (fun r => ro_computable (row_fields r)) (get_roles db self).

(** The user stories that [update_role_points] goes through. *)
Definition stories_to_update (self : Project) (user_stories_arg : option (list UserStory))
    (s : Estimation) : list UserStory :=
  match user_stories_arg with
  | None => user_stories self s
  | Some given => given
  end.

(** The user story has a role point for the role. *)
Definition estimated (us : UserStory) (r : Row RoleFields) (s : Estimation) : Prop :=
  exists rp, In rp (est_role_points s)
             /\ rp_user_story rp = story_id us /\ rp_role rp = row_id r.

(** The role point belongs to a user story of the project and to no
    computable role of the project. *)
Definition stale (self : Project) (roles : list (Row RoleFields)) (s : Estimation)
    (rp : RolePoints) : Prop :=
  (exists us, In us (user_stories self s) /\ story_id us = rp_user_story rp)
  /\ ~ exists r, In r roles /\ row_id r = rp_role rp.


(** Further example data. *)
Module Demo2.

(** A project whose owner has no membership and which has no role. *)
Definition lonely : Project := {|
  p_id := Some 7; p_name := "Lonely"; p_slug := "lonely"; p_owner_id := Some 11;
  p_modified_date := Some 0; p_importing := false;
  p_is_backlog_activated := true; p_is_kanban_activated := true;
  p_is_wiki_activated := false; p_is_issues_activated := true;
  p_videoconferences := None; p_videoconferences_extra_data := None;
  p_creation_template := None;
  p_defaults := mkProjectDefaults None (Some 3) None None None None None
|}.

(** Project 1 without a default for its points. *)
Definition P_without_default_points : Project :=
  set_p_defaults (mkProjectDefaults None (Some 1) (Some 1) (Some 2) None (Some 1) (Some 1)) Demo.P.


Definition fresh : Taxon StatusFields :=
  mkTaxon None 1 "Closed"
    {| st_slug := ""; st_order := 2; st_is_closed := true; st_color := "#999999" |}.

(** Two computable roles and one that is not; two stories of project 1 and
    one of project 7; one estimate of story 1. *)
Definition estimation : Estimation := {|
  est_db :=
    set_db_roles
      [ mkRow 1 1 "Product Owner" {| ro_slug := "product-owner"; ro_order := 1;
                                     ro_computable := false; ro_permissions := [] |};
        mkRow 2 1 "Back" {| ro_slug := "back"; ro_order := 2;
                            ro_computable := true; ro_permissions := [] |};
        mkRow 3 1 "Front" {| ro_slug := "front"; ro_order := 3;
                             ro_computable := true; ro_permissions := [] |} ]
      Demo.db0;
  est_user_stories := [ mkUserStory 1 1; mkUserStory 2 1; mkUserStory 3 7 ];
  est_role_points := [ mkRolePoints 2 1 2; mkRolePoints 1 1 2 ]
|}.

(** The template that [load_data_from_project] fills from project 1. *)
Definition loaded : ProjectTemplate :=
  match load_data_from_project Demo.db0 Demo.P Demo.T0 with
  | Ok _ t | Raise _ t => t
  end.

(** Project 1 with its points and its roles stored against their [order],
    and an owner without a membership. *)
Definition shuffled : Database := {|
  db_us_statuses := db_us_statuses Demo.db0;
  db_points :=
    [ mkRow 1 1 "big" {| pt_order := 2; pt_value := Some (S754_finite false 4503599627370496 (-52)) |};
      mkRow 2 1 "small" {| pt_order := 1; pt_value := None |} ];
  db_task_statuses := db_task_statuses Demo.db0;
  db_issue_statuses := db_issue_statuses Demo.db0;
  db_issue_types := db_issue_types Demo.db0;
  db_priorities :=
    [ mkRow 1 1 "normal" {| co_order := 5; co_color := "#999999" |};
      mkRow 2 1 "High" {| co_order := 5; co_color := "#999999" |} ];
  db_severities := db_severities Demo.db0;
  db_roles :=
    [ mkRow 1 1 "Back" {| ro_slug := "back"; ro_order := 2;
                          ro_computable := true; ro_permissions := [] |};
      mkRow 2 1 "Front" {| ro_slug := "front"; ro_order := 1;
                           ro_computable := true; ro_permissions := [] |} ];
  db_memberships := []
|}.

(** The template that [load_data_from_project] fills from it. *)
Definition loaded_shuffled : ProjectTemplate :=
  match load_data_from_project shuffled Demo.P Demo.T0 with
  | Ok _ t | Raise _ t => t
  end.

(** An unsaved project whose default points are those of project 1. *)
Definition clashing : SaveHeap :=
  mkSaveHeap [Demo.P; Demo.P2] [Demo.alice; Demo.bob]
    (set_p_defaults (mkProjectDefaults (Some 2) None None None None None None) Demo.unsaved).

(** A task owned by Alice and assigned to Bob. *)
Definition task2 : Instance := mkInstance Demo.tasks_model 2 1 (Some 10) (Some 11) None.

(** A world in which Alice watches task 1, and a submitted watchers list. *)
Definition world : World :=
  mkWorld Demo.accounts [ mkWatched 7 1 10 ] [] [].

Definition serializer : SerializerHeap :=
  mkSerializerHeap {["watchers"; "is_watched"]} world.

End Demo2.

(** * Properties *)

(** ** Reasoning about the monad *)

Lemma bind_Ok {S A B} (c : M S A) (k : A -> M S B) s a s' :
  c s = Ok a s' -> bind c k s = k a s'.
Proof. intros H. unfold bind. now rewrite H. Qed.

Lemma bind_Raise {S A B} (c : M S A) (k : A -> M S B) s e s' :
  c s = Raise e s' -> bind c k s = Raise e s'.
Proof. intros H. unfold bind. now rewrite H. Qed.

Lemma bind_Ok_inv {S A B} (c : M S A) (k : A -> M S B) s b s' :
  bind c k s = Ok b s' -> exists a s1, c s = Ok a s1 /\ k a s1 = Ok b s'.
Proof.
  unfold bind. destruct (c s) as [a s1|e s1]; [eauto | discriminate].
Qed.

Lemma lift_Ok_inv {S A} (r : Exc + A) (s s' : S) a :
  lift r s = Ok a s' -> r = inr a /\ s' = s.
Proof.
  destruct r as [e|a0]; simpl; unfold raise, ret; intros H; [discriminate|].
  injection H as <- <-. auto.
Qed.

Lemma same_key_true a b : same_key a b = true <-> a = b.
Proof.
  destruct a as [x|], b as [y|]; simpl; split; intros H; try congruence.
  - apply Z.eqb_eq in H. now subst.
  - injection H as ->. apply Z.eqb_refl.
Qed.

Lemma same_key_false a b : same_key a b = false <-> a <> b.
Proof.
  rewrite <- same_key_true. destruct (same_key a b); split; congruence.
Qed.

(** ** [Membership.clean] *)

Lemma filter_memberships_In db user prj m :
  In m (filter_memberships db user prj) <->
  In m (db_memberships db) /\ m_user m = user /\ m_project m = prj.
Proof.
  unfold filter_memberships. rewrite filter_In, andb_true_iff, same_key_true, Z.eqb_eq.
  tauto.
Qed.

(** C3: when a stored membership already links user [u] to the project,
    validating a second membership (one whose id is not the id of a stored
    membership of that user and project) for the same non-null user and
    project raises the validation error; validating an invitation (null
    user) never raises, whatever rows are stored. *)
Theorem clean_rejects_second_membership (db : Database) (self : Membership) :
  (forall u,
      m_user self = Some u ->
      (exists m, In m (db_memberships db) /\ m_user m = Some u /\ m_project m = m_project self) ->
      (forall m, In m (db_memberships db) -> m_user m = Some u ->
                 m_project m = m_project self -> m_id m <> m_id self) ->
      clean db self = inl (ValidationError "The user is already member of the project"))
  /\ (m_user self = None -> clean db self = inr tt).
Proof.
  split.
  - intros u Hu [m0 Hm0] Hsecond. unfold clean. rewrite Hu.
    destruct (filter_memberships db (Some u) (m_project self)) as [|first rest] eqn:Hf.
    + exfalso. apply (filter_memberships_In db (Some u) (m_project self) m0) in Hm0.
      rewrite Hf in Hm0. destruct Hm0.
    + assert (Hin : In first (filter_memberships db (Some u) (m_project self)))
        by (rewrite Hf; now left).
      apply filter_memberships_In in Hin. destruct Hin as (Hin & Hfu & Hfp).
      specialize (Hsecond first Hin Hfu Hfp).
      apply same_key_false in Hsecond. now rewrite Hsecond.
  - intros Hu. unfold clean. now rewrite Hu.
Qed.

Lemma clean_rejects_second_membership_witness :
  clean Demo.clean_demo_db (mkMembership None (Some 10) 1 1 false None None)
  = inl (ValidationError "The user is already member of the project")
  /\ clean Demo.clean_demo_db (mkMembership None None 1 1 false (Some "other@example.com") (Some "t"))
     = inr tt.
Proof.
  split.
  - apply (proj1 (clean_rejects_second_membership Demo.clean_demo_db
                    (mkMembership None (Some 10) 1 1 false None None)) 10).
    + reflexivity.
    + exists (mkMembership (Some 1) (Some 10) 1 1 true None None).
      simpl. auto.
    + intros m [<- | [<- | []]]; simpl; discriminate.
  - apply (proj2 (clean_rejects_second_membership Demo.clean_demo_db
                    (mkMembership None None 1 1 false (Some "other@example.com") (Some "t")))).
    reflexivity.
Defined.

(** ** Annotated querysets *)

Lemma fetch_ids db qs : map obj_id (fetch db qs) = qs_rows qs.
Proof.
  unfold fetch. rewrite map_map. simpl. apply map_id.
Qed.

Lemma fetch_attr db qs obj key :
  In obj (fetch db qs) ->
  obj_attrs obj !! key = eval_sql db (obj_id obj) <$> (qs_extra qs !! key).
Proof.
  unfold fetch. rewrite in_map_iff. intros (row_id & <- & _). simpl.
  apply lookup_fmap.
Qed.

Lemma coalesce_sum (vs : list Z) : coalesce (sql_sum vs) 0 = fold_right Z.add 0 vs.
Proof. destruct vs; reflexivity. Qed.

Lemma positive_count_iff {A} (f : A -> bool) (l : list A) :
  (0 <? Z.of_nat (length (List.filter f l))) = true <-> exists x, In x l /\ f x = true.
Proof.
  rewrite Z.ltb_lt. split.
  - destruct (List.filter f l) as [|x rest] eqn:Hf; simpl; [lia|].
    intros _. exists x. apply filter_In. rewrite Hf. now left.
  - intros (x & Hx). apply filter_In in Hx.
    destruct (List.filter f l); [destruct Hx | simpl; lia].
Qed.

(** C5: [attach_votes_count_to_queryset] adds one extra select clause to
    the queryset (its rows are untouched), and every fetched row then
    carries as [votes_count] the sum of the counters stored for its content
    type and id, that is 0 when no counter row exists;
    [attach_is_vote_to_queryset] adds one clause as well, and every fetched
    row carries an [is_voted] that is true exactly when a vote row exists
    for that row and the user. *)
Theorem attach_votes_annotations (db : SocialDB) (queryset : QuerySet) (user : User)
    (as_field : string) :
  let type_id := content_type_id (qs_model queryset) in
  let counted := attach_votes_count_to_queryset queryset as_field in
  let voted := attach_is_vote_to_queryset user queryset as_field in
  (qs_rows counted = qs_rows queryset
   /\ qs_extra counted
      = <[as_field := votes_count_sql type_id (db_table (qs_model queryset))]> (qs_extra queryset)
   /\ map obj_id (fetch db counted) = qs_rows queryset
   /\ Forall (fun obj =>
        let counters := List.filter (fun v => (votes_content_type_id v =? type_id)
                                              && (votes_object_id v =? obj_id obj))
                          (votes_votes db) in
        obj_attrs obj !! as_field
        = Some (VInt (fold_right Z.add 0 (map (fun v => default 0 (votes_count v)) counters)))
        /\ (counters = [] -> obj_attrs obj !! as_field = Some (VInt 0)))
        (fetch db counted))
  /\ (qs_rows voted = qs_rows queryset
      /\ qs_extra voted
         = <[as_field := is_voted_sql type_id (db_table (qs_model queryset)) (u_id user)]>
             (qs_extra queryset)
      /\ map obj_id (fetch db voted) = qs_rows queryset
      /\ Forall (fun obj =>
           exists b, obj_attrs obj !! as_field = Some (VBool b)
                     /\ (b = true <->
                         exists v, In v (votes_vote db)
                                   /\ vote_content_type_id v = type_id
                                   /\ vote_object_id v = obj_id obj
                                   /\ vote_user_id v = u_id user))
           (fetch db voted)).
Proof.
  intros type_id counted voted. split.
  - split; [reflexivity|]. split; [reflexivity|]. split; [exact (fetch_ids db counted)|].
    apply List.Forall_forall. intros obj Hobj.
    pose proof (fetch_attr db counted obj as_field Hobj) as Hattr.
    unfold counted, attach_votes_count_to_queryset, extra in Hattr. simpl in Hattr.
    rewrite lookup_insert_eq in Hattr. simpl in Hattr.
    rewrite coalesce_sum in Hattr. fold type_id in Hattr.
    split; [exact Hattr|].
    intros Hnone. rewrite Hattr, Hnone. reflexivity.
  - split; [reflexivity|]. split; [reflexivity|]. split; [exact (fetch_ids db voted)|].
    apply List.Forall_forall. intros obj Hobj.
    pose proof (fetch_attr db voted obj as_field Hobj) as Hattr.
    unfold voted, attach_is_vote_to_queryset, extra in Hattr. simpl in Hattr.
    rewrite lookup_insert_eq in Hattr. simpl in Hattr. fold type_id in Hattr.
    eexists. split; [exact Hattr|].
    rewrite positive_count_iff. split.
    + intros (v & Hv & Hf). exists v.
      apply andb_true_iff in Hf as [Hf Hu]. apply andb_true_iff in Hf as [Hc Ho].
      apply Z.eqb_eq in Hc, Ho, Hu. auto.
    + intros (v & Hv & Hc & Ho & Hu). exists v. split; [exact Hv|].
      rewrite Hc, Ho, Hu, !Z.eqb_refl. reflexivity.
Qed.

(** C6: for a request whose user is not authenticated, attaching the vote
    attributes adds the [votes_count] clause only and attaching the watch
    attributes adds the [watchers] clause only, so every user-scoped clause
    of the result was already in the queryset; and the serialized
    [is_voted] and [is_watched] of an object without the annotation are
    false, as they are for every row fetched from such a queryset. *)
Theorem anonymous_gets_no_user_scoped_annotation (db : SocialDB) (request_user : RequestUser)
    (queryset : QuerySet) :
  is_authenticated request_user = false ->
  let voted := attach_votes_attrs_to_queryset request_user queryset in
  let watched := attach_watchers_attrs_to_queryset request_user queryset in
  voted = attach_votes_count_to_queryset queryset "votes_count"
  /\ watched = attach_watchers_to_queryset queryset "watchers"
  /\ (forall key sql, user_scoped sql = true ->
        (qs_extra voted !! key = Some sql -> qs_extra queryset !! key = Some sql)
        /\ (qs_extra watched !! key = Some sql -> qs_extra queryset !! key = Some sql))
  /\ (forall obj, obj_attrs obj !! "is_voted" = None -> get_is_voted obj = VBool false)
  /\ (forall obj, obj_attrs obj !! "is_watched" = None -> get_is_watched obj = VBool false)
  /\ (qs_extra queryset !! "is_voted" = None ->
      Forall (fun obj => get_is_voted obj = VBool false) (fetch db voted))
  /\ (qs_extra queryset !! "is_watched" = None ->
      Forall (fun obj => get_is_watched obj = VBool false) (fetch db watched)).
Proof.
  intros Hanon voted watched.
  destruct request_user as [|user]; [clear Hanon | discriminate Hanon].
  assert (Hvoted : forall obj, obj_attrs obj !! "is_voted" = None -> get_is_voted obj = VBool false).
  { intros obj H. unfold get_is_voted, getattr. now rewrite H. }
  assert (Hwatched : forall obj, obj_attrs obj !! "is_watched" = None -> get_is_watched obj = VBool false).
  { intros obj H. unfold get_is_watched, getattr. now rewrite H. }
  split; [reflexivity|]. split; [reflexivity|]. split.
  { intros key sql Hscoped. unfold voted, watched. simpl.
    split; intros H.
    - destruct (decide ("votes_count" = key)) as [<-|Hne].
      + rewrite lookup_insert_eq in H. injection H as <-. discriminate Hscoped.
      + now rewrite lookup_insert_ne in H.
    - destruct (decide ("watchers" = key)) as [<-|Hne].
      + rewrite lookup_insert_eq in H. injection H as <-. discriminate Hscoped.
      + now rewrite lookup_insert_ne in H. }
  split; [exact Hvoted|]. split; [exact Hwatched|]. split.
  - intros Hnone. apply List.Forall_forall. intros obj Hobj. apply Hvoted.
    rewrite (fetch_attr db voted obj "is_voted" Hobj).
    unfold voted. simpl. rewrite lookup_insert_ne by discriminate. now rewrite Hnone.
  - intros Hnone. apply List.Forall_forall. intros obj Hobj. apply Hwatched.
    rewrite (fetch_attr db watched obj "is_watched" Hobj).
    unfold watched. simpl. rewrite lookup_insert_ne by discriminate. now rewrite Hnone.
Qed.

(** ** Related people of a project *)

Lemma join_policies_In db u row :
  In row (join_policies db u) <->
  fst row = u
  /\ match snd row with
     | Some p => In p (notify_policies db) /\ np_user p = u_id u
     | None => forall p, In p (notify_policies db) -> np_user p <> u_id u
     end.
Proof.
  unfold join_policies.
  destruct (List.filter (fun p => np_user p =? u_id u) (notify_policies db)) as [|p0 ps] eqn:Hf.
  - simpl. split.
    + intros [<- | []]. simpl. split; [reflexivity|].
      intros p Hp Hu.
      assert (Hin : In p (List.filter (fun p => np_user p =? u_id u) (notify_policies db)))
        by (apply filter_In; split; [exact Hp | now apply Z.eqb_eq]).
      rewrite Hf in Hin. destruct Hin.
    + destruct row as [u' [p|]]; simpl; intros [-> H].
      * exfalso. destruct H as [Hp Hu].
        assert (Hin : In p (List.filter (fun p => np_user p =? u_id u) (notify_policies db)))
          by (apply filter_In; split; [exact Hp | now apply Z.eqb_eq]).
        rewrite Hf in Hin. destruct Hin.
      * now left.
  - rewrite <- Hf. rewrite in_map_iff. split.
    + intros (p & <- & Hp). simpl. apply filter_In in Hp as [Hp Hu].
      apply Z.eqb_eq in Hu. auto.
    + destruct row as [u' [p|]]; simpl; intros [-> H].
      * exists p. split; [reflexivity|]. apply filter_In. destruct H as [Hp Hu].
        split; [exact Hp | now apply Z.eqb_eq].
      * exfalso. assert (Hin : In p0 (List.filter (fun p => np_user p =? u_id u) (notify_policies db)))
          by (rewrite Hf; now left).
        apply filter_In in Hin as [Hp Hu]. apply Z.eqb_eq in Hu. exact (H p0 Hp Hu).
Qed.

Lemma join_policies_nonempty db u : exists o, In (u, o) (join_policies db u).
Proof.
  unfold join_policies.
  destruct (List.filter (fun p => np_user p =? u_id u) (notify_policies db)) as [|p0 ps].
  - exists None. now left.
  - exists (Some p0). now left.
Qed.

Lemma filter_users_In db q u :
  In u (filter_users db q) <->
  In u (users db)
  /\ exists o, In (u, o) (join_policies db u) /\ default true (eval_Q q (u, o)) = true.
Proof.
  unfold filter_users. rewrite in_map_iff. split.
  - intros ([u' o] & Hfst & Hin). simpl in Hfst. subst u'.
    apply filter_In in Hin as [Hin Hq]. apply in_flat_map in Hin as (u' & Hu' & Hrow).
    pose proof (proj1 (join_policies_In db u' (u, o)) Hrow) as [Heq _]. simpl in Heq. subst u'.
    split; [exact Hu'|]. exists o. auto.
  - intros (Hu & o & Hrow & Hq). exists (u, o). split; [reflexivity|].
    apply filter_In. split; [|exact Hq]. apply in_flat_map. exists u. auto.
Qed.

Lemma eval_q_watchers self row :
  eval_Q (_get_q_watchers self) row
  = Some (eval_lookup (notify_policies__project_id (p_id self)) row
          && negb (eval_lookup (notify_policies__notify_level ignore) row)).
Proof. reflexivity. Qed.

Lemma get_watchers_saved db self pid u :
  p_id self = Some pid ->
  In u (get_watchers db self) <->
  In u (users db)
  /\ exists p, In p (notify_policies db) /\ np_user p = u_id u
               /\ np_project p = pid /\ np_notify_level p <> ignore.
Proof.
  intros Hid. unfold get_watchers. rewrite filter_users_In. split.
  - intros (Hu & o & Hrow & Hq). split; [exact Hu|].
    rewrite eval_q_watchers, Hid in Hq. simpl in Hq.
    apply join_policies_In in Hrow as [_ Hrow]. simpl in Hrow.
    destruct o as [p|]; simpl in Hq; [|discriminate Hq].
    apply andb_true_iff in Hq as [Hp Hl]. apply Z.eqb_eq in Hp.
    apply negb_true_iff, bool_decide_eq_false in Hl.
    exists p. tauto.
  - intros (Hu & p & Hp & Hpu & Hpp & Hl). split; [exact Hu|].
    exists (Some p). split.
    + apply join_policies_In. simpl. auto.
    + rewrite eval_q_watchers, Hid. simpl.
      rewrite Hpp, Z.eqb_refl. simpl.
      apply negb_true_iff, bool_decide_eq_false. exact Hl.
Qed.

Lemma related_people_q_In db self u :
  let owner_q := match p_owner_id self with
                 | Some owner_id =>
                     if truthy_id (Some owner_id)
                     then Q_add Q_empty (Q_lookup (id__exact owner_id)) OR
                     else Q_empty
                 | None => Q_empty
                 end in
  In u (filter_users db (Q_add owner_q (_get_q_watchers self) OR)) <->
  (In u (users db) /\ exists o, p_owner_id self = Some o /\ o <> 0 /\ u_id u = o)
  \/ In u (get_watchers db self).
Proof.
  intros owner_q. unfold get_watchers. rewrite !filter_users_In.
  assert (Hplain : forall row,
             eval_Q (Q_add Q_empty (_get_q_watchers self) OR) row
             = eval_Q (_get_q_watchers self) row) by reflexivity.
  assert (Howner : forall o row,
             eval_Q (Q_add (Q_add Q_empty (Q_lookup (id__exact o)) OR) (_get_q_watchers self) OR) row
             = Some ((u_id (fst row) =? o)
                     || default true (eval_Q (_get_q_watchers self) row))).
  { intros o [u' op]. simpl. reflexivity. }
  unfold owner_q. destruct (p_owner_id self) as [o|] eqn:Ho.
  - destruct (truthy_id (Some o)) eqn:Ht.
    + simpl in Ht. apply negb_true_iff, Z.eqb_neq in Ht. split.
      * intros (Hu & op & Hrow & Hq). rewrite Howner in Hq.
        change (((u_id u =? o) || default true (eval_Q (_get_q_watchers self) (u, op))) = true) in Hq.
        apply orb_true_iff in Hq as [Hq | Hq].
        -- left. apply Z.eqb_eq in Hq. split; [exact Hu|]. exists o. auto.
        -- right. split; [exact Hu|]. exists op. auto.
      * intros [(Hu & o' & Heq & _ & Hid) | (Hu & op & Hrow & Hq)].
        -- injection Heq as <-. split; [exact Hu|].
           destruct (join_policies_nonempty db u) as [op Hrow].
           exists op. split; [exact Hrow|]. rewrite Howner.
           change (((u_id u =? o) || default true (eval_Q (_get_q_watchers self) (u, op))) = true).
           apply Z.eqb_eq in Hid. now rewrite Hid.
        -- split; [exact Hu|]. exists op. split; [exact Hrow|].
           rewrite Howner.
           change (((u_id u =? o) || default true (eval_Q (_get_q_watchers self) (u, op))) = true).
           rewrite Hq. apply orb_true_r.
    + simpl in Ht. apply negb_false_iff, Z.eqb_eq in Ht. subst o. split.
      * intros (Hu & op & Hrow & Hq). right. rewrite Hplain in Hq.
        split; [exact Hu|]. exists op. auto.
      * intros [(_ & o' & Heq & Hne & _) | H]; [congruence|].
        destruct H as (Hu & op & Hrow & Hq). split; [exact Hu|]. exists op.
        rewrite Hplain. auto.
  - split.
    + intros (Hu & op & Hrow & Hq). right. rewrite Hplain in Hq.
      split; [exact Hu|]. exists op. auto.
    + intros [(_ & o' & Heq & _) | H]; [discriminate Heq|].
      destruct H as (Hu & op & Hrow & Hq). split; [exact Hu|]. exists op.
      rewrite Hplain. auto.
Qed.

(** C8: [get_related_people] of a project has no duplicates and holds
    exactly the users that are the project's owner (when the project has
    one) or one of its watchers, and are active and not system users; the
    watchers of a saved project are the users with a notify policy for the
    project whose level is not [ignore]. *)
Theorem get_related_people_is_owner_and_watchers (db : Accounts) (self : Project) :
  NoDup (get_related_people db self)
  /\ (forall u,
        In u (get_related_people db self) <->
        ((In u (users db) /\ exists o, p_owner_id self = Some o /\ o <> 0 /\ u_id u = o)
         \/ In u (get_watchers db self))
        /\ u_is_active u = true /\ u_is_system u = false)
  /\ (forall pid u,
        p_id self = Some pid ->
        In u (get_watchers db self) <->
        In u (users db)
        /\ exists p, In p (notify_policies db) /\ np_user p = u_id u
                     /\ np_project p = pid /\ np_notify_level p <> ignore).
Proof.
  split; [apply NoDup_remove_dups|]. split.
  - intros u. unfold get_related_people.
    rewrite <- list_elem_of_In, elem_of_remove_dups, list_elem_of_In.
    rewrite !filter_In. rewrite (related_people_q_In db self u).
    rewrite !negb_true_iff, !bool_decide_eq_false.
    destruct (u_is_active u), (u_is_system u); intuition congruence.
  - intros pid u Hid. now apply get_watchers_saved.
Qed.

(** ** Notifications of a watched resource *)

Lemma add_watcher_spec obj user w :
  exists w',
    services.add_watcher obj user w = Ok tt w'
    /\ w_accounts w' = w_accounts w
    /\ w_outbox w' = w_outbox w
    /\ w_calls w' = w_calls w ++ [call_add_watcher obj user]
    /\ existsb (watches obj user) (w_watched w') = true
    /\ (forall x, In x (w_watched w) -> In x (w_watched w')).
Proof.
  unfold services.add_watcher, log, bind, modify. simpl.
  destruct (existsb (watches obj user) (w_watched w)) eqn:He.
  - eexists. split; [reflexivity|]. simpl. auto.
  - eexists. split; [reflexivity|]. simpl.
    split; [reflexivity|]. split; [reflexivity|]. split; [reflexivity|]. split.
    + rewrite existsb_app. simpl.
      unfold watches at 2. simpl. rewrite !Z.eqb_refl. simpl. apply orb_true_r.
    + intros x Hx. apply in_or_app. now left.
Qed.

Lemma existsb_mono {A} (f : A -> bool) (l l' : list A) :
  (forall x, In x l -> In x l') -> existsb f l = true -> existsb f l' = true.
Proof.
  intros Hsub H. apply existsb_exists in H as (x & Hx & Hf).
  apply existsb_exists. exists x. auto.
Qed.

Lemma add_mentioned_spec obj (ms : list Z) w :
  exists w',
    for_ ms (fun mentioned => services.add_watcher obj mentioned) w = Ok tt w'
    /\ w_accounts w' = w_accounts w
    /\ w_outbox w' = w_outbox w
    /\ w_calls w' = w_calls w ++ map (call_add_watcher obj) ms
    /\ (forall m, In m ms -> existsb (watches obj m) (w_watched w') = true)
    /\ (forall x, In x (w_watched w) -> In x (w_watched w')).
Proof.
  revert w. induction ms as [|m ms IH]; intros w.
  - exists w. simpl. rewrite app_nil_r.
    split; [reflexivity|]. split; [reflexivity|]. split; [reflexivity|]. split; [reflexivity|].
    split; [intros m []|auto].
  - destruct (add_watcher_spec obj m w) as (w1 & Hrun & Ha & Ho & Hc & Hw & Hsub).
    destruct (IH w1) as (w2 & Hrun2 & Ha2 & Ho2 & Hc2 & Hw2 & Hsub2).
    exists w2. simpl. rewrite (bind_Ok _ _ _ _ _ Hrun).
    split; [exact Hrun2|]. split; [congruence|]. split; [congruence|]. split.
    + rewrite Hc2, Hc, <- app_assoc. reflexivity.
    + split.
      * intros m' [<- | Hm']; [|now apply Hw2].
        exact (existsb_mono _ _ _ Hsub2 Hw).
      * auto.
Qed.

(** C7: with a history entry (given, or the last one of the resource) and
    notifications not suppressed, [send_notifications] first calls the
    mention analysis, which adds the users mentioned in the comment as
    watchers, and only then the fan-out; so every mentioned user that is
    active, not a system user and not ignoring the project is sent the
    notification of that very change. *)
Theorem mention_analysis_precedes_fan_out (mentions : string -> list Z) (self : Resource)
    (obj : Instance) (history : option HistoryEntry) (h : HistoryEntry) (w : World) :
  history = Some h \/ (history = None /\ get_last_history self = Some h) ->
  _not_notify self = false ->
  let obj' := get_object_for_snapshot self obj in
  exists w',
    WatchedResourceMixin.send_notifications mentions self obj history w = Ok tt w'
    /\ w_calls w'
       = w_calls w
         ++ [call_analize_object_for_watchers obj' (he_comment h) (he_owner h)]
         ++ map (call_add_watcher obj') (mentions (he_comment h))
         ++ [call_send_notifications obj' h]
    /\ (forall u,
          In u (users (w_accounts w)) ->
          In (u_id u) (mentions (he_comment h)) ->
          u_is_active u = true -> u_is_system u = false ->
          services.ignores w (i_project obj') u = false ->
          In (u_id u, h) (w_outbox w')).
Proof.
  intros Hhist Hnotify obj'.
  unfold WatchedResourceMixin.send_notifications.
  assert (Hh : match history with None => get_last_history self | Some x => Some x end = Some h)
    by (destruct Hhist as [-> | [-> ->]]; reflexivity).
  rewrite Hh, Hnotify. fold obj'.
  unfold services.analize_object_for_watchers, services.send_notifications.
  set (w0 := mkWorld (w_accounts w) (w_watched w) (w_outbox w)
               (w_calls w ++ [call_analize_object_for_watchers obj' (he_comment h) (he_owner h)])).
  destruct (add_mentioned_spec obj' (mentions (he_comment h)) w0)
    as (w1 & Hrun & Ha & Ho & Hc & Hw & _).
  eexists. split.
  { unfold bind at 1. unfold bind at 1. unfold log at 1, modify at 1. fold w0.
    rewrite Hrun. unfold bind, log, modify. reflexivity. }
  simpl. split.
  { rewrite Hc. unfold w0. simpl. rewrite <- !app_assoc. reflexivity. }
  intros u Hu Hm Hact Hsys Hign.
  rewrite Ho. unfold w0 at 1. simpl. apply in_or_app. right.
  apply in_map_iff. exists u. split; [reflexivity|].
  apply filter_In. split.
  - unfold services.get_related_people. simpl.
    apply list_elem_of_In, elem_of_remove_dups, list_elem_of_In.
    apply filter_In. split; [|now rewrite Hact, Hsys].
    apply in_or_app. right. unfold services.get_watchers. simpl.
    apply filter_In. rewrite Ha. split; [exact Hu|]. exact (Hw _ Hm).
  - unfold services.ignores in *. simpl. rewrite Ha. unfold w0. simpl.
    now rewrite Hign.
Qed.

(** ** The watchers field of the serializer *)

Lemma empty_set_of_list (ids : list Z) :
  ids = [] -> size (list_to_set ids : gset Z) = 0%nat.
Proof. intros ->. reflexivity. Qed.

(** C9: on a creation (no existing instance), and on an update whose
    submitted watchers list is empty or absent, [restore_object] leaves the
    world as it was, whether it returns or raises: no call of [add_watcher]
    or [remove_watcher] is made and the stored watchers of every object are
    unchanged. *)
Theorem restore_object_keeps_watchers
    (validate_watchers : gmap string Value -> string -> World -> Exc + unit)
    (super_restore_object : gmap string Value -> option Instance -> Instance)
    (attrs : gmap string Value) (instance : option Instance) (h : SerializerHeap) :
  instance = None \/ attrs !! "watchers" = Some (VList []) \/ attrs !! "watchers" = None ->
  match WatchedResourceModelSerializer.restore_object validate_watchers super_restore_object
          attrs instance h with
  | Ok _ h' | Raise _ h' =>
      sz_world h' = sz_world h
      /\ w_calls (sz_world h') = w_calls (sz_world h)
      /\ forall obj, services.get_watchers obj (sz_world h') = services.get_watchers obj (sz_world h)
  end.
Proof.
  intros Hcase.
  unfold WatchedResourceModelSerializer.restore_object.
  unfold bind at 1. unfold modify at 1.
  unfold bind at 1. unfold in_world at 1. simpl.
  destruct (validate_watchers attrs "watchers" (sz_world h)) as [e|[]]; simpl; [auto|].
  unfold bind at 1.
  unfold WatchedResourceModelSerializer.pop_watchers.
  destruct Hcase as [-> | [Hw | Hw]].
  - destruct (attrs !! "watchers") as [[| |? |ids]|]; simpl; auto.
  - rewrite Hw. simpl. rewrite orb_true_r. simpl. auto.
  - rewrite Hw. simpl. rewrite orb_true_r. simpl. auto.
Qed.

(** ** [Project.save] *)















(** ** The favourites feed *)

Section FavouritesFeed.
Import Favourites.

Lemma ref_eq_kind (k1 k2 : EntityKind) (i1 i2 : Z) :
  bool_decide (mkRef k1 i1 = mkRef k2 i2) = bool_decide (k1 = k2) && (i1 =? i2).
Proof.
  destruct (decide (k1 = k2)) as [->|Hk].
  - rewrite (bool_decide_eq_true_2 (k2 = k2)) by reflexivity. simpl.
    destruct (Z.eqb_spec i1 i2) as [->|Hi].
    + now apply bool_decide_eq_true_2.
    + apply bool_decide_eq_false_2. congruence.
  - rewrite (bool_decide_eq_false_2 (k1 = k2)) by assumption. simpl.
    apply bool_decide_eq_false_2. congruence.
Qed.

Ltac decide_closed :=
  repeat match goal with
         | |- context [bool_decide (?a = ?b)] =>
             first [ rewrite (bool_decide_eq_true_2 (a = b)) by reflexivity
                   | rewrite (bool_decide_eq_false_2 (a = b)) by discriminate ]
         end.

Lemma add_vote_votes ref user now s :
  votes (add_vote ref user now s)
  = (if existsb (marked ref user) (votes s) then votes s else votes s ++ [mkMark ref user now])
  /\ watches (add_vote ref user now s) = watches s
  /\ entities (add_vote ref user now s) = entities s.
Proof. unfold add_vote. destruct (existsb _ _); auto. Qed.

Lemma add_watcher_watches ref user now s :
  watches (add_watcher ref user now s)
  = (if existsb (marked ref user) (watches s) then watches s else watches s ++ [mkMark ref user now])
  /\ votes (add_watcher ref user now s) = votes s
  /\ entities (add_watcher ref user now s) = entities s.
Proof. unfold add_watcher. destruct (existsb _ _); auto. Qed.

Lemma marked_other_kind k1 k2 i1 i2 u u' now :
  k1 <> k2 -> marked (mkRef k1 i1) u (mkMark (mkRef k2 i2) u' now) = false.
Proof.
  intros Hk. unfold marked. simpl.
  rewrite (bool_decide_eq_false_2 (mkRef k2 i2 = mkRef k1 i1)); [reflexivity | congruence].
Qed.

Lemma scenario_store A P us t i now :
  entities (scenario A P us t i now) = scenario_entities P us t i
  /\ votes (scenario A P us t i now) = scenario_marks A P us t i now
  /\ watches (scenario A P us t i now) = scenario_marks A P us t i now.
Proof.
  unfold scenario.
  repeat match goal with
         | |- context [add_watcher ?r ?u ?n ?s] =>
             destruct (add_watcher_watches r u n s) as (-> & -> & ->)
         end.
  repeat match goal with
         | |- context [add_vote ?r ?u ?n ?s] =>
             destruct (add_vote_votes r u n s) as (-> & -> & ->)
         end.
  cbn [votes watches entities existsb app orb].
  rewrite !marked_other_kind by discriminate.
  cbn [votes watches entities existsb app orb].
  rewrite !marked_other_kind by discriminate.
  cbn [votes watches entities existsb app orb].
  rewrite !marked_other_kind by discriminate.
  cbn [votes watches entities existsb app orb].
  auto.
Qed.

Lemma resolve_scenario s P us t i :
  entities s = scenario_entities P us t i ->
  resolve s (mkRef project P) = Some (mkEntity (mkRef project P) P "Testing project" None)
  /\ resolve s (mkRef userstory us) = Some (mkEntity (mkRef userstory us) P "Testing user story" (Some 1))
  /\ resolve s (mkRef task t) = Some (mkEntity (mkRef task t) P "Testing task" (Some 2))
  /\ resolve s (mkRef issue i) = Some (mkEntity (mkRef issue i) P "Testing issue" (Some 3)).
Proof.
  intros He. unfold resolve. rewrite He. unfold scenario_entities.
  cbn [List.find e_ref].
  rewrite !ref_eq_kind. decide_closed. cbn [andb]. rewrite !Z.eqb_refl.
  auto.
Qed.

Lemma scenario_items (can_view : Z -> Z -> bool) s A P us t i now action :
  entities s = scenario_entities P us t i ->
  can_view A P = true ->
  map (fun it => (fi_type (fst it), fi_action (fst it), snd it))
    (items_of can_view s A A action (scenario_marks A P us t i now))
  = [ (project, action, "Testing project"); (userstory, action, "Testing user story");
      (task, action, "Testing task"); (issue, action, "Testing issue") ].
Proof.
  intros He Hview. destruct (resolve_scenario s P us t i He) as (Hp & Hus & Ht & Hi).
  unfold items_of, scenario_marks. cbn [flat_map mark_user mark_ref].
  rewrite !Z.eqb_refl, Hp, Hus, Ht, Hi. cbn [e_project]. rewrite Hview.
  reflexivity.
Qed.

Lemma filter_keep_length type action q (l : list (FeedItem * string)) :
  length (List.filter (keep type action q) l)
  = length (List.filter (keep_triple type action q) (map triple l)).
Proof.
  induction l as [|it l IH]; [reflexivity|]. simpl.
  change (keep_triple type action q (triple it)) with (keep type action q it).
  destruct (keep type action q it); simpl; now rewrite IH.
Qed.

Lemma scenario_feed_length (can_view : Z -> Z -> bool) (A P us t i now : Z) type action q :
  can_view A P = true ->
  length (get_favourites can_view (scenario A P us t i now) A A type action q)
  = length (List.filter (keep_triple type action q)
              [ (project, vote, "Testing project"); (userstory, vote, "Testing user story");
                (task, vote, "Testing task"); (issue, vote, "Testing issue");
                (project, watch, "Testing project"); (userstory, watch, "Testing user story");
                (task, watch, "Testing task"); (issue, watch, "Testing issue") ]).
Proof.
  intros Hview. destruct (scenario_store A P us t i now) as (He & Hv & Hw).
  unfold get_favourites. rewrite length_map, filter_keep_length, map_app, Hv, Hw.
  unfold triple.
  rewrite (scenario_items can_view _ A P us t i now vote He Hview).
  rewrite (scenario_items can_view _ A P us t i now watch He Hview).
  reflexivity.
Qed.

(** C2, as amended: in the scenario where user [A] votes on project [P]
    (which [A] can view), a user story, a task and an issue inside [P], and
    watches the same four, the feed of [A] seen by [A] has 8 items; the
    filter [type = project] keeps 2 of them (the vote and the watch); the
    filter [action = watch] keeps 4. *)
Theorem favourites_scenario (can_view : Z -> Z -> bool) (A P us t i now : Z) :
  can_view A P = true ->
  let s := scenario A P us t i now in
  length (get_favourites can_view s A A None None None) = 8%nat
  /\ length (get_favourites can_view s A A (Some project) None None) = 2%nat
  /\ length (get_favourites can_view s A A None (Some watch) None) = 4%nat.
Proof.
  intros Hview s. unfold s.
  rewrite !(scenario_feed_length can_view A P us t i now _ _ _ Hview).
  repeat split.
Qed.

Lemma favourites_scenario_witness :
  length (get_favourites (fun _ _ => true) (scenario 1 1 2 3 4 0) 1 1 None None None) = 8%nat
  /\ length (get_favourites (fun _ _ => true) (scenario 1 1 2 3 4 0) 1 1 (Some project) None None) = 2%nat
  /\ length (get_favourites (fun _ _ => true) (scenario 1 1 2 3 4 0) 1 1 None (Some watch) None) = 4%nat.
Proof.
  apply (favourites_scenario (fun _ _ => true) 1 1 2 3 4 0). reflexivity.
Defined.

(** C2, as stated, fails: with the filter [type = project] the feed of the
    scenario has 2 items, not 1. *)
Lemma favourites_type_project_is_not_one :
  ~ (length (get_favourites (fun _ _ => true) (scenario 1 1 2 3 4 0) 1 1 None None None) = 8%nat
     /\ length (get_favourites (fun _ _ => true) (scenario 1 1 2 3 4 0) 1 1 (Some project) None None) = 1%nat
     /\ length (get_favourites (fun _ _ => true) (scenario 1 1 2 3 4 0) 1 1 None (Some watch) None) = 4%nat).
Proof.
  intros (_ & H & _). vm_compute in H. discriminate H.
Qed.
End FavouritesFeed.

(** ** [apply_to_project] needs a saved project *)

Section Maintains.
Context {S : Type} (I : S -> Prop) (E : Exc -> Prop).

Lemma maintains_ret {A} (a : A) : maintains I E (ret a).
Proof. intros s Hs. exact Hs. Qed.

Lemma maintains_bind {A B} (c : M S A) (k : A -> M S B) :
  maintains I E c -> (forall a, maintains I E (k a)) -> maintains I E (bind c k).
Proof.
  intros Hc Hk s Hs. unfold bind. specialize (Hc s Hs).
  destruct (c s) as [a s'|e s']; [now apply Hk | exact Hc].
Qed.

Lemma maintains_raise {A} (e : Exc) : E e -> maintains I E (@raise S A e).
Proof. intros He s Hs. simpl. auto. Qed.

Lemma maintains_gets {A} (f : S -> A) : maintains I E (gets f).
Proof. intros s Hs. exact Hs. Qed.

Lemma maintains_modify (f : S -> S) : (forall s, I s -> I (f s)) -> maintains I E (modify f).
Proof. intros Hf s Hs. simpl. auto. Qed.

Lemma maintains_for {A} (xs : list A) (body : A -> M S unit) :
  (forall x, maintains I E (body x)) -> maintains I E (for_ xs body).
Proof.
  intros Hbody. induction xs as [|x xs IH]; simpl.
  - apply maintains_ret.
  - apply maintains_bind; auto.
Qed.

Lemma maintains_when (cond : bool) (body : M S unit) :
  maintains I E body -> maintains I E (when cond body).
Proof. intros Hb. destruct cond; [exact Hb | apply maintains_ret]. Qed.

Lemma maintains_iter_json {A} (field : option (list A)) :
  E TypeError -> maintains I E (iter_json field).
Proof.
  intros He. destruct field; [apply maintains_ret | now apply maintains_raise].
Qed.

Lemma maintains_lift {A} (r : Exc + A) :
  (forall e, r = inl e -> E e) -> maintains I E (lift r).
Proof.
  intros He. destruct r; [apply maintains_raise; auto | apply maintains_ret].
Qed.

End Maintains.

Lemma stamped_on_db self f h : stamped self h -> stamped self (on_db f h).
Proof. exact (fun H => H). Qed.

Lemma stamped_on_project self (f : Project -> Project) h :
  (forall p, p_creation_template (f p) = p_creation_template p) ->
  stamped self h -> stamped self (on_project f h).
Proof. unfold stamped. simpl. intros Hf Hs. now rewrite Hf. Qed.

Lemma get_by_name_not_precondition {F} `{HasOrdering F} model name pid (tbl : list (Row F)) e :
  get_by_name model name pid tbl = inl e -> not_precondition e.
Proof.
  unfold get_by_name. destruct name as [n|]; [|intros [= <-]; exact Logic.I].
  destruct (List.filter _ _) as [|r [|r' rest]]; intros [= <-]; exact Logic.I.
Qed.

Section Stamped.
Variable slugify_uniquely_for_queryset : string -> list string -> string.
Variable self : ProjectTemplate.

Lemma maintains_create {F} `{HasOrdering F} (T : Manager F) name fields pid :
  maintains (stamped self) not_precondition (create T name fields pid).
Proof.
  intros h Hh. unfold create.
  destruct (name_taken _ _ _); simpl; [split; [exact Hh | exact Logic.I] | exact Hh].
Qed.

Lemma maintains_create_with_slug {F} `{HasOrdering F} `{HasSlug F} (T : Manager F) name fields pid :
  maintains (stamped self) not_precondition
    (create_with_slug slugify_uniquely_for_queryset T name fields pid).
Proof.
  intros h Hh. unfold create_with_slug.
  destruct (_ || _); simpl; [split; [exact Hh | exact Logic.I] | exact Hh].
Qed.

Lemma maintains_create_role name fields pid :
  maintains (stamped self) not_precondition (create_role name fields pid).
Proof. intros h Hh. exact Hh. Qed.

Lemma maintains_get {F} `{HasOrdering F} (T : Manager F) name pid :
  maintains (stamped self) not_precondition (get T name pid).
Proof.
  intros h Hh. unfold get.
  destruct (get_by_name _ _ _ _) as [e|r] eqn:Hg; simpl; [|exact Hh].
  split; [exact Hh | exact (get_by_name_not_precondition _ _ _ _ _ Hg)].
Qed.

Lemma maintains_default_option template key :
  maintains (stamped self) not_precondition (default_option template key).
Proof.
  unfold default_option. destruct (t_default_options template) as [options|].
  - destruct (options !! key); [apply maintains_ret | apply maintains_raise; exact Logic.I].
  - apply maintains_raise. exact Logic.I.
Qed.

Lemma maintains_set_default (f : ProjectDefaults -> ProjectDefaults) :
  maintains (stamped self) not_precondition (modify (on_project (on_defaults f))).
Proof.
  apply maintains_modify. intros h. apply stamped_on_project. intros p. now destruct p.
Qed.

End Stamped.

Ltac maintains_step :=
  first
    [ apply maintains_bind; [|intros ?]
    | apply maintains_for; intros ?
    | apply maintains_when
    | apply maintains_iter_json; exact Logic.I
    | apply maintains_create
    | apply maintains_create_with_slug
    | apply maintains_create_role
    | apply maintains_get
    | apply maintains_default_option
    | apply maintains_set_default
    | apply maintains_gets
    | apply maintains_modify; intros ?; apply stamped_on_project; intros p; now destruct p ].

(** C4: for every template, [apply_to_project] on a project without an id
    raises its exception from the untouched heap: the project is not
    mutated and no row is created; on a saved project it never raises that
    exception and, whether it returns or raises later, it has gone on to
    stamp the project with the template. *)
Theorem apply_to_project_needs_saved_project
    (slugify_uniquely_for_queryset : string -> list string -> string)
    (self : ProjectTemplate) (h : Heap) :
  match p_id (h_project h) with
  | None =>
      apply_to_project slugify_uniquely_for_queryset self h
      = Raise (Exception "Project need an id (must be a saved project)") h
  | Some _ =>
      match apply_to_project slugify_uniquely_for_queryset self h with
      | Ok _ h' => stamped self h'
      | Raise e h' => stamped self h' /\ not_precondition e
      end
  end.
Proof.
  destruct (p_id (h_project h)) as [pid|] eqn:Hid.
  - unfold apply_to_project. unfold bind at 1. unfold gets at 1. rewrite Hid.
    unfold bind at 1. unfold modify at 1.
    lazymatch goal with
    | |- match ?c ?s with Ok _ _ => _ | Raise _ _ => _ end =>
        cut (maintains (stamped self) not_precondition c);
        [ intros Hm; apply (Hm s); unfold stamped; simpl; now destruct (h_project h) | ]
    end.
    repeat maintains_step.
  - unfold apply_to_project. unfold bind at 1. unfold gets at 1. rewrite Hid.
    reflexivity.
Qed.

(** ** Rows in the order of [Meta.ordering] *)

Lemma string_leb_trans (a b c : string) :
  String.leb a b = true -> String.leb b c = true -> String.leb a c = true.
Proof.
  unfold String.leb. revert b c.
  induction a as [|x a IH]; intros [|y b] [|z c]; simpl; try congruence.
  unfold Ascii.compare.
  destruct (N.compare_spec (Ascii.N_of_ascii x) (Ascii.N_of_ascii y)) as [Hxy|Hxy|Hxy];
    destruct (N.compare_spec (Ascii.N_of_ascii y) (Ascii.N_of_ascii z)) as [Hyz|Hyz|Hyz];
    destruct (N.compare_spec (Ascii.N_of_ascii x) (Ascii.N_of_ascii z)) as [Hxz|Hxz|Hxz];
    try congruence; try lia; try apply IH.
Qed.

Lemma key_leb_total (a b : Z * string) : key_leb a b = true \/ key_leb b a = true.
Proof.
  unfold key_leb. destruct a as [i s], b as [j t]; simpl.
  destruct (Z.ltb_spec i j); [now left|]. destruct (Z.ltb_spec j i); [now right|].
  assert (i = j) as -> by lia. rewrite Z.eqb_refl. simpl. apply String.leb_total.
Qed.

Lemma key_leb_trans (a b c : Z * string) :
  key_leb a b = true -> key_leb b c = true -> key_leb a c = true.
Proof.
  unfold key_leb. destruct a as [i s], b as [j t], c as [k u]; simpl.
  rewrite !orb_true_iff, !andb_true_iff, !Z.ltb_lt, !Z.eqb_eq.
  intros [Hij | [-> Hst]] [Hjk | [-> Htu]]; [left; lia | now left | now left |].
  right. split; [reflexivity|]. now apply (string_leb_trans s t u).
Qed.

Section OrderBy.
Context {F : Type} `{HasOrdering F}.
Implicit Types (rows : list (Row F)) (r x : Row F).

Lemma insert_ordered_Permutation r rows : Permutation (insert_ordered r rows) (r :: rows).
Proof.
  induction rows as [|x rows IH]; simpl; [reflexivity|].
  destruct (key_leb (row_key r) (row_key x)); [reflexivity|].
  rewrite IH. apply perm_swap.
Qed.

Lemma order_by_Permutation rows : Permutation (order_by rows) rows.
Proof.
  induction rows as [|x rows IH]; simpl; [reflexivity|].
  rewrite insert_ordered_Permutation. now apply perm_skip.
Qed.

Lemma order_by_In rows r : In r (order_by rows) <-> In r rows.
Proof.
  split; apply Permutation_in; [|symmetry]; apply order_by_Permutation.
Qed.

Lemma order_by_nil rows : order_by rows = [] -> rows = [].
Proof.
  intros Hnil. apply Permutation_nil. rewrite <- Hnil. apply order_by_Permutation.
Qed.

Lemma insert_ordered_first r rows :
  Forall (fun x => key_leb (row_key r) (row_key x) = true) rows ->
  insert_ordered r rows = r :: rows.
Proof.
  destruct rows as [|x rows]; [reflexivity|]. intros Hall. simpl.
  apply Forall_inv in Hall. now rewrite Hall.
Qed.

Lemma insert_ordered_in_order r rows : in_order rows -> in_order (insert_ordered r rows).
Proof.
  unfold in_order. induction rows as [|x rows IH]; simpl; intros Hs.
  - repeat constructor.
  - apply StronglySorted_inv in Hs as [Hrows Hx].
    destruct (key_leb (row_key r) (row_key x)) eqn:Hle; simpl.
    + constructor; [now constructor|]. constructor; [exact Hle|].
      eapply List.Forall_impl; [|exact Hx]. intros k Hk. now apply (key_leb_trans _ (row_key x)).
    + constructor; [now apply IH|].
      assert (Hxr : key_leb (row_key x) (row_key r) = true)
        by (destruct (key_leb_total (row_key x) (row_key r)); congruence).
      apply List.Forall_forall. intros k Hk. apply in_map_iff in Hk as (y & <- & Hy).
      apply (Permutation_in _ (insert_ordered_Permutation r rows)) in Hy as [<- | Hy];
        [exact Hxr|].
      rewrite List.Forall_forall in Hx. apply Hx. now apply in_map.
Qed.

Lemma order_by_in_order rows : in_order (order_by rows).
Proof.
  induction rows as [|x rows IH]; simpl; [constructor|]. now apply insert_ordered_in_order.
Qed.

Lemma in_order_first r rows :
  in_order (r :: rows) -> Forall (fun x => key_leb (row_key r) (row_key x) = true) rows.
Proof.
  unfold in_order. simpl. intros Hs. apply StronglySorted_inv in Hs as [_ Hr].
  rewrite List.Forall_forall in *. intros x Hx. apply Hr. now apply in_map.
Qed.

Lemma in_order_tail r rows : in_order (r :: rows) -> in_order rows.
Proof. unfold in_order. simpl. intros Hs. now apply StronglySorted_inv in Hs as [Hs _]. Qed.

Lemma in_order_order_by rows : in_order rows -> order_by rows = rows.
Proof.
  induction rows as [|x rows IH]; intros Hs; simpl; [reflexivity|].
  rewrite (IH (in_order_tail _ _ Hs)). apply insert_ordered_first. now apply in_order_first.
Qed.

Lemma in_order_filter (q : Row F -> bool) rows : in_order rows -> in_order (List.filter q rows).
Proof.
  induction rows as [|x rows IH]; intros Hs; simpl; [exact Hs|].
  pose proof (in_order_first _ _ Hs) as Hx. pose proof (IH (in_order_tail _ _ Hs)) as Hrest.
  destruct (q x); [|exact Hrest].
  unfold in_order in *. simpl. constructor; [exact Hrest|].
  rewrite List.Forall_forall in *. intros k Hk. apply in_map_iff in Hk as (y & <- & Hy).
  apply filter_In in Hy as [Hy _]. now apply Hx.
Qed.

Lemma filter_insert_ordered (q : Row F -> bool) r rows :
  in_order rows ->
  List.filter q (insert_ordered r rows)
  = if q r then insert_ordered r (List.filter q rows) else List.filter q rows.
Proof.
  induction rows as [|x rows IH]; intros Hs; simpl.
  - destruct (q r); reflexivity.
  - pose proof (in_order_first _ _ Hs) as Hx.
    destruct (key_leb (row_key r) (row_key x)) eqn:Hle; simpl.
    + destruct (q r); [|reflexivity].
      symmetry. apply insert_ordered_first.
      assert (Hall : Forall (fun y => key_leb (row_key r) (row_key y) = true) (x :: rows)).
      { constructor; [exact Hle|]. eapply List.Forall_impl; [|exact Hx].
        intros y Hy. now apply (key_leb_trans _ (row_key x)). }
      rewrite List.Forall_forall in *. intros y Hy.
      apply Hall. change (In y (List.filter q (x :: rows))) in Hy.
      now apply filter_In in Hy as [Hy _].
    + rewrite (IH (in_order_tail _ _ Hs)).
      destruct (q x), (q r); simpl; rewrite ?Hle; reflexivity.
Qed.

(** Filtering commutes with [ORDER BY]. *)
Lemma filter_order_by (q : Row F -> bool) rows :
  List.filter q (order_by rows) = order_by (List.filter q rows).
Proof.
  induction rows as [|x rows IH]; simpl; [reflexivity|].
  rewrite filter_insert_ordered by apply order_by_in_order.
  rewrite IH. destruct (q x); reflexivity.
Qed.

Lemma order_by_twice rows : order_by (order_by rows) = order_by rows.
Proof. apply in_order_order_by, order_by_in_order. Qed.

End OrderBy.

(** ** The template round trip *)

Section TableFacts.
Context {F : Type} {Hord : HasOrdering F}.
Implicit Types (tbl : list (Row F)) (r : Row F).

Lemma related_Permutation pid tbl :
  Permutation (related pid tbl) (List.filter (fun r => row_project r =? pid) tbl).
Proof. apply order_by_Permutation. Qed.


Lemma related_app pid tbl tbl' :
  Permutation (related pid (tbl ++ tbl')) (related pid tbl ++ related pid tbl').
Proof. rewrite !related_Permutation. now rewrite List.filter_app. Qed.

Lemma related_In pid tbl r : In r (related pid tbl) <-> In r tbl /\ row_project r = pid.
Proof. unfold related. rewrite order_by_In, filter_In, Z.eqb_eq. reflexivity. Qed.

Lemma related_new_row pid i name (f : F) : related pid [mkRow i pid name f] = [mkRow i pid name f].
Proof. unfold related. simpl. now rewrite Z.eqb_refl. Qed.

Lemma related_nil pid tbl :
  related pid tbl = [] -> List.filter (fun r => row_project r =? pid) tbl = [].
Proof. apply order_by_nil. Qed.

Lemma filter_twice_comm {A} (p q : A -> bool) (l : list A) :
  List.filter q (List.filter p l) = List.filter p (List.filter q l).
Proof.
  induction l as [|x l IH]; simpl; [reflexivity|].
  destruct (p x) eqn:Hp, (q x) eqn:Hq; simpl; rewrite ?Hp, ?Hq, IH; reflexivity.
Qed.

(** A filter of the queryset may be applied to the table. *)
Lemma filter_related (q : Row F -> bool) pid tbl :
  List.filter q (related pid tbl) = related pid (List.filter q tbl).
Proof. unfold related. now rewrite filter_order_by, filter_twice_comm. Qed.

Lemma related_snoc pid tbl r :
  row_project r = pid -> Permutation (related pid (tbl ++ [r])) (related pid tbl ++ [r]).
Proof.
  intros Hp. rewrite related_app. apply Permutation_app_head.
  rewrite related_Permutation. simpl. apply Z.eqb_eq in Hp. now rewrite Hp.
Qed.

Lemma max_id_bound tbl r : In r tbl -> row_id r <= fold_right Z.max 0 (map row_id tbl).
Proof.
  induction tbl as [|x tbl IH]; simpl; [intros []|].
  intros [<- | Hr]; [lia | specialize (IH Hr); lia].
Qed.

Lemma next_id_fresh tbl r : In r tbl -> row_id r < next_id tbl.
Proof. intros Hr. unfold next_id. pose proof (max_id_bound tbl r Hr). lia. Qed.

Lemma next_id_app tbl tbl' : next_id tbl <= next_id (tbl ++ tbl').
Proof.
  unfold next_id. rewrite map_app. induction tbl as [|x tbl IH]; simpl.
  - assert (0 <= fold_right Z.max 0 (map row_id tbl')); [|lia].
    induction tbl' as [|y tbl' IH']; simpl; lia.
  - lia.
Qed.

Lemma find_app' {A} (p : A -> bool) (l l' : list A) :
  List.find p (l ++ l') = match List.find p l with
                          | Some x => Some x
                          | None => List.find p l'
                          end.
Proof. induction l as [|x l IH]; simpl; [reflexivity|]. destruct (p x); [reflexivity | exact IH]. Qed.

Lemma insert_all_created fields_of pid snapshots tbl :
  insert_all fields_of pid snapshots tbl = tbl ++ created fields_of pid snapshots tbl.
Proof.
  revert tbl. induction snapshots as [|s rest IH]; intros tbl; simpl.
  - now rewrite app_nil_r.
  - rewrite IH, <- app_assoc. reflexivity.
Qed.

Lemma created_names fields_of pid snapshots tbl :
  map row_name (created fields_of pid snapshots tbl) = map snap_name snapshots.
Proof.
  revert tbl. induction snapshots as [|s rest IH]; intros tbl; simpl; [reflexivity|].
  now rewrite IH.
Qed.

Lemma created_project fields_of pid snapshots tbl r :
  In r (created fields_of pid snapshots tbl) -> row_project r = pid.
Proof.
  revert tbl. induction snapshots as [|s rest IH]; intros tbl; simpl; [intros []|].
  intros [<- | Hr]; [reflexivity | now apply (IH _ Hr)].
Qed.

Lemma created_ids fields_of pid snapshots tbl r :
  In r (created fields_of pid snapshots tbl) -> next_id tbl <= row_id r.
Proof.
  revert tbl. induction snapshots as [|s rest IH]; intros tbl; simpl; [intros []|].
  intros [<- | Hr]; simpl; [lia|].
  specialize (IH _ Hr).
  pose proof (next_id_app tbl [mkRow (next_id tbl) pid (snap_name s) (fields_of tbl s)]). lia.
Qed.

(** The id of a created row is the id of no other row: the key resolves
    to the created row. *)
Lemma created_find fields_of pid snapshots tbl r :
  In r (created fields_of pid snapshots tbl) ->
  List.find (fun x => row_id x =? row_id r) (insert_all fields_of pid snapshots tbl) = Some r.
Proof.
  intros Hr. rewrite insert_all_created, find_app'.
  assert (Hold : List.find (fun x => row_id x =? row_id r) tbl = None).
  { destruct (List.find _ tbl) as [x|] eqn:Hx; [|reflexivity].
    apply find_some in Hx as [Hx Heq]. apply Z.eqb_eq in Heq.
    pose proof (next_id_fresh tbl x Hx). pose proof (created_ids _ _ _ _ _ Hr). lia. }
  rewrite Hold. clear Hold.
  revert tbl Hr. induction snapshots as [|s rest IH]; intros tbl; simpl; [intros []|].
  intros [<- | Hr]; simpl; [now rewrite Z.eqb_refl|].
  pose proof (created_ids _ _ _ _ _ Hr) as Hid.
  assert (Hlt : next_id tbl < next_id (tbl ++ [mkRow (next_id tbl) pid (snap_name s) (fields_of tbl s)])).
  { apply (next_id_fresh _ (mkRow (next_id tbl) pid (snap_name s) (fields_of tbl s))).
    apply in_or_app. right. now left. }
  destruct (Z.eqb_spec (next_id tbl) (row_id r)) as [Heq|_]; [lia|].
  now apply IH.
Qed.

Lemma related_created fields_of pid snapshots tbl :
  Permutation (related pid (insert_all fields_of pid snapshots tbl))
    (related pid tbl ++ created fields_of pid snapshots tbl).
Proof.
  rewrite insert_all_created, related_app. apply Permutation_app_head.
  rewrite related_Permutation.
  rewrite forallb_filter_id; [reflexivity|].
  apply forallb_forall. intros r Hr. apply Z.eqb_eq. now apply created_project in Hr.
Qed.

Lemma insert_all_names fields_of pid snapshots tbl :
  Permutation (map row_name (related pid (insert_all fields_of pid snapshots tbl)))
    (map row_name (related pid tbl) ++ map snap_name snapshots).
Proof. now rewrite related_created, map_app, created_names. Qed.

Lemma insert_all_keeps fields_of pid snapshots tbl r :
  In r tbl -> In r (insert_all fields_of pid snapshots tbl).
Proof.
  revert tbl. induction snapshots as [|s rest IH]; intros tbl Hr; simpl; [exact Hr|].
  apply IH, in_or_app. now left.
Qed.

Lemma insert_all_new fields_of pid snapshots tbl r :
  In r (insert_all fields_of pid snapshots tbl) ->
  In r tbl \/ (row_project r = pid /\ next_id tbl <= row_id r).
Proof.
  revert tbl. induction snapshots as [|s rest IH]; intros tbl; simpl; [now left|].
  intros Hr. destruct (IH _ Hr) as [Hin | [Hp Hid]].
  - apply in_app_or in Hin as [Hin | [<- | []]]; [now left|].
    right. simpl. split; [reflexivity | lia].
  - right. split; [exact Hp|]. pose proof (next_id_app tbl [mkRow (next_id tbl) pid (snap_name s) (fields_of tbl s)]). lia.
Qed.

Lemma insert_all_count fields_of pid snapshots tbl :
  length (related pid (insert_all fields_of pid snapshots tbl))
  = (length (related pid tbl) + length snapshots)%nat.
Proof.
  rewrite <- (List.length_map row_name), insert_all_names, List.length_app, !List.length_map.
  reflexivity.
Qed.

Lemma distinct_NoDup (names : list string) : distinct names = true <-> List.NoDup names.
Proof.
  induction names as [|n rest IH]; simpl.
  - split; [constructor | reflexivity].
  - rewrite andb_true_iff, negb_true_iff, IH. split.
    + intros [Hn Hrest]. constructor; [|exact Hrest].
      intros Hin. assert (existsb (String.eqb n) rest = true); [|congruence].
      apply existsb_exists. exists n. split; [exact Hin | apply String.eqb_refl].
    + intros H. inversion H as [|? ? Hn Hrest]; subst. split; [|exact Hrest].
      destruct (existsb (String.eqb n) rest) eqn:He; [|reflexivity].
      apply existsb_exists in He as (m & Hm & Heq). apply String.eqb_eq in Heq. now subst.
Qed.

Lemma name_taken_false pid name tbl :
  ~ In name (map row_name (related pid tbl)) -> name_taken pid name tbl = false.
Proof.
  intros Hn. unfold name_taken. destruct (existsb _ _) eqn:He; [|reflexivity].
  apply existsb_exists in He as (r & Hr & Heq). apply String.eqb_eq in Heq.
  exfalso. apply Hn. apply in_map_iff. eauto.
Qed.

Lemma filter_by_name_unique (l : list (Row F)) r :
  List.NoDup (map row_name l) -> In r l ->
  List.filter (fun x => String.eqb (row_name x) (row_name r)) l = [r].
Proof.
  induction l as [|x l IH]; simpl; [intros _ []|].
  intros Hnd Hr. inversion Hnd as [|? ? Hx Hl]; subst.
  destruct Hr as [<- | Hr].
  - rewrite String.eqb_refl. f_equal.
    clear IH Hnd Hl. induction l as [|y l IHl]; simpl; [reflexivity|].
    destruct (String.eqb_spec (row_name y) (row_name x)) as [Heq|Hne].
    + exfalso. apply Hx. simpl. now left.
    + apply IHl. intros Hin. apply Hx. simpl. now right.
  - destruct (String.eqb_spec (row_name x) (row_name r)) as [Heq|Hne].
    + exfalso. apply Hx. rewrite Heq. now apply in_map.
    + now apply IH.
Qed.

Lemma get_by_name_found model pid tbl r :
  List.NoDup (map row_name (related pid tbl)) -> In r (related pid tbl) ->
  get_by_name model (Some (row_name r)) pid tbl = inr r.
Proof.
  intros Hnd Hr. unfold get_by_name. now rewrite (filter_by_name_unique _ r Hnd Hr).
Qed.

End TableFacts.

Lemma heap_eta_db (h : Heap) : mkHeap (h_db h) (h_project h) = h.
Proof. destruct h. reflexivity. Qed.

Lemma objects_set_objects {F} (T : Manager F) tbl db : objects T (set_objects T tbl db) = tbl.
Proof. apply view_update. Qed.

Lemma set_objects_twice {F} (T : Manager F) tbl tbl' db :
  set_objects T tbl (set_objects T tbl' db) = set_objects T tbl db.
Proof. apply update_update. Qed.

Lemma set_objects_same {F} (T : Manager F) (h : Heap) :
  on_db (set_objects T (objects T (h_db h))) h = h.
Proof.
  unfold on_db, set_objects, objects. rewrite update_view. apply heap_eta_db.
Qed.

Lemma NoDup_app_head {A} (l : list A) x rest :
  List.NoDup (l ++ x :: rest) -> ~ In x l /\ List.NoDup ((l ++ [x]) ++ rest).
Proof.
  intros H. split.
  - apply NoDup_remove_2 in H. intros Hx. apply H, in_or_app. now left.
  - now rewrite <- app_assoc.
Qed.

Section CreateLoops.
Variable slugify : string -> list string -> string.
Hypothesis slugify_fresh : forall name slugs, ~ In (slugify name slugs) slugs.

Lemma create_all_ok {F} `{HasOrdering F} (T : Manager F) pid snapshots h :
  List.NoDup (map row_name (related pid (objects T (h_db h))) ++ map snap_name snapshots) ->
  for_ snapshots (fun s => create T (snap_name s) (snap_fields s) pid) h
  = Ok tt (on_db (set_objects T (insert_all as_given pid snapshots (objects T (h_db h)))) h).
Proof.
  revert h. induction snapshots as [|s rest IH]; intros h Hnd; simpl.
  - unfold ret. now rewrite set_objects_same.
  - apply NoDup_app_head in Hnd as [Hnew Hnd].
    unfold bind, create. rewrite (name_taken_false _ _ _ Hnew).
    rewrite IH; simpl.
    + rewrite objects_set_objects. unfold on_db. simpl. now rewrite set_objects_twice.
    + rewrite objects_set_objects, (related_snoc pid _ (mkRow _ pid _ _) eq_refl), map_app. exact Hnd.
Qed.

Lemma slug_taken_false {F} `{HasOrdering F} `{HasSlug F} pid name (tbl : list (Row F)) :
  slug_taken pid (slugify name (map (fun r => get_slug (row_fields r)) (related pid tbl))) tbl
  = false.
Proof.
  unfold slug_taken. destruct (existsb _ _) eqn:He; [|reflexivity].
  apply existsb_exists in He as (r & Hr & Heq). apply String.eqb_eq in Heq.
  exfalso. apply (slugify_fresh name (map (fun r => get_slug (row_fields r)) (related pid tbl))).
  rewrite <- Heq. apply in_map_iff. eauto.
Qed.

Lemma create_with_slug_all_ok {F} `{HasOrdering F} `{HasSlug F} (T : Manager F) pid snapshots h :
  List.NoDup (map row_name (related pid (objects T (h_db h))) ++ map snap_name snapshots) ->
  for_ snapshots (fun s => create_with_slug slugify T (snap_name s) (snap_fields s) pid) h
  = Ok tt (on_db (set_objects T
                    (insert_all (with_new_slug slugify pid) pid snapshots (objects T (h_db h)))) h).
Proof using slugify_fresh.
  revert h. induction snapshots as [|s rest IH]; intros h Hnd; simpl.
  - unfold ret. now rewrite set_objects_same.
  - apply NoDup_app_head in Hnd as [Hnew Hnd].
    unfold bind, create_with_slug.
    rewrite (name_taken_false _ _ _ Hnew), slug_taken_false. simpl.
    rewrite IH; simpl.
    + rewrite objects_set_objects. unfold on_db. simpl. now rewrite set_objects_twice.
    + rewrite objects_set_objects, (related_snoc pid _ (mkRow _ pid _ _) eq_refl), map_app. exact Hnd.
Qed.

Lemma create_role_all_ok pid snapshots h :
  for_ snapshots (fun s => create_role (snap_name s) (snap_fields s) pid) h
  = Ok tt (on_db (set_objects Role (insert_all as_given pid snapshots (objects Role (h_db h)))) h).
Proof.
  revert h. induction snapshots as [|s rest IH]; intros h; simpl.
  - unfold ret. now rewrite set_objects_same.
  - unfold bind, create_role. rewrite IH; simpl.
    rewrite objects_set_objects. unfold on_db. simpl. now rewrite set_objects_twice.
Qed.

End CreateLoops.

Lemma append_all {F} (field : Lens ProjectTemplate (option (list (Snapshot F))))
    (rows : list (Row F)) t entries :
  view field t = Some entries ->
  for_ rows (fun r => append field (snapshot r)) t
  = Ok tt (update field (Some (entries ++ map snapshot rows)) t).
Proof.
  revert t entries. induction rows as [|r rows IH]; intros t entries Hview; simpl.
  - unfold ret. rewrite app_nil_r, <- Hview, update_view. reflexivity.
  - unfold bind, append. rewrite Hview.
    rewrite (IH _ (entries ++ [snapshot r])) by apply view_update.
    rewrite update_update, <- app_assoc. reflexivity.
Qed.

Lemma fk_name_ok {F} `{HasOrdering F} model pid fk (tbl : list (Row F)) :
  default_exists pid fk tbl = true ->
  fk_name model fk tbl = inr (row_name <$> default_row fk tbl).
Proof.
  unfold default_exists, fk_name, default_row. destruct fk as [i|]; [|reflexivity].
  destruct (List.find _ tbl); [reflexivity | discriminate].
Qed.

Lemma bind_modify {S B} (f : S -> S) (k : unit -> M S B) s :
  bind (modify f) k s = k tt (f s).
Proof. reflexivity. Qed.

Lemma bind_lift_inr {S A B} (r : Exc + A) (k : A -> M S B) s a :
  r = inr a -> bind (lift r) k s = k a s.
Proof. intros ->. reflexivity. Qed.

Lemma loaded_set_owner_role db p pid t v :
  Loaded db p pid t -> Loaded db p pid (set_t_default_owner_role v t).
Proof. destruct t. intros []. constructor; assumption. Qed.

Ltac run_modify := rewrite bind_modify.

Lemma load_ok db p t pid :
  p_id p = Some pid ->
  defaults_exist pid p db = true ->
  owner_role_exists db p = true ->
  exists t', load_data_from_project db p t = Ok tt t' /\ Loaded db p pid t'.
Proof.
  intros Hid Hdefaults Howner.
  unfold defaults_exist in Hdefaults. rewrite !andb_true_iff in Hdefaults.
  destruct Hdefaults as ((((((Hpt & Hus) & Hts) & His) & Hit) & Hpr) & Hsv).
  unfold load_data_from_project, all. rewrite Hid.
  do 6 run_modify.
  rewrite (bind_lift_inr _ _ _ _ (fk_name_ok "Points" pid _ _ Hpt)).
  rewrite (bind_lift_inr _ _ _ _ (fk_name_ok "UserStoryStatus" pid _ _ Hus)).
  rewrite (bind_lift_inr _ _ _ _ (fk_name_ok "TaskStatus" pid _ _ Hts)).
  rewrite (bind_lift_inr _ _ _ _ (fk_name_ok "IssueStatus" pid _ _ His)).
  rewrite (bind_lift_inr _ _ _ _ (fk_name_ok "IssueType" pid _ _ Hit)).
  rewrite (bind_lift_inr _ _ _ _ (fk_name_ok "Priority" pid _ _ Hpr)).
  rewrite (bind_lift_inr _ _ _ _ (fk_name_ok "Severity" pid _ _ Hsv)).
  match goal with
  | |- context [set_t_default_options (Some ?o)] => remember o as options eqn:Hoptions
  end.
  assert (Hlookups :
    options !! "points" = Some (row_name <$> default_row (default_points (p_defaults p)) (db_points db))
    /\ options !! "us_status" = Some (row_name <$> default_row (default_us_status (p_defaults p)) (db_us_statuses db))
    /\ options !! "task_status" = Some (row_name <$> default_row (default_task_status (p_defaults p)) (db_task_statuses db))
    /\ options !! "issue_status" = Some (row_name <$> default_row (default_issue_status (p_defaults p)) (db_issue_statuses db))
    /\ options !! "issue_type" = Some (row_name <$> default_row (default_issue_type (p_defaults p)) (db_issue_types db))
    /\ options !! "priority" = Some (row_name <$> default_row (default_priority (p_defaults p)) (db_priorities db))
    /\ options !! "severity" = Some (row_name <$> default_row (default_severity (p_defaults p)) (db_severities db))).
  { subst options.
    repeat split;
      repeat first [ apply lookup_insert_eq | rewrite lookup_insert_ne by discriminate ]. }
  clear Hoptions.
  run_modify.
  run_modify. rewrite (bind_Ok _ _ _ _ _ (append_all t_us_statuses_field _ _ [] (view_update _ _ _))).
  run_modify. rewrite (bind_Ok _ _ _ _ _ (append_all t_points_field _ _ [] (view_update _ _ _))).
  run_modify. rewrite (bind_Ok _ _ _ _ _ (append_all t_task_statuses_field _ _ [] (view_update _ _ _))).
  run_modify. rewrite (bind_Ok _ _ _ _ _ (append_all t_issue_statuses_field _ _ [] (view_update _ _ _))).
  run_modify. rewrite (bind_Ok _ _ _ _ _ (append_all t_issue_types_field _ _ [] (view_update _ _ _))).
  run_modify. rewrite (bind_Ok _ _ _ _ _ (append_all t_priorities_field _ _ [] (view_update _ _ _))).
  run_modify. rewrite (bind_Ok _ _ _ _ _ (append_all t_severities_field _ _ [] (view_update _ _ _))).
  run_modify. rewrite (bind_Ok _ _ _ _ _ (append_all t_roles_field _ _ [] (view_update _ _ _))).
  match goal with
  | |- exists t', try_except _ _ _ ?t1 = _ /\ _ => remember t1 as loaded eqn:Hloaded
  end.
  assert (HL : Loaded db p pid loaded).
  { subst loaded. destruct t. constructor; try reflexivity.
    exists options. split; [reflexivity | exact Hlookups]. }
  clear Hloaded.
  unfold owner_role_exists in Howner. unfold try_except, bind.
  destruct (owner_of p) as [e|owner]; [discriminate|]. simpl.
  destruct (get_membership db p owner) as [e|m]; simpl.
  - apply andb_true_iff in Howner as [He Hroles]. rewrite He.
    unfold all in Hroles. rewrite Hid in Hroles.
    unfold gets, first_role_slug. rewrite (loaded_roles _ _ _ _ HL).
    destruct (related pid (db_roles db)) as [|role roles]; [discriminate|]. simpl.
    eexists. split; [reflexivity|]. now apply loaded_set_owner_role.
  - destruct (role_slug db m) as [e|slug]; [discriminate|]. simpl.
    eexists. split; [reflexivity|]. now apply loaded_set_owner_role.
Qed.

Lemma bind_gets {S A B} (f : S -> A) (k : A -> M S B) s : bind (gets f) k s = k (f s) s.
Proof. reflexivity. Qed.

Lemma bind_ret {S A B} (a : A) (k : A -> M S B) s : bind (ret a) k s = k a s.
Proof. reflexivity. Qed.

Lemma NoDup_map_injective {A B} (f : A -> B) (l : list A) x y :
  List.NoDup (map f l) -> In x l -> In y l -> f x = f y -> x = y.
Proof.
  induction l as [|a l IH]; simpl; [intros _ []|].
  intros Hnd Hx Hy Heq. inversion Hnd as [|? ? Ha Hl]; subst.
  destruct Hx as [<- | Hx], Hy as [<- | Hy]; auto.
  - exfalso. apply Ha. rewrite Heq. now apply in_map.
  - exfalso. apply Ha. rewrite <- Heq. now apply in_map.
Qed.

Lemma no_rows_true {F} `{HasOrdering F} pid (tbl : list (Row F)) : no_rows pid tbl = true -> related pid tbl = [].
Proof. unfold no_rows. destruct (related pid tbl); [reflexivity | discriminate]. Qed.

Lemma on_defaults_id (h : Heap) : on_project (on_defaults (apply_default (fun _ d => d) None)) h = h.
Proof. destruct h as [db p]. destruct p. reflexivity. Qed.

Lemma default_step {F} `{HasOrdering F} (T : Manager F) (self : ProjectTemplate) (key : string)
    (setter : option Z -> ProjectDefaults -> ProjectDefaults)
    (fields_of : list (Row F) -> Snapshot F -> F)
    (pid pid2 : Z) (fk : option Z) (tbl : list (Row F)) (field : option (list (Snapshot F)))
    (options : gmap string (option string)) (h : Heap) :
  field = Some (map snapshot (related pid tbl)) ->
  t_default_options self = Some options ->
  options !! key = Some (row_name <$> default_row fk tbl) ->
  objects T (h_db h) = insert_all fields_of pid2 (map snapshot (related pid tbl)) tbl ->
  related pid2 tbl = [] ->
  unique_names pid tbl = true ->
  default_exists pid fk tbl = true ->
  exists found,
    when (truthy_list field)
      (name <- default_option self key ;;
       row <- get T name pid2 ;;
       modify (on_project (on_defaults (setter (Some (row_id row)))))) h
    = Ok tt (on_project (on_defaults (apply_default setter found)) h)
    /\ found_default pid2 fk (related pid tbl) tbl (objects T (h_db h)) found.
Proof.
  intros -> Hoptions Hkey Htbl' Hempty Hunique Hdefault.
  apply distinct_NoDup in Hunique.
  destruct (related pid tbl) as [|r0 rows] eqn:Hrows.
  - exists None. split; [|reflexivity]. simpl. unfold ret.
    destruct h as [db p]. destruct p. reflexivity.
  - (* the source's default row *)
    unfold default_exists in Hdefault. unfold no_rows in Hdefault. rewrite Hrows in Hdefault.
    destruct fk as [i|]; [|discriminate].
    destruct (default_row (Some i) tbl) as [d|] eqn:Hd; [|discriminate].
    simpl in Hdefault. apply Z.eqb_eq in Hdefault.
    assert (Hd_in : In d (related pid tbl)).
    { apply related_In. split; [|exact Hdefault].
      unfold default_row in Hd. now apply find_some in Hd as [Hd _]. }
    (* the rows of the target project *)
    assert (Hnames : Permutation (map row_name (related pid2 (objects T (h_db h))))
                       (map row_name (related pid tbl))).
    { rewrite Htbl', insert_all_names, Hempty, Hrows, map_map. reflexivity. }
    assert (Hr : exists r, In r (related pid2 (objects T (h_db h))) /\ row_name r = row_name d).
    { assert (Hin : In (row_name d) (map row_name (related pid2 (objects T (h_db h))))).
      { apply (Permutation_in _ (Permutation_sym Hnames)). now apply in_map. }
      apply in_map_iff in Hin as (r & Hname & Hin). eauto. }
    destruct Hr as (r & Hr_in & Hr_name).
    assert (Hnd : List.NoDup (map row_name (related pid2 (objects T (h_db h))))).
    { apply (Permutation_NoDup (Permutation_sym Hnames)). rewrite Hrows. exact Hunique. }
    exists (Some (row_id r)). split.
    + simpl. unfold default_option. rewrite Hoptions, Hkey, bind_ret.
      unfold bind at 1. unfold get. simpl. rewrite <- Hr_name.
      rewrite (filter_by_name_unique _ r Hnd Hr_in). reflexivity.
    + simpl. exists d, r. apply related_In in Hr_in as [Hr_in Hr_p].
      assert (Hfresh : ~ In r tbl).
      { intros Hold. assert (Hin : In r (related pid2 tbl)) by (apply related_In; auto).
        rewrite Hempty in Hin. destruct Hin. }
      split; [exact Hd|]. split; [exact Hr_in|]. split; [exact Hfresh|].
      split; [exact Hr_p|]. split; [exact Hr_name|]. split; [reflexivity|]. split.
      { rewrite Htbl'. apply created_find.
        rewrite Htbl', insert_all_created in Hr_in.
        apply in_app_or in Hr_in as [Hr_in | Hr_in]; [contradiction | exact Hr_in]. }
      intros r' Hr' Hp' Hn'.
      apply (NoDup_map_injective row_name (related pid2 (objects T (h_db h)))); auto.
      * apply related_In. auto.
      * apply related_In. auto.
      * congruence.
Qed.

Lemma fresh_names {F} `{HasOrdering F} pid pid2 (tbl : list (Row F)) :
  no_rows pid2 tbl = true -> unique_names pid tbl = true ->
  List.NoDup (map row_name (related pid2 tbl) ++ map snap_name (map snapshot (related pid tbl))).
Proof.
  intros Hempty Hunique. rewrite (no_rows_true _ _ Hempty), map_map. simpl.
  now apply distinct_NoDup.
Qed.

Lemma round_trip_count {F} `{HasOrdering F} fields_of pid pid2 (tbl : list (Row F)) :
  no_rows pid2 tbl = true ->
  same_count pid pid2 tbl (insert_all fields_of pid2 (map snapshot (related pid tbl)) tbl).
Proof.
  intros Hempty. unfold same_count.
  rewrite insert_all_count, (no_rows_true _ _ Hempty), List.length_map. reflexivity.
Qed.

Lemma found_is_transferred {F} `{HasOrdering F} pid pid2 fk before (tbl tbl' : list (Row F)) found :
  found_default pid2 fk (related pid tbl) tbl tbl' found ->
  default_transferred pid pid2 fk before (pick found before) tbl tbl'.
Proof.
  unfold found_default, default_transferred. destruct (related pid tbl) as [|x xs].
  - now intros ->.
  - intros (d & r & Hd & Hin & Hnew & Hp & Hn & -> & Hfind & Huniq). exists d, r. simpl. auto 10.
Qed.

(** The defaults of the project after the seven [default_*] steps. *)
Lemma defaults_after_steps (p : Project) (o1 o2 o3 o4 o5 o6 o7 : option Z) :
  let d := p_defaults p in
  p_defaults
    (on_defaults (apply_default set_default_severity o7)
    (on_defaults (apply_default set_default_priority o6)
    (on_defaults (apply_default set_default_issue_type o5)
    (on_defaults (apply_default set_default_issue_status o4)
    (on_defaults (apply_default set_default_task_status o3)
    (on_defaults (apply_default set_default_us_status o2)
    (on_defaults (apply_default set_default_points o1) p)))))))
  = mkProjectDefaults
      (pick o1 (default_points d)) (pick o2 (default_us_status d))
      (pick o3 (default_task_status d)) (pick o6 (default_priority d))
      (pick o7 (default_severity d)) (pick o4 (default_issue_status d))
      (pick o5 (default_issue_type d)).
Proof.
  destruct p as [? ? ? ? ? ? ? ? ? ? ? ? ? d]. destruct d.
  destruct o1, o2, o3, o4, o5, o6, o7; reflexivity.
Qed.

Lemma defaults_kept_by_flags (p : Project) v1 v2 v3 v4 v5 v6 v7 :
  p_defaults
    (set_p_videoconferences_extra_data v7
    (set_p_videoconferences v6
    (set_p_is_issues_activated v5
    (set_p_is_wiki_activated v4
    (set_p_is_kanban_activated v3
    (set_p_is_backlog_activated v2
    (set_p_creation_template v1 p)))))))
  = p_defaults p.
Proof. destruct p. reflexivity. Qed.

Ltac normalize_heap :=
  cbn [on_db on_project h_db h_project objects set_objects view update table
       UserStoryStatus Points TaskStatus IssueStatus IssueType Priority Severity Role
       us_statuses_table points_table task_statuses_table issue_statuses_table
       issue_types_table priorities_table severities_table roles_table
       db_us_statuses db_points db_task_statuses db_issue_statuses db_issue_types
       db_priorities db_severities db_roles db_memberships
       set_db_us_statuses set_db_points set_db_task_statuses set_db_issue_statuses
       set_db_issue_types set_db_priorities set_db_severities set_db_roles].

Ltac run_loop lemma Hnd :=
  match goal with
  | |- context [bind (for_ _ _) _ ?hcur] => rewrite (bind_Ok _ _ _ _ _ (lemma hcur Hnd))
  end;
  normalize_heap.

Ltac run_roles pid2 :=
  match goal with
  | |- context [bind (for_ ?ss _) _ ?hcur] =>
      rewrite (bind_Ok _ _ _ _ _ (create_role_all_ok pid2 ss hcur))
  end;
  normalize_heap.

(** C1: for a saved project [p] whose [default_*] keys refer to rows of [p]
    wherever [p] has rows, whose rows have distinct names per taxonomy and
    whose owner has a membership with a role (or which has a role), and a
    saved project [p2] without taxonomy rows: loading a template from [p]
    and applying it to [p2] both succeed; afterwards [p2] has, per
    taxonomy, as many rows as [p]; and each [default_*] key of [p2] is the
    id of the freshly created row of [p2] with the name of the row the key
    of [p] refers to, and resolves to that row in the table, or is left as
    it was when [p] has no row in that taxonomy. *)
Theorem template_round_trip (slugify_uniquely_for_queryset : string -> list string -> string)
    (db : Database) (t : ProjectTemplate) (p p2 : Project) (pid pid2 : Z) :
  (forall name slugs, ~ In (slugify_uniquely_for_queryset name slugs) slugs) ->
  p_id p = Some pid ->
  p_id p2 = Some pid2 ->
  empty_project pid2 db = true ->
  unique_together_ok pid db = true ->
  defaults_exist pid p db = true ->
  owner_role_exists db p = true ->
  exists t' h',
    load_data_from_project db p t = Ok tt t'
    /\ apply_to_project slugify_uniquely_for_queryset t' (mkHeap db p2) = Ok (h_project h') h'
    /\ (same_count pid pid2 (db_us_statuses db) (db_us_statuses (h_db h'))
        /\ same_count pid pid2 (db_points db) (db_points (h_db h'))
        /\ same_count pid pid2 (db_task_statuses db) (db_task_statuses (h_db h'))
        /\ same_count pid pid2 (db_issue_statuses db) (db_issue_statuses (h_db h'))
        /\ same_count pid pid2 (db_issue_types db) (db_issue_types (h_db h'))
        /\ same_count pid pid2 (db_priorities db) (db_priorities (h_db h'))
        /\ same_count pid pid2 (db_severities db) (db_severities (h_db h'))
        /\ same_count pid pid2 (db_roles db) (db_roles (h_db h')))
    /\ (default_transferred pid pid2
          (default_points (p_defaults p)) (default_points (p_defaults p2))
          (default_points (p_defaults (h_project h'))) (db_points db) (db_points (h_db h'))
        /\ default_transferred pid pid2
             (default_us_status (p_defaults p)) (default_us_status (p_defaults p2))
             (default_us_status (p_defaults (h_project h')))
             (db_us_statuses db) (db_us_statuses (h_db h'))
        /\ default_transferred pid pid2
             (default_task_status (p_defaults p)) (default_task_status (p_defaults p2))
             (default_task_status (p_defaults (h_project h')))
             (db_task_statuses db) (db_task_statuses (h_db h'))
        /\ default_transferred pid pid2
             (default_issue_status (p_defaults p)) (default_issue_status (p_defaults p2))
             (default_issue_status (p_defaults (h_project h')))
             (db_issue_statuses db) (db_issue_statuses (h_db h'))
        /\ default_transferred pid pid2
             (default_issue_type (p_defaults p)) (default_issue_type (p_defaults p2))
             (default_issue_type (p_defaults (h_project h')))
             (db_issue_types db) (db_issue_types (h_db h'))
        /\ default_transferred pid pid2
             (default_priority (p_defaults p)) (default_priority (p_defaults p2))
             (default_priority (p_defaults (h_project h')))
             (db_priorities db) (db_priorities (h_db h'))
        /\ default_transferred pid pid2
             (default_severity (p_defaults p)) (default_severity (p_defaults p2))
             (default_severity (p_defaults (h_project h')))
             (db_severities db) (db_severities (h_db h'))).
Proof.
  intros Hfresh Hid Hid2 Hempty Hunique Hdefaults Howner.
  destruct (load_ok db p t pid Hid Hdefaults Howner) as (t' & Hload & HL).
  exists t'. destruct HL as [Lus Lpt Lts Lis Lit Lpr Lsv Lro (options & Lopt & Kpt & Kus & Kts & Kis & Kit & Kpr & Ksv)].
  unfold empty_project in Hempty. rewrite !andb_true_iff in Hempty.
  destruct Hempty as (((((((Eus & Ept) & Ets) & Eis) & Eit) & Epr) & Esv) & Ero).
  unfold unique_together_ok in Hunique. rewrite !andb_true_iff in Hunique.
  destruct Hunique as ((((((Uus & Upt) & Uts) & Uis) & Uit) & Upr) & Usv).
  unfold defaults_exist in Hdefaults. rewrite !andb_true_iff in Hdefaults.
  destruct Hdefaults as ((((((Dpt & Dus) & Dts) & Dis) & Dit) & Dpr) & Dsv).
  clear Howner.
  destruct db as [us pts ts iss ity pr sv ro ms].
  cbn [db_us_statuses db_points db_task_statuses db_issue_statuses db_issue_types
       db_priorities db_severities db_roles] in *.
  enough (Happly :
    exists h',
      apply_to_project slugify_uniquely_for_queryset t'
        (mkHeap (mkDatabase us pts ts iss ity pr sv ro ms) p2) = Ok (h_project h') h'
      /\ db_us_statuses (h_db h')
         = insert_all (with_new_slug slugify_uniquely_for_queryset pid2) pid2 (map snapshot (related pid us)) us
      /\ db_points (h_db h') = insert_all as_given pid2 (map snapshot (related pid pts)) pts
      /\ db_task_statuses (h_db h')
         = insert_all (with_new_slug slugify_uniquely_for_queryset pid2) pid2 (map snapshot (related pid ts)) ts
      /\ db_issue_statuses (h_db h')
         = insert_all (with_new_slug slugify_uniquely_for_queryset pid2) pid2 (map snapshot (related pid iss)) iss
      /\ db_issue_types (h_db h') = insert_all as_given pid2 (map snapshot (related pid ity)) ity
      /\ db_priorities (h_db h') = insert_all as_given pid2 (map snapshot (related pid pr)) pr
      /\ db_severities (h_db h') = insert_all as_given pid2 (map snapshot (related pid sv)) sv
      /\ db_roles (h_db h') = insert_all as_given pid2 (map snapshot (related pid ro)) ro
      /\ exists o1 o2 o3 o4 o5 o6 o7,
           found_default pid2 (default_points (p_defaults p)) (related pid pts) pts (db_points (h_db h')) o1
           /\ found_default pid2 (default_us_status (p_defaults p)) (related pid us) us (db_us_statuses (h_db h')) o2
           /\ found_default pid2 (default_task_status (p_defaults p)) (related pid ts) ts (db_task_statuses (h_db h')) o3
           /\ found_default pid2 (default_issue_status (p_defaults p)) (related pid iss) iss (db_issue_statuses (h_db h')) o4
           /\ found_default pid2 (default_issue_type (p_defaults p)) (related pid ity) ity (db_issue_types (h_db h')) o5
           /\ found_default pid2 (default_priority (p_defaults p)) (related pid pr) pr (db_priorities (h_db h')) o6
           /\ found_default pid2 (default_severity (p_defaults p)) (related pid sv) sv (db_severities (h_db h')) o7
           /\ p_defaults (h_project h')
              = mkProjectDefaults
                  (pick o1 (default_points (p_defaults p2))) (pick o2 (default_us_status (p_defaults p2)))
                  (pick o3 (default_task_status (p_defaults p2))) (pick o6 (default_priority (p_defaults p2)))
                  (pick o7 (default_severity (p_defaults p2))) (pick o4 (default_issue_status (p_defaults p2)))
                  (pick o5 (default_issue_type (p_defaults p2)))).
  { destruct Happly as (h' & Hrun & Hus & Hpt & Hts & His & Hit & Hpr & Hsv & Hro
                        & o1 & o2 & o3 & o4 & o5 & o6 & o7
                        & F1 & F2 & F3 & F4 & F5 & F6 & F7 & Hd).
    exists h'. split; [exact Hload|]. split; [exact Hrun|]. split.
    - rewrite Hus, Hpt, Hts, His, Hit, Hpr, Hsv, Hro.
      repeat split; now apply round_trip_count.
    - rewrite Hd. cbn [default_points default_us_status default_task_status default_priority
                       default_severity default_issue_status default_issue_type].
      repeat split; now apply found_is_transferred. }
  unfold apply_to_project. rewrite bind_gets. cbn [h_project]. rewrite Hid2.
  do 7 rewrite bind_modify. normalize_heap.
  rewrite Lus, Lpt, Lts, Lis, Lit, Lpr, Lsv, Lro. cbn [iter_json].
  rewrite bind_ret.
  run_loop (create_with_slug_all_ok slugify_uniquely_for_queryset Hfresh UserStoryStatus pid2
              (map snapshot (related pid us))) (fresh_names pid pid2 us Eus Uus).
  rewrite bind_ret.
  run_loop (create_all_ok Points pid2 (map snapshot (related pid pts))) (fresh_names pid pid2 pts Ept Upt).
  rewrite bind_ret.
  run_loop (create_with_slug_all_ok slugify_uniquely_for_queryset Hfresh TaskStatus pid2
              (map snapshot (related pid ts))) (fresh_names pid pid2 ts Ets Uts).
  rewrite bind_ret.
  run_loop (create_with_slug_all_ok slugify_uniquely_for_queryset Hfresh IssueStatus pid2
              (map snapshot (related pid iss))) (fresh_names pid pid2 iss Eis Uis).
  rewrite bind_ret.
  run_loop (create_all_ok IssueType pid2 (map snapshot (related pid ity))) (fresh_names pid pid2 ity Eit Uit).
  rewrite bind_ret.
  run_loop (create_all_ok Priority pid2 (map snapshot (related pid pr))) (fresh_names pid pid2 pr Epr Upr).
  rewrite bind_ret.
  run_loop (create_all_ok Severity pid2 (map snapshot (related pid sv))) (fresh_names pid pid2 sv Esv Usv).
  rewrite bind_ret.
  run_roles pid2.
  match goal with
  | |- context [bind (when _ _) _ ?hcur] =>
      destruct (default_step Points t' "points" set_default_points as_given pid pid2
                  (default_points (p_defaults p)) pts (Some (map snapshot (related pid pts)))
                  options hcur eq_refl Lopt Kpt eq_refl (no_rows_true _ _ Ept) Upt Dpt)
        as (o1 & Hs & F1);
      rewrite (bind_Ok _ _ _ _ _ Hs); clear Hs
  end.
  match goal with
  | |- context [bind (when _ _) _ ?hcur] =>
      destruct (default_step UserStoryStatus t' "us_status" set_default_us_status
                  (with_new_slug slugify_uniquely_for_queryset pid2) pid pid2
                  (default_us_status (p_defaults p)) us (Some (map snapshot (related pid us)))
                  options hcur eq_refl Lopt Kus eq_refl (no_rows_true _ _ Eus) Uus Dus)
        as (o2 & Hs & F2);
      rewrite (bind_Ok _ _ _ _ _ Hs); clear Hs
  end.
  match goal with
  | |- context [bind (when _ _) _ ?hcur] =>
      destruct (default_step TaskStatus t' "task_status" set_default_task_status
                  (with_new_slug slugify_uniquely_for_queryset pid2) pid pid2
                  (default_task_status (p_defaults p)) ts (Some (map snapshot (related pid ts)))
                  options hcur eq_refl Lopt Kts eq_refl (no_rows_true _ _ Ets) Uts Dts)
        as (o3 & Hs & F3);
      rewrite (bind_Ok _ _ _ _ _ Hs); clear Hs
  end.
  match goal with
  | |- context [bind (when _ _) _ ?hcur] =>
      destruct (default_step IssueStatus t' "issue_status" set_default_issue_status
                  (with_new_slug slugify_uniquely_for_queryset pid2) pid pid2
                  (default_issue_status (p_defaults p)) iss (Some (map snapshot (related pid iss)))
                  options hcur eq_refl Lopt Kis eq_refl (no_rows_true _ _ Eis) Uis Dis)
        as (o4 & Hs & F4);
      rewrite (bind_Ok _ _ _ _ _ Hs); clear Hs
  end.
  match goal with
  | |- context [bind (when _ _) _ ?hcur] =>
      destruct (default_step IssueType t' "issue_type" set_default_issue_type as_given pid pid2
                  (default_issue_type (p_defaults p)) ity (Some (map snapshot (related pid ity)))
                  options hcur eq_refl Lopt Kit eq_refl (no_rows_true _ _ Eit) Uit Dit)
        as (o5 & Hs & F5);
      rewrite (bind_Ok _ _ _ _ _ Hs); clear Hs
  end.
  match goal with
  | |- context [bind (when _ _) _ ?hcur] =>
      destruct (default_step Priority t' "priority" set_default_priority as_given pid pid2
                  (default_priority (p_defaults p)) pr (Some (map snapshot (related pid pr)))
                  options hcur eq_refl Lopt Kpr eq_refl (no_rows_true _ _ Epr) Upr Dpr)
        as (o6 & Hs & F6);
      rewrite (bind_Ok _ _ _ _ _ Hs); clear Hs
  end.
  match goal with
  | |- context [bind (when _ _) _ ?hcur] =>
      destruct (default_step Severity t' "severity" set_default_severity as_given pid pid2
                  (default_severity (p_defaults p)) sv (Some (map snapshot (related pid sv)))
                  options hcur eq_refl Lopt Ksv eq_refl (no_rows_true _ _ Esv) Usv Dsv)
        as (o7 & Hs & F7);
      rewrite (bind_Ok _ _ _ _ _ Hs); clear Hs
  end.
  eexists. split; [reflexivity|].
  do 8 (split; [reflexivity|]).
  exists o1, o2, o3, o4, o5, o6, o7.
  split; [exact F1|]. split; [exact F2|]. split; [exact F3|]. split; [exact F4|].
  split; [exact F5|]. split; [exact F6|]. split; [exact F7|].
  cbn [h_project on_project on_db].
  rewrite defaults_after_steps. cbv zeta. rewrite defaults_kept_by_flags. reflexivity.
Qed.

(** ** The code at concrete inputs *)

Example related_people_of_P :
  get_related_people Demo.accounts Demo.P = [Demo.alice; Demo.bob].
Proof. vm_compute. reflexivity. Qed.

Example nobody_watches_P2 : get_watchers Demo.accounts Demo.P2 = [].
Proof. vm_compute. reflexivity. Qed.

Example votes_of_tasks :
  map get_votes_counter
    (fetch Demo.social (attach_votes_attrs_to_queryset (Authenticated Demo.bob) Demo.tasks))
  = [VInt 1; VInt 0].
Proof. vm_compute. reflexivity. Qed.

Example bob_voted_for_task_1 :
  map get_is_voted
    (fetch Demo.social (attach_votes_attrs_to_queryset (Authenticated Demo.bob) Demo.tasks))
  = [VBool true; VBool false].
Proof. vm_compute. reflexivity. Qed.

Example anonymous_voted_for_nothing :
  map get_is_voted
    (fetch Demo.social (attach_votes_attrs_to_queryset AnonymousUser Demo.tasks))
  = [VBool false; VBool false].
Proof. vm_compute. reflexivity. Qed.

Example duplicate_membership_is_refused :
  clean Demo.clean_demo_db (mkMembership None (Some 10) 1 1 false None None)
  = inl (ValidationError "The user is already member of the project").
Proof. reflexivity. Qed.

Example stored_membership_is_valid :
  clean Demo.clean_demo_db (mkMembership (Some 1) (Some 10) 1 1 true None None) = inr tt.
Proof. reflexivity. Qed.

Example unsaved_project_is_refused :
  apply_to_project Demo.slugify Demo.T0 (mkHeap Demo.db0 Demo.unsaved)
  = Raise (Exception "Project need an id (must be a saved project)")
      (mkHeap Demo.db0 Demo.unsaved).
Proof. reflexivity. Qed.

Example unloaded_template_is_not_iterable :
  apply_to_project Demo.slugify Demo.T0 (mkHeap Demo.db0 Demo.P2)
  = Raise TypeError (mkHeap Demo.db0 (set_p_creation_template (Some 5) Demo.P2)).
Proof. reflexivity. Qed.

Example saved_project_gets_a_slug :
  match save Demo.slugify 1 1 100 Demo.save_heap with
  | Ok _ h =>
      p_id (sh_self h) = Some 3
      /\ p_slug (sh_self h) = "alice-Boardpp2-"
      /\ p_videoconferences_extra_data (sh_self h) = None
      /\ p_modified_date (sh_self h) = Some 100
  | Raise _ _ => False
  end.
Proof. vm_compute. repeat split. Qed.

Example mentioned_user_is_notified :
  match WatchedResourceMixin.send_notifications Demo.mentions Demo.resource Demo.task1 None
          Demo.world with
  | Ok _ w => map fst (w_outbox w) = [10; 11] /\ map watched_user_id (w_watched w) = [11]
  | Raise _ _ => False
  end.
Proof. vm_compute. repeat split. Qed.

Example suppressed_resource_sends_nothing :
  WatchedResourceMixin.send_notifications Demo.mentions
    (mkResource true (Some Demo.change) (fun obj => obj)) Demo.task1 None Demo.world
  = Ok tt Demo.world.
Proof. reflexivity. Qed.

Example rows_are_listed_by_order_then_name :
  map row_name (related 1 (db_points Demo2.shuffled)) = ["small"; "big"]
  /\ map row_name (related 1 (db_priorities Demo2.shuffled)) = ["High"; "normal"]
  /\ map row_name (related 1 (db_roles Demo2.shuffled)) = ["Front"; "Back"].
Proof. repeat split. Qed.

Example template_lists_rows_by_order :
  option_map (map snap_name) (t_points Demo2.loaded_shuffled) = Some ["small"; "big"]
  /\ t_default_owner_role Demo2.loaded_shuffled = Some "front".
Proof. vm_compute. repeat split. Qed.

Example rows_are_created_in_that_order :
  match apply_to_project Demo.slugify Demo2.loaded_shuffled (mkHeap Demo2.shuffled Demo.P2) with
  | Ok _ h =>
      map (fun r => (row_id r, row_project r, row_name r)) (db_points (h_db h))
      = [(1, 1, "big"); (2, 1, "small"); (3, 2, "small"); (4, 2, "big")]
      /\ default_points (p_defaults (h_project h)) = Some 3
  | Raise _ _ => False
  end.
Proof. vm_compute. repeat split. Qed.

Example shared_default_is_refused :
  save Demo.slugify 1 1 100 Demo2.clashing
  = Raise (IntegrityError "Project")
      (mkSaveHeap [Demo.P; Demo.P2] [Demo.alice; Demo.bob]
         (set_p_modified_date (Some 100)
            (set_p_slug "alice-Boardpp2-"
               (set_p_videoconferences_extra_data None (sh_self Demo2.clashing))))).
Proof. vm_compute. reflexivity. Qed.

Example null_points_are_taken_in_order :
  let points :=
    [ mkRow 1 1 "?" {| pt_order := 5; pt_value := None |};
      mkRow 3 1 "unknown" {| pt_order := 1; pt_value := None |} ] in
  let s := mkEstimation (set_db_points points (est_db Demo2.estimation)) [mkUserStory 1 1] [] in
  match update_role_points Demo.slugify Demo.P None s with
  | Ok _ s' => map rp_points (est_role_points s') = [3; 3]
  | Raise _ _ => False
  end.
Proof. vm_compute. reflexivity. Qed.


(** ** The properties at concrete inputs *)

Lemma string_length_append (a b : string) :
  String.length (String.append a b) = (String.length a + String.length b)%nat.
Proof. induction a as [|c a IH]; simpl; [reflexivity | now rewrite IH]. Qed.

Lemma concat_covers (slugs : list string) s :
  In s slugs -> (String.length s <= String.length (String.concat "" slugs))%nat.
Proof.
  induction slugs as [|x slugs IH]; [intros []|].
  intros Hs. destruct slugs as [|y slugs].
  - destruct Hs as [<- | []]. simpl. lia.
  - change (String.concat "" (x :: y :: slugs))
      with (String.append x (String.append "" (String.concat "" (y :: slugs)))).
    rewrite !string_length_append.
    change (String.length "") with 0%nat.
    destruct Hs as [<- | Hs]; [lia|]. specialize (IH Hs). lia.
Qed.

Lemma demo_slugify_fresh name slugs : ~ In (Demo.slugify name slugs) slugs.
Proof.
  intros Hin. apply concat_covers in Hin. unfold Demo.slugify in Hin.
  rewrite !string_length_append in Hin. simpl in Hin. lia.
Qed.


Lemma template_round_trip_witness :
  exists t' h',
    load_data_from_project Demo.db0 Demo.P Demo.T0 = Ok tt t'
    /\ apply_to_project Demo.slugify t' (mkHeap Demo.db0 Demo.P2) = Ok (h_project h') h'
    /\ same_count 1 2 (db_points Demo.db0) (db_points (h_db h'))
    /\ default_transferred 1 2 (Some 2) None (default_points (p_defaults (h_project h')))
         (db_points Demo.db0) (db_points (h_db h'))
    /\ exists r,
         default_row (default_points (p_defaults (h_project h'))) (db_points (h_db h')) = Some r
         /\ row_project r = 2 /\ row_name r = "1".
Proof.
  destruct (template_round_trip Demo.slugify Demo.db0 Demo.T0 Demo.P Demo.P2 1 2
              demo_slugify_fresh eq_refl eq_refl eq_refl eq_refl eq_refl eq_refl)
    as (t' & h' & Hload & Happly & (_ & Hcount & _) & (Hdefault & _)).
  exists t', h'. split; [exact Hload|]. split; [exact Happly|]. split; [exact Hcount|].
  split; [exact Hdefault|].
  destruct Hdefault as (d & r & Hd & _ & _ & Hp & Hn & _ & Hfind & _).
  injection Hd as <-. exists r. split; [exact Hfind|]. split; [exact Hp | exact Hn].
Defined.

Lemma attach_votes_annotations_witness :
  Forall (fun obj =>
            exists b, obj_attrs obj !! "is_voted" = Some (VBool b)
                      /\ (b = true <->
                          exists v, In v (votes_vote Demo.social)
                                    /\ vote_content_type_id v = 7
                                    /\ vote_object_id v = obj_id obj
                                    /\ vote_user_id v = 11))
    (fetch Demo.social (attach_is_vote_to_queryset Demo.bob Demo.tasks "is_voted")).
Proof.
  apply (attach_votes_annotations Demo.social Demo.tasks Demo.bob "is_voted").
Defined.

Lemma anonymous_gets_no_user_scoped_annotation_witness :
  is_authenticated AnonymousUser = false
  /\ attach_votes_attrs_to_queryset AnonymousUser Demo.tasks
     = attach_votes_count_to_queryset Demo.tasks "votes_count"
  /\ Forall (fun obj => get_is_voted obj = VBool false)
       (fetch Demo.social (attach_votes_attrs_to_queryset AnonymousUser Demo.tasks)).
Proof.
  destruct (anonymous_gets_no_user_scoped_annotation Demo.social AnonymousUser Demo.tasks eq_refl)
    as (Hvoted & _ & _ & _ & _ & Hfalse & _).
  split; [reflexivity|]. split; [exact Hvoted|]. apply Hfalse. reflexivity.
Defined.

Lemma mention_analysis_precedes_fan_out_witness :
  exists w',
    WatchedResourceMixin.send_notifications Demo.mentions Demo.resource Demo.task1 None Demo.world
    = Ok tt w'
    /\ w_calls w'
       = [ call_analize_object_for_watchers Demo.task1 "thanks @bob" 10;
           call_add_watcher Demo.task1 11;
           call_send_notifications Demo.task1 Demo.change ]
    /\ In (11, Demo.change) (w_outbox w').
Proof.
  destruct (mention_analysis_precedes_fan_out Demo.mentions Demo.resource Demo.task1 None
              Demo.change Demo.world (or_intror (conj eq_refl eq_refl)) eq_refl)
    as (w' & Hrun & Hcalls & Hsent).
  exists w'. split; [exact Hrun|]. split; [exact Hcalls|].
  apply (Hsent Demo.bob); [simpl; auto | simpl; auto | reflexivity | reflexivity | reflexivity].
Defined.

Lemma get_related_people_is_owner_and_watchers_witness :
  In Demo.bob (get_watchers Demo.accounts Demo.P)
  /\ In Demo.bob (get_related_people Demo.accounts Demo.P)
  /\ In Demo.alice (get_related_people Demo.accounts Demo.P).
Proof.
  destruct (get_related_people_is_owner_and_watchers Demo.accounts Demo.P)
    as (_ & Hrelated & Hwatchers).
  assert (Hbob : In Demo.bob (get_watchers Demo.accounts Demo.P)).
  { apply (Hwatchers 1 Demo.bob eq_refl). split; [simpl; auto|].
    exists (mkNotifyPolicy 11 1 watch). simpl.
    split; [auto|]. split; [reflexivity|]. split; [reflexivity | discriminate]. }
  split; [exact Hbob|]. split.
  - apply Hrelated. auto.
  - apply Hrelated. split; [|auto]. left. split; [simpl; auto|].
    exists 10. split; [reflexivity|]. split; [discriminate | reflexivity].
Defined.

Lemma restore_object_keeps_watchers_witness :
  match WatchedResourceModelSerializer.restore_object (fun _ _ _ => inr tt) (fun _ _ => Demo.task1)
          {["watchers" := VList []]} (Some Demo.task1) Demo.serializer with
  | Ok _ h' | Raise _ h' => sz_world h' = Demo.world
  end.
Proof.
  pose proof (restore_object_keeps_watchers (fun _ _ _ => inr tt) (fun _ _ => Demo.task1)
                {["watchers" := VList []]} (Some Demo.task1) Demo.serializer
                (or_intror (or_introl (lookup_singleton_eq "watchers" (VList []))))) as H.
  destruct (WatchedResourceModelSerializer.restore_object _ _ _ _ _); apply H.
Defined.

Lemma demo_save_runs :
  { h' | save Demo.slugify 1 1 100 Demo.save_heap = Ok tt h' }.
Proof. eexists. vm_compute. reflexivity. Defined.

(** ** What [apply_to_project] writes and what it leaves alone *)

Lemma extended_refl {F} pid (tbl : list (Row F)) : extended pid tbl tbl.
Proof. exists []. split; [now rewrite app_nil_r | constructor]. Qed.

Lemma extended_snoc {F} pid (old tbl : list (Row F)) row :
  extended pid old tbl -> row_project row = pid -> extended pid old (tbl ++ [row]).
Proof.
  intros (added & -> & Hall) Hrow. exists (added ++ [row]).
  split; [now rewrite app_assoc|].
  apply List.Forall_app. split; [exact Hall|]. constructor; [exact Hrow | constructor].
Qed.

Lemma only_appended_refl pid db : only_appended pid db db.
Proof. unfold only_appended. repeat split; apply extended_refl. Qed.

Ltac solve_appendable :=
  intros pid db0 db row H Hrow; destruct db; unfold only_appended in *; cbn in *;
  destruct H as (? & ? & ? & ? & ? & ? & ? & ? & ?);
  repeat (split; [first [assumption | apply extended_snoc; assumption]|]);
  first [assumption | apply extended_snoc; assumption].

Lemma appendable_UserStoryStatus : appendable UserStoryStatus.
Proof. solve_appendable. Qed.

Lemma appendable_Points : appendable Points.
Proof. solve_appendable. Qed.

Lemma appendable_TaskStatus : appendable TaskStatus.
Proof. solve_appendable. Qed.

Lemma appendable_IssueStatus : appendable IssueStatus.
Proof. solve_appendable. Qed.

Lemma appendable_IssueType : appendable IssueType.
Proof. solve_appendable. Qed.

Lemma appendable_Priority : appendable Priority.
Proof. solve_appendable. Qed.

Lemma appendable_Severity : appendable Severity.
Proof. solve_appendable. Qed.

Lemma appendable_Role : appendable Role.
Proof. solve_appendable. Qed.

Section Frame.
Variable slugify_uniquely_for_queryset : string -> list string -> string.
Variables (pid : Z) (db0 : Database).

Lemma frame_create {F} `{HasOrdering F} (T : Manager F) name fields :
  appendable T ->
  maintains (fun h => only_appended pid db0 (h_db h)) (fun _ => True) (create T name fields pid).
Proof.
  intros HT h Hh. unfold create.
  destruct (name_taken _ _ _); simpl; [split; [exact Hh | exact Logic.I]|].
  now apply HT.
Qed.

Lemma frame_create_with_slug {F} `{HasOrdering F} `{HasSlug F} (T : Manager F) name fields :
  appendable T ->
  maintains (fun h => only_appended pid db0 (h_db h)) (fun _ => True)
    (create_with_slug slugify_uniquely_for_queryset T name fields pid).
Proof.
  intros HT h Hh. unfold create_with_slug.
  destruct (_ || _); simpl; [split; [exact Hh | exact Logic.I]|].
  now apply HT.
Qed.

Lemma frame_create_role name fields :
  maintains (fun h => only_appended pid db0 (h_db h)) (fun _ => True)
    (create_role name fields pid).
Proof. intros h Hh. unfold create_role. simpl. now apply appendable_Role. Qed.

Lemma frame_get {F} `{HasOrdering F} (T : Manager F) name pid' :
  maintains (fun h => only_appended pid db0 (h_db h)) (fun _ => True) (get T name pid').
Proof.
  intros h Hh. unfold get. destruct (get_by_name _ _ _ _); simpl; auto.
Qed.

Lemma frame_default_option template key :
  maintains (fun h : Heap => only_appended pid db0 (h_db h)) (fun _ => True)
    (default_option template key).
Proof.
  unfold default_option. destruct (t_default_options template) as [options|].
  - destruct (options !! key); [apply maintains_ret | apply maintains_raise; exact Logic.I].
  - apply maintains_raise. exact Logic.I.
Qed.

Lemma frame_on_project (f : Project -> Project) :
  maintains (fun h => only_appended pid db0 (h_db h)) (fun _ => True) (modify (on_project f)).
Proof. apply maintains_modify. intros h Hh. exact Hh. Qed.

End Frame.

Ltac frame_step :=
  first
    [ apply maintains_bind; [|intros ?]
    | apply maintains_for; intros ?
    | apply maintains_when
    | apply maintains_iter_json; exact Logic.I
    | apply frame_create; first [ exact appendable_Points | exact appendable_IssueType
                                | exact appendable_Priority | exact appendable_Severity ]
    | apply frame_create_with_slug;
        first [ exact appendable_UserStoryStatus | exact appendable_TaskStatus
              | exact appendable_IssueStatus ]
    | apply frame_create_role
    | apply frame_get
    | apply frame_default_option
    | apply frame_on_project
    | apply maintains_gets ].

(** X1: whether it returns or raises, [apply_to_project] on a saved project
    only appends rows of that project to the taxonomy tables and to the
    roles: every row stored before is still there, unchanged and at its
    place, no row of another project is added, and the memberships are the
    same. *)
Theorem apply_to_project_only_appends
    (slugify_uniquely_for_queryset : string -> list string -> string)
    (self : ProjectTemplate) (h : Heap) (pid : Z) :
  p_id (h_project h) = Some pid ->
  match apply_to_project slugify_uniquely_for_queryset self h with
  | Ok _ h' | Raise _ h' => only_appended pid (h_db h) (h_db h')
  end.
Proof.
  intros Hid. unfold apply_to_project. rewrite bind_gets, Hid.
  lazymatch goal with
  | |- match ?c ?s with Ok _ _ => _ | Raise _ _ => _ end =>
      assert (Hm : maintains (fun h' => only_appended pid (h_db h) (h_db h')) (fun _ => True) c)
  end.
  { repeat frame_step. }
  specialize (Hm h (only_appended_refl pid (h_db h))).
  destruct (bind _ _ h); [exact Hm | exact (proj1 Hm)].
Qed.

Lemma apply_to_project_only_appends_witness :
  match apply_to_project Demo.slugify Demo.T0 (mkHeap Demo.db0 Demo.P2) with
  | Ok _ h' | Raise _ h' => only_appended 2 Demo.db0 (h_db h')
  end.
Proof.
  apply (apply_to_project_only_appends Demo.slugify Demo.T0 (mkHeap Demo.db0 Demo.P2) 2).
  reflexivity.
Defined.

(** ** The settings that [apply_to_project] copies *)

Lemma restamped_on_db self p0 f h : restamped self p0 h -> restamped self p0 (on_db f h).
Proof. exact (fun H => H). Qed.

Lemma restamped_on_defaults self p0 f h :
  restamped self p0 h -> restamped self p0 (on_project (on_defaults f) h).
Proof.
  intros [d Hd]. exists (f d). unfold on_project, on_defaults. simpl. rewrite Hd.
  destruct (stamp self p0). reflexivity.
Qed.

Lemma restamped_init self p0 db : restamped self p0 (mkHeap db (stamp self p0)).
Proof. exists (p_defaults (stamp self p0)). simpl. destruct (stamp self p0). reflexivity. Qed.

Lemma restamped_stamped_from self p0 h :
  restamped self p0 h -> stamped_from self p0 (h_project h).
Proof.
  intros [d ->]. unfold stamped_from, stamp. destruct p0. simpl. repeat split.
Qed.

Section Restamped.
Variable slugify_uniquely_for_queryset : string -> list string -> string.
Variables (self : ProjectTemplate) (p0 : Project).

Lemma restamped_create {F} `{HasOrdering F} (T : Manager F) name fields pid :
  maintains (restamped self p0) (fun _ => True) (create T name fields pid).
Proof.
  intros h Hh. unfold create.
  destruct (name_taken _ _ _); simpl; [split; [exact Hh | exact Logic.I] | exact Hh].
Qed.

Lemma restamped_create_with_slug {F} `{HasOrdering F} `{HasSlug F} (T : Manager F) name fields pid :
  maintains (restamped self p0) (fun _ => True)
    (create_with_slug slugify_uniquely_for_queryset T name fields pid).
Proof.
  intros h Hh. unfold create_with_slug.
  destruct (_ || _); simpl; [split; [exact Hh | exact Logic.I] | exact Hh].
Qed.

Lemma restamped_create_role name fields pid :
  maintains (restamped self p0) (fun _ => True) (create_role name fields pid).
Proof. intros h Hh. exact Hh. Qed.

Lemma restamped_get {F} `{HasOrdering F} (T : Manager F) name pid :
  maintains (restamped self p0) (fun _ => True) (get T name pid).
Proof. intros h Hh. unfold get. destruct (get_by_name _ _ _ _); simpl; auto. Qed.

Lemma restamped_default_option template key :
  maintains (restamped self p0) (fun _ => True) (default_option template key).
Proof.
  unfold default_option. destruct (t_default_options template) as [options|].
  - destruct (options !! key); [apply maintains_ret | apply maintains_raise; exact Logic.I].
  - apply maintains_raise. exact Logic.I.
Qed.

Lemma restamped_set_default (f : ProjectDefaults -> ProjectDefaults) :
  maintains (restamped self p0) (fun _ => True) (modify (on_project (on_defaults f))).
Proof. apply maintains_modify. intros h. apply restamped_on_defaults. Qed.

End Restamped.

Ltac restamped_step :=
  first
    [ apply maintains_bind; [|intros ?]
    | apply maintains_for; intros ?
    | apply maintains_when
    | apply maintains_iter_json; exact Logic.I
    | apply restamped_create
    | apply restamped_create_with_slug
    | apply restamped_create_role
    | apply restamped_get
    | apply restamped_default_option
    | apply restamped_set_default
    | apply maintains_gets ].

Lemma yields_project_gets : yields_project (gets h_project).
Proof. intros h p' h' H. unfold gets in H. now injection H as <- <-. Qed.

Lemma yields_project_bind {A} (c : M Heap A) (k : A -> M Heap Project) :
  (forall a, yields_project (k a)) -> yields_project (bind c k).
Proof.
  intros Hk h p' h' H. apply bind_Ok_inv in H as (a & h1 & _ & H). exact (Hk a _ _ _ H).
Qed.

(** X2: when [apply_to_project] returns, the project it returns is the one
    it was given, mutated: it has the six settings of the template and the
    template as its [creation_template], and its id, name, slug, owner and
    modification date are the ones it had. *)
Theorem apply_to_project_copies_settings
    (slugify_uniquely_for_queryset : string -> list string -> string)
    (self : ProjectTemplate) (h : Heap) (p' : Project) (h' : Heap) :
  apply_to_project slugify_uniquely_for_queryset self h = Ok p' h' ->
  p' = h_project h' /\ stamped_from self (h_project h) p'.
Proof.
  intros Hrun.
  assert (Hp : p' = h_project h').
  { revert Hrun. unfold apply_to_project. rewrite bind_gets.
    destruct (p_id (h_project h)); [|discriminate].
    revert h p' h'. change (yields_project ?c) with (yields_project c).
    repeat (apply yields_project_bind; intros ?). apply yields_project_gets. }
  split; [exact Hp|]. subst p'. apply restamped_stamped_from.
  unfold apply_to_project in Hrun. rewrite bind_gets in Hrun.
  destruct (p_id (h_project h)) as [pid|]; [|discriminate].
  do 7 rewrite bind_modify in Hrun.
  lazymatch type of Hrun with
  | ?c ?s = _ =>
      assert (Hm : maintains (restamped self (h_project h)) (fun _ => True) c)
  end.
  { repeat restamped_step. }
  lazymatch type of Hrun with
  | ?c ?s = _ => specialize (Hm s)
  end.
  rewrite Hrun in Hm. apply Hm.
  destruct h as [db p]. apply restamped_init.
Qed.
(** ** What [load_data_from_project] stores *)

Lemma fk_name_resolves {F} model fk (tbl : list (Row F)) :
  resolves fk tbl = true ->
  fk_name model fk tbl = inr (row_name <$> default_row fk tbl).
Proof.
  unfold resolves, fk_name, default_row. destruct fk as [i|]; [|reflexivity].
  destruct (List.find _ tbl); [reflexivity | discriminate].
Qed.



(** Everything but the last statement of [load_data_from_project]. *)
Lemma load_prefix db p t pid :
  p_id p = Some pid ->
  defaults_resolve p db = true ->
  exists loaded,
    load_data_from_project db p t = load_default_owner_role db p loaded
    /\ Loaded db p pid loaded
    /\ settings_loaded p loaded
    /\ t_id loaded = t_id t.
Proof.
  intros Hid Hdefaults.
  unfold defaults_resolve in Hdefaults. rewrite !andb_true_iff in Hdefaults.
  destruct Hdefaults as ((((((Hpt & Hus) & Hts) & His) & Hit) & Hpr) & Hsv).
  unfold load_data_from_project, all. rewrite Hid.
  do 6 run_modify.
  rewrite (bind_lift_inr _ _ _ _ (fk_name_resolves "Points" _ _ Hpt)).
  rewrite (bind_lift_inr _ _ _ _ (fk_name_resolves "UserStoryStatus" _ _ Hus)).
  rewrite (bind_lift_inr _ _ _ _ (fk_name_resolves "TaskStatus" _ _ Hts)).
  rewrite (bind_lift_inr _ _ _ _ (fk_name_resolves "IssueStatus" _ _ His)).
  rewrite (bind_lift_inr _ _ _ _ (fk_name_resolves "IssueType" _ _ Hit)).
  rewrite (bind_lift_inr _ _ _ _ (fk_name_resolves "Priority" _ _ Hpr)).
  rewrite (bind_lift_inr _ _ _ _ (fk_name_resolves "Severity" _ _ Hsv)).
  match goal with
  | |- context [set_t_default_options (Some ?o)] => remember o as options eqn:Hoptions
  end.
  assert (Hlookups :
    options !! "points" = Some (row_name <$> default_row (default_points (p_defaults p)) (db_points db))
    /\ options !! "us_status" = Some (row_name <$> default_row (default_us_status (p_defaults p)) (db_us_statuses db))
    /\ options !! "task_status" = Some (row_name <$> default_row (default_task_status (p_defaults p)) (db_task_statuses db))
    /\ options !! "issue_status" = Some (row_name <$> default_row (default_issue_status (p_defaults p)) (db_issue_statuses db))
    /\ options !! "issue_type" = Some (row_name <$> default_row (default_issue_type (p_defaults p)) (db_issue_types db))
    /\ options !! "priority" = Some (row_name <$> default_row (default_priority (p_defaults p)) (db_priorities db))
    /\ options !! "severity" = Some (row_name <$> default_row (default_severity (p_defaults p)) (db_severities db))).
  { subst options.
    repeat split;
      repeat first [ apply lookup_insert_eq | rewrite lookup_insert_ne by discriminate ]. }
  clear Hoptions.
  run_modify.
  run_modify. rewrite (bind_Ok _ _ _ _ _ (append_all t_us_statuses_field _ _ [] (view_update _ _ _))).
  run_modify. rewrite (bind_Ok _ _ _ _ _ (append_all t_points_field _ _ [] (view_update _ _ _))).
  run_modify. rewrite (bind_Ok _ _ _ _ _ (append_all t_task_statuses_field _ _ [] (view_update _ _ _))).
  run_modify. rewrite (bind_Ok _ _ _ _ _ (append_all t_issue_statuses_field _ _ [] (view_update _ _ _))).
  run_modify. rewrite (bind_Ok _ _ _ _ _ (append_all t_issue_types_field _ _ [] (view_update _ _ _))).
  run_modify. rewrite (bind_Ok _ _ _ _ _ (append_all t_priorities_field _ _ [] (view_update _ _ _))).
  run_modify. rewrite (bind_Ok _ _ _ _ _ (append_all t_severities_field _ _ [] (view_update _ _ _))).
  run_modify. rewrite (bind_Ok _ _ _ _ _ (append_all t_roles_field _ _ [] (view_update _ _ _))).
  eexists. split; [reflexivity|].
  destruct t. split; [|split; [repeat split | reflexivity]].
  constructor; try reflexivity.
  exists options. split; [reflexivity | exact Hlookups].
Qed.

Lemma settings_loaded_set_owner_role p t v :
  settings_loaded p t -> settings_loaded p (set_t_default_owner_role v t).
Proof. destruct t. exact (fun H => H). Qed.

(** The last statement of [load_data_from_project], by cases. *)
Lemma load_default_owner_role_cases db p loaded pid owner :
  p_id p = Some pid ->
  p_owner_id p = Some owner ->
  t_roles loaded = Some (map snapshot (related pid (db_roles db))) ->
  load_default_owner_role db p loaded
  = match get_membership db p owner with
    | inr m =>
        match role_slug db m with
        | inr slug => Ok tt (set_t_default_owner_role (Some slug) loaded)
        | inl e => Raise e loaded
        end
    | inl e =>
        if is_membership_does_not_exist e
        then match related pid (db_roles db) with
             | role :: _ => Ok tt (set_t_default_owner_role (Some (ro_slug (row_fields role))) loaded)
             | [] => Raise IndexError loaded
             end
        else Raise e loaded
    end.
Proof.
  intros Hid Howner Hroles.
  unfold load_default_owner_role, try_except, bind, owner_of. rewrite Howner. simpl.
  destruct (get_membership db p owner) as [e|m]; simpl.
  - destruct (is_membership_does_not_exist e); [|reflexivity].
    unfold gets, first_role_slug. rewrite Hroles.
    destruct (related pid (db_roles db)) as [|role roles]; reflexivity.
  - unfold role_slug. destruct (List.find _ (db_roles db)); reflexivity.
Qed.

(** X3: for a saved project whose [default_*] keys are null or refer to
    stored rows, a successful [load_data_from_project] leaves in the
    template the six settings of the project, one dictionary per taxonomy
    row and role of the project, in the order of the model's
    [Meta.ordering], with the name and the columns of the row, and under
    each key of
    [default_options] the name of
    the row the project's key refers to ([None] for a null key); the id of
    the template is untouched. *)
Theorem load_data_from_project_snapshot (db : Database) (p : Project) (t t' : ProjectTemplate)
    (pid : Z) :
  p_id p = Some pid ->
  defaults_resolve p db = true ->
  load_data_from_project db p t = Ok tt t' ->
  Loaded db p pid t' /\ settings_loaded p t' /\ t_id t' = t_id t.
Proof.
  intros Hid Hdefaults Hload.
  destruct (load_prefix db p t pid Hid Hdefaults) as (loaded & Hrun & HL & Hs & Hi).
  rewrite Hrun in Hload.
  destruct (p_owner_id p) as [owner|] eqn:Howner.
  - rewrite (load_default_owner_role_cases db p loaded pid owner Hid Howner
               (loaded_roles _ _ _ _ HL)) in Hload.
    assert (Hset : exists v, t' = set_t_default_owner_role v loaded).
    { destruct (get_membership db p owner) as [e|m].
      - destruct (is_membership_does_not_exist e); [|discriminate].
        destruct (related pid (db_roles db)); [discriminate|].
        injection Hload as <-. eauto.
      - destruct (role_slug db m); [discriminate|]. injection Hload as <-. eauto. }
    destruct Hset as [v ->].
    split; [now apply loaded_set_owner_role|].
    split; [now apply settings_loaded_set_owner_role|].
    rewrite <- Hi. now destruct loaded.
  - unfold load_default_owner_role, try_except, bind, owner_of in Hload.
    rewrite Howner in Hload. simpl in Hload. discriminate.
Qed.

Lemma demo_load_runs :
  load_data_from_project Demo.db0 Demo.P Demo.T0 = Ok tt Demo2.loaded.
Proof. vm_compute. reflexivity. Defined.

Lemma demo_load_shuffled_runs :
  load_data_from_project Demo2.shuffled Demo.P Demo.T0 = Ok tt Demo2.loaded_shuffled.
Proof. vm_compute. reflexivity. Defined.

Lemma load_data_from_project_snapshot_witness :
  option_map (map snap_name) (t_points Demo2.loaded_shuffled) = Some ["small"; "big"]
  /\ option_map (map snap_name) (t_priorities Demo2.loaded_shuffled) = Some ["High"; "normal"]
  /\ option_map (map snap_name) (t_roles Demo2.loaded_shuffled) = Some ["Front"; "Back"]
  /\ settings_loaded Demo.P Demo2.loaded_shuffled
  /\ t_id Demo2.loaded_shuffled = Some 5.
Proof.
  destruct (load_data_from_project_snapshot Demo2.shuffled Demo.P Demo.T0 Demo2.loaded_shuffled 1
              eq_refl eq_refl demo_load_shuffled_runs) as (HL & Hs & Hi).
  split; [now rewrite (loaded_points _ _ _ _ HL)|].
  split; [now rewrite (loaded_priorities _ _ _ _ HL)|].
  split; [now rewrite (loaded_roles _ _ _ _ HL)|].
  split; [exact Hs | exact Hi].
Defined.

(** X4: the [default_owner_role] that [load_data_from_project] stores, for
    a saved project with an owner: the slug of the role of the owner's
    membership when the owner has one; otherwise the slug of the first role
    of the project in the order of the roles; and when the owner has no
    membership and the project
    has no role, the call raises [IndexError], the snapshots of the
    template being filled already. *)
Theorem load_data_from_project_owner_role (db : Database) (p : Project) (t : ProjectTemplate)
    (pid owner : Z) :
  p_id p = Some pid ->
  defaults_resolve p db = true ->
  p_owner_id p = Some owner ->
  (forall m slug,
      get_membership db p owner = inr m -> role_slug db m = inr slug ->
      exists t', load_data_from_project db p t = Ok tt t'
                 /\ t_default_owner_role t' = Some slug)
  /\ (forall role rest,
        get_membership db p owner = inl (DoesNotExist "Membership") ->
        related pid (db_roles db) = role :: rest ->
        exists t', load_data_from_project db p t = Ok tt t'
                   /\ t_default_owner_role t' = Some (ro_slug (row_fields role)))
  /\ (get_membership db p owner = inl (DoesNotExist "Membership") ->
      related pid (db_roles db) = [] ->
      exists t', load_data_from_project db p t = Raise IndexError t'
                 /\ Loaded db p pid t').
Proof.
  intros Hid Hdefaults Howner.
  destruct (load_prefix db p t pid Hid Hdefaults) as (loaded & Hrun & HL & Hs & Hi).
  rewrite Hrun.
  rewrite (load_default_owner_role_cases db p loaded pid owner Hid Howner
             (loaded_roles _ _ _ _ HL)).
  split; [|split].
  - intros m slug -> ->. eexists. split; [reflexivity|]. now destruct loaded.
  - intros role rest -> ->. simpl. eexists. split; [reflexivity|]. now destruct loaded.
  - intros -> ->. simpl. exists loaded. auto.
Qed.

Lemma load_data_from_project_owner_role_witness :
  (exists t', load_data_from_project Demo.db0 Demo.P Demo.T0 = Ok tt t'
              /\ t_default_owner_role t' = Some "product-owner")
  /\ (exists t', load_data_from_project Demo2.shuffled Demo.P Demo.T0 = Ok tt t'
                 /\ t_default_owner_role t' = Some "front")
  /\ (exists t', load_data_from_project Demo.db0 Demo2.lonely Demo.T0 = Raise IndexError t'
                 /\ Loaded Demo.db0 Demo2.lonely 7 t').
Proof.
  split; [|split].
  - apply (proj1 (load_data_from_project_owner_role Demo.db0 Demo.P Demo.T0 1 10
                    eq_refl eq_refl eq_refl)
             (mkMembership (Some 1) (Some 10) 1 1 true None None) "product-owner");
      reflexivity.
  - apply (proj1 (proj2 (load_data_from_project_owner_role Demo2.shuffled Demo.P Demo.T0 1 10
                           eq_refl eq_refl eq_refl))
             (mkRow 2 1 "Front" {| ro_slug := "front"; ro_order := 1;
                                   ro_computable := true; ro_permissions := [] |})
             [mkRow 1 1 "Back" {| ro_slug := "back"; ro_order := 2;
                                  ro_computable := true; ro_permissions := [] |}]);
      reflexivity.
  - apply (proj2 (proj2 (load_data_from_project_owner_role Demo.db0 Demo2.lonely Demo.T0 7 11
                           eq_refl eq_refl eq_refl)));
      reflexivity.
Defined.

(** ** The rows that the round trip creates *)

Section InsertAll.
Context {F : Type} {Hord : HasOrdering F}.




Lemma insert_all_extended (fields_of : list (Row F) -> Snapshot F -> F) pid snapshots
    (tbl : list (Row F)) :
  extended pid tbl (insert_all fields_of pid snapshots tbl).
Proof.
  rewrite insert_all_created. eexists. split; [reflexivity|].
  apply List.Forall_forall. intros r Hr. now apply created_project in Hr.
Qed.

End InsertAll.




Lemma set_slug_twice_status a b (f : StatusFields) : set_slug a (set_slug b f) = set_slug a f.
Proof. reflexivity. Qed.

(** The creation loops of [apply_to_project], for a loaded template. *)
Lemma apply_creates (slugify_uniquely_for_queryset : string -> list string -> string)
    (db : Database) (t' : ProjectTemplate) (p p2 : Project) (pid pid2 : Z) :
  (forall name slugs, ~ In (slugify_uniquely_for_queryset name slugs) slugs) ->
  p_id p2 = Some pid2 ->
  Loaded db p pid t' ->
  empty_project pid2 db = true ->
  unique_together_ok pid db = true ->
  apply_to_project slugify_uniquely_for_queryset t' (mkHeap db p2)
  = set_project_defaults t' pid2
      (mkHeap (copied slugify_uniquely_for_queryset pid pid2 db) (stamp t' p2)).
Proof.
  intros Hfresh Hid2 HL Hempty Hunique.
  destruct HL as [Lus Lpt Lts Lis Lit Lpr Lsv Lro _].
  unfold empty_project in Hempty. rewrite !andb_true_iff in Hempty.
  destruct Hempty as (((((((Eus & Ept) & Ets) & Eis) & Eit) & Epr) & Esv) & Ero).
  unfold unique_together_ok in Hunique. rewrite !andb_true_iff in Hunique.
  destruct Hunique as ((((((Uus & Upt) & Uts) & Uis) & Uit) & Upr) & Usv).
  destruct db as [us pts ts iss ity pr sv ro ms].
  cbn [db_us_statuses db_points db_task_statuses db_issue_statuses db_issue_types
       db_priorities db_severities db_roles] in *.
  unfold apply_to_project. rewrite bind_gets. cbn [h_project]. rewrite Hid2.
  do 7 rewrite bind_modify. normalize_heap.
  rewrite Lus, Lpt, Lts, Lis, Lit, Lpr, Lsv, Lro. cbn [iter_json].
  rewrite bind_ret.
  run_loop (create_with_slug_all_ok slugify_uniquely_for_queryset Hfresh UserStoryStatus pid2
              (map snapshot (related pid us))) (fresh_names pid pid2 us Eus Uus).
  rewrite bind_ret.
  run_loop (create_all_ok Points pid2 (map snapshot (related pid pts))) (fresh_names pid pid2 pts Ept Upt).
  rewrite bind_ret.
  run_loop (create_with_slug_all_ok slugify_uniquely_for_queryset Hfresh TaskStatus pid2
              (map snapshot (related pid ts))) (fresh_names pid pid2 ts Ets Uts).
  rewrite bind_ret.
  run_loop (create_with_slug_all_ok slugify_uniquely_for_queryset Hfresh IssueStatus pid2
              (map snapshot (related pid iss))) (fresh_names pid pid2 iss Eis Uis).
  rewrite bind_ret.
  run_loop (create_all_ok IssueType pid2 (map snapshot (related pid ity))) (fresh_names pid pid2 ity Eit Uit).
  rewrite bind_ret.
  run_loop (create_all_ok Priority pid2 (map snapshot (related pid pr))) (fresh_names pid pid2 pr Epr Upr).
  rewrite bind_ret.
  run_loop (create_all_ok Severity pid2 (map snapshot (related pid sv))) (fresh_names pid pid2 sv Esv Usv).
  rewrite bind_ret.
  run_roles pid2.
  unfold set_project_defaults. rewrite Lus, Lpt, Lts, Lis, Lit, Lpr, Lsv.
  reflexivity.
Qed.

Lemma load_runs db p t pid :
  p_id p = Some pid ->
  defaults_resolve p db = true ->
  owner_role_exists db p = true ->
  exists t', load_data_from_project db p t = Ok tt t'
             /\ Loaded db p pid t' /\ settings_loaded p t' /\ t_id t' = t_id t.
Proof.
  intros Hid Hdefaults Howner.
  destruct (load_prefix db p t pid Hid Hdefaults) as (loaded & Hrun & HL & Hs & Hi).
  rewrite Hrun. unfold owner_role_exists, owner_of in Howner.
  destruct (p_owner_id p) as [owner|] eqn:Hp; [|discriminate].
  rewrite (load_default_owner_role_cases db p loaded pid owner Hid Hp (loaded_roles _ _ _ _ HL)).
  assert (Hid' : forall v, t_id (set_t_default_owner_role v loaded) = t_id t)
    by (intros v; rewrite <- Hi; now destruct loaded).
  destruct (get_membership db p owner) as [e|m].
  - apply andb_true_iff in Howner as [-> Hroles]. unfold all in Hroles. rewrite Hid in Hroles.
    destruct (related pid (db_roles db)); [discriminate|].
    eexists. split; [reflexivity|].
    auto using loaded_set_owner_role, settings_loaded_set_owner_role.
  - destruct (role_slug db m); [discriminate|].
    eexists. split; [reflexivity|].
    auto using loaded_set_owner_role, settings_loaded_set_owner_role.
Qed.




(** X6: when the source project has points but no default points (the
    other premises of the round trip holding), loading succeeds and
    [apply_to_project] raises [Points.DoesNotExist] at its first lookup of
    a default, after all its creation loops: the heap it raises from has
    the copied rows of every taxonomy, and the [default_*] keys of the
    target project are the ones it had. *)
Theorem apply_to_project_without_default_points
    (slugify_uniquely_for_queryset : string -> list string -> string)
    (db : Database) (t : ProjectTemplate) (p p2 : Project) (pid pid2 : Z) :
  (forall name slugs, ~ In (slugify_uniquely_for_queryset name slugs) slugs) ->
  p_id p = Some pid ->
  p_id p2 = Some pid2 ->
  empty_project pid2 db = true ->
  unique_together_ok pid db = true ->
  defaults_resolve p db = true ->
  owner_role_exists db p = true ->
  default_points (p_defaults p) = None ->
  no_rows pid (db_points db) = false ->
  exists t' h',
    load_data_from_project db p t = Ok tt t'
    /\ apply_to_project slugify_uniquely_for_queryset t' (mkHeap db p2)
       = Raise (DoesNotExist "Points") h'
    /\ (same_count pid pid2 (db_us_statuses db) (db_us_statuses (h_db h'))
        /\ same_count pid pid2 (db_points db) (db_points (h_db h'))
        /\ same_count pid pid2 (db_task_statuses db) (db_task_statuses (h_db h'))
        /\ same_count pid pid2 (db_issue_statuses db) (db_issue_statuses (h_db h'))
        /\ same_count pid pid2 (db_issue_types db) (db_issue_types (h_db h'))
        /\ same_count pid pid2 (db_priorities db) (db_priorities (h_db h'))
        /\ same_count pid pid2 (db_severities db) (db_severities (h_db h'))
        /\ same_count pid pid2 (db_roles db) (db_roles (h_db h')))
    /\ p_defaults (h_project h') = p_defaults p2.
Proof.
  intros Hfresh Hid Hid2 Hempty Hunique Hdefaults Howner Hnone Hrows.
  destruct (load_runs db p t pid Hid Hdefaults Howner) as (t' & Hload & HL & _ & _).
  exists t', (mkHeap (copied slugify_uniquely_for_queryset pid pid2 db) (stamp t' p2)).
  split; [exact Hload|]. split.
  - rewrite (apply_creates _ db t' p p2 pid pid2 Hfresh Hid2 HL Hempty Hunique).
    destruct HL as [_ Lpt _ _ _ _ _ _ (options & Lopt & Kpt & _)].
    unfold set_project_defaults. rewrite Lpt.
    unfold no_rows in Hrows.
    destruct (related pid (db_points db)) as [|r rows]; [discriminate|].
    cbn [map truthy_list when]. unfold bind at 1. unfold bind at 1.
    unfold default_option. rewrite Lopt, Kpt, Hnone. reflexivity.
  - unfold empty_project in Hempty. rewrite !andb_true_iff in Hempty.
    destruct Hempty as (((((((Eus & Ept) & Ets) & Eis) & Eit) & Epr) & Esv) & Ero).
    cbn [h_db h_project copied db_us_statuses db_points db_task_statuses db_issue_statuses
         db_issue_types db_priorities db_severities db_roles].
    split; [repeat split; now apply round_trip_count|].
    unfold stamp. apply defaults_kept_by_flags.
Qed.

Lemma apply_to_project_without_default_points_witness :
  exists t' h',
    load_data_from_project Demo.db0 Demo2.P_without_default_points Demo.T0 = Ok tt t'
    /\ apply_to_project Demo.slugify t' (mkHeap Demo.db0 Demo.P2)
       = Raise (DoesNotExist "Points") h'
    /\ same_count 1 2 (db_points Demo.db0) (db_points (h_db h'))
    /\ p_defaults (h_project h') = p_defaults Demo.P2.
Proof.
  destruct (apply_to_project_without_default_points Demo.slugify Demo.db0 Demo.T0
              Demo2.P_without_default_points Demo.P2 1 2
              demo_slugify_fresh eq_refl eq_refl eq_refl eq_refl eq_refl eq_refl eq_refl eq_refl)
    as (t' & h' & Hload & Happly & (_ & Hcount & _) & Hdefaults).
  exists t', h'. auto.
Defined.

Lemma demo_apply_runs :
  { r | apply_to_project Demo.slugify Demo2.loaded (mkHeap Demo.db0 Demo.P2)
        = Ok (fst r) (snd r) }.
Proof. eexists (_, _). vm_compute. reflexivity. Defined.

Lemma apply_to_project_copies_settings_witness :
  exists p' h',
    apply_to_project Demo.slugify Demo2.loaded (mkHeap Demo.db0 Demo.P2) = Ok p' h'
    /\ p' = h_project h'
    /\ stamped_from Demo2.loaded Demo.P2 p'.
Proof.
  destruct demo_apply_runs as [[p' h'] Hrun]. exists p', h'. split; [exact Hrun|].
  exact (apply_to_project_copies_settings Demo.slugify Demo2.loaded (mkHeap Demo.db0 Demo.P2)
           p' h' Hrun).
Defined.

(** ** The slug that [Project.save] generates *)

Lemma slug_loop_free step projects base_slug i slug :
  slug_exists projects slug = false ->
  slug_loop step projects base_slug i slug = slug.
Proof.
  intros Hfree. funelim (slug_loop step projects base_slug i slug).
  - reflexivity.
  - reflexivity.
  - rewrite Hfree in Heq0. discriminate.
Qed.

Lemma tried_next step i j : ~ 100 < i -> tried step (i + Z.pos step) j -> tried step i j.
Proof.
  intros Hi [Hj [n ->]]. split; [lia|]. exists (S n). lia.
Qed.

Lemma tried_first step i : ~ 100 < i -> tried step i i.
Proof. intros Hi. split; [lia|]. exists 0%nat. lia. Qed.

Lemma tried_cases step i j :
  tried step i j -> j = i \/ tried step (i + Z.pos step) j.
Proof.
  intros [Hj [n ->]]. destruct n as [|n]; [left; lia|].
  right. split; [lia|]. exists n. lia.
Qed.

Lemma slug_loop_tried step projects base_slug i slug :
  slug_loop step projects base_slug i slug = slug
  \/ exists j, tried step i j
               /\ slug_loop step projects base_slug i slug = candidate base_slug j.
Proof.
  funelim (slug_loop step projects base_slug i slug).
  - now left.
  - now left.
  - right. destruct H as [H | (j & Hj & H)].
    + exists i. split; [now apply tried_first | exact H].
    + exists j. split; [now apply tried_next | exact H].
Qed.

Lemma slug_loop_taken step projects base_slug i slug :
  slug_exists projects (slug_loop step projects base_slug i slug) = true ->
  slug_exists projects slug = true
  /\ forall j, tried step i j -> slug_exists projects (candidate base_slug j) = true.
Proof.
  funelim (slug_loop step projects base_slug i slug); intros Htaken.
  - rewrite Htaken in Heq. discriminate.
  - apply negb_false_iff in Heq0. split; [exact Heq0|].
    intros j [Hj _]. lia.
  - apply negb_false_iff in Heq0. split; [exact Heq0|].
    destruct (H Htaken) as [Hfirst Hrest].
    intros j Hj. destruct (tried_cases _ _ _ Hj) as [-> | Hj']; auto.
Qed.

(** X7: the loop of [Project.save] that looks for a free slug. A slug that
    is free is kept. Otherwise the result is the slug the loop was entered
    with or a candidate [base_slug-j] for an element [j] of the progression
    that is at most 100: the loop gives up after 100. And the result is a
    taken slug only if the slug it was entered with and every such
    candidate is taken. *)
Theorem slug_loop_gives_up_after_100 (step : positive) (projects : list Project)
    (base_slug : string) (i : Z) (slug : string) :
  (slug_exists projects slug = false ->
   slug_loop step projects base_slug i slug = slug)
  /\ (slug_loop step projects base_slug i slug = slug
      \/ exists j, tried step i j
                   /\ slug_loop step projects base_slug i slug = candidate base_slug j)
  /\ (slug_exists projects (slug_loop step projects base_slug i slug) = true ->
      slug_exists projects slug = true
      /\ forall j, tried step i j -> slug_exists projects (candidate base_slug j) = true).
Proof.
  split; [apply slug_loop_free|]. split; [apply slug_loop_tried | apply slug_loop_taken].
Qed.





(** The fields that [save] never assigns. *)
Lemma kept_by_modified_date v p :
  let p' := set_p_modified_date v p in
  p_id p' = p_id p /\ p_name p' = p_name p /\ p_owner_id p' = p_owner_id p
  /\ p_importing p' = p_importing p
  /\ p_is_backlog_activated p' = p_is_backlog_activated p
  /\ p_is_kanban_activated p' = p_is_kanban_activated p
  /\ p_is_wiki_activated p' = p_is_wiki_activated p
  /\ p_is_issues_activated p' = p_is_issues_activated p
  /\ p_videoconferences p' = p_videoconferences p
  /\ p_creation_template p' = p_creation_template p
  /\ p_defaults p' = p_defaults p.
Proof. destruct p. simpl. repeat split. Qed.

Lemma kept_by_slug v p :
  let p' := set_p_slug v p in
  p_id p' = p_id p /\ p_name p' = p_name p /\ p_owner_id p' = p_owner_id p
  /\ p_importing p' = p_importing p
  /\ p_is_backlog_activated p' = p_is_backlog_activated p
  /\ p_is_kanban_activated p' = p_is_kanban_activated p
  /\ p_is_wiki_activated p' = p_is_wiki_activated p
  /\ p_is_issues_activated p' = p_is_issues_activated p
  /\ p_videoconferences p' = p_videoconferences p
  /\ p_creation_template p' = p_creation_template p
  /\ p_defaults p' = p_defaults p
  /\ p_modified_date p' = p_modified_date p.
Proof. destruct p. simpl. repeat split. Qed.

Lemma kept_by_extra_data v p :
  let p' := set_p_videoconferences_extra_data v p in
  p_id p' = p_id p /\ p_name p' = p_name p /\ p_owner_id p' = p_owner_id p
  /\ p_importing p' = p_importing p
  /\ p_is_backlog_activated p' = p_is_backlog_activated p
  /\ p_is_kanban_activated p' = p_is_kanban_activated p
  /\ p_is_wiki_activated p' = p_is_wiki_activated p
  /\ p_is_issues_activated p' = p_is_issues_activated p
  /\ p_videoconferences p' = p_videoconferences p
  /\ p_creation_template p' = p_creation_template p
  /\ p_defaults p' = p_defaults p
  /\ p_modified_date p' = p_modified_date p.
Proof. destruct p. simpl. repeat split. Qed.

Lemma kept_by_id v p :
  let p' := set_p_id v p in
  p_name p' = p_name p /\ p_owner_id p' = p_owner_id p
  /\ p_importing p' = p_importing p
  /\ p_is_backlog_activated p' = p_is_backlog_activated p
  /\ p_is_kanban_activated p' = p_is_kanban_activated p
  /\ p_is_wiki_activated p' = p_is_wiki_activated p
  /\ p_is_issues_activated p' = p_is_issues_activated p
  /\ p_videoconferences p' = p_videoconferences p
  /\ p_creation_template p' = p_creation_template p
  /\ p_defaults p' = p_defaults p
  /\ p_modified_date p' = p_modified_date p.
Proof. destruct p. simpl. repeat split. Qed.









(** ** What [Project.save] leaves alone *)

Lemma super_save_self h h' :
  super_save h = Ok tt h' ->
  sh_users h' = sh_users h
  /\ (sh_self h' = sh_self h
      \/ p_id (sh_self h) = None /\ exists i, sh_self h' = set_p_id (Some i) (sh_self h)).
Proof.
  unfold super_save.
  destruct (slug_exists _ _ || defaults_taken _ _); [discriminate|].
  destruct (p_owner_id (sh_self h)); [|discriminate].
  destruct (p_id (sh_self h)) as [i|] eqn:Hid.
  - destruct (existsb _ (sh_projects h)); intros H; injection H as <-; simpl; auto.
  - intros H; injection H as <-; simpl. split; [reflexivity|]. right. eauto.
Qed.

(** X9: a successful [Project.save] assigns nothing but the modification
    date, a blank slug, the videoconference extra data and the id of an
    unsaved instance: the name, the owner, the settings, the creation
    template and the [default_*] keys of the instance are the ones it had,
    as is the id of a saved instance. The modification date becomes the
    current time, unless the instance is being imported and has a date,
    which is then kept. *)
Theorem save_keeps_the_other_fields (slugify_uniquely : string -> list string -> string)
    (start : Z) (step : positive) (now : Z) (h h' : SaveHeap) :
  save slugify_uniquely start step now h = Ok tt h' ->
  (p_name (sh_self h') = p_name (sh_self h)
   /\ p_owner_id (sh_self h') = p_owner_id (sh_self h)
   /\ p_importing (sh_self h') = p_importing (sh_self h)
   /\ p_is_backlog_activated (sh_self h') = p_is_backlog_activated (sh_self h)
   /\ p_is_kanban_activated (sh_self h') = p_is_kanban_activated (sh_self h)
   /\ p_is_wiki_activated (sh_self h') = p_is_wiki_activated (sh_self h)
   /\ p_is_issues_activated (sh_self h') = p_is_issues_activated (sh_self h)
   /\ p_videoconferences (sh_self h') = p_videoconferences (sh_self h)
   /\ p_creation_template (sh_self h') = p_creation_template (sh_self h)
   /\ p_defaults (sh_self h') = p_defaults (sh_self h))
  /\ (p_id (sh_self h) <> None -> p_id (sh_self h') = p_id (sh_self h))
  /\ p_modified_date (sh_self h')
     = (if p_importing (sh_self h) && bool_decide (is_Some (p_modified_date (sh_self h)))
        then p_modified_date (sh_self h) else Some now)
  /\ sh_users h' = sh_users h.
Proof.
  intros Hsave. unfold save in Hsave.
  apply bind_Ok_inv in Hsave as (self & h0 & Hget & Hsave).
  unfold gets in Hget. injection Hget as <- <-.
  apply bind_Ok_inv in Hsave as ([] & h1 & Hstep1 & Hsave).
  apply bind_Ok_inv in Hsave as ([] & h2 & Hstep2 & Hsave).
  apply bind_Ok_inv in Hsave as ([] & h3 & Hstep3 & Hsave).
  (* the modification date *)
  assert (H1 : sh_users h1 = sh_users h
               /\ exists v, sh_self h1 = set_p_modified_date v (sh_self h)
                            /\ v = (if p_importing (sh_self h)
                                       && bool_decide (is_Some (p_modified_date (sh_self h)))
                                    then p_modified_date (sh_self h) else Some now)).
  { destruct (p_importing (sh_self h)), (bool_decide (is_Some (p_modified_date (sh_self h))));
      simpl in Hstep1; injection Hstep1 as <-; simpl; (split; [reflexivity|]);
      eexists; (split; [|reflexivity]); try reflexivity.
    now destruct (sh_self h). }
  destruct H1 as (Hu1 & v1 & Hself1 & Hv1).
  (* the slug *)
  assert (H2 : sh_users h2 = sh_users h1
               /\ exists s, sh_self h2 = set_p_slug s (sh_self h1)).
  { destruct (truthy_string (p_slug (sh_self h))); simpl in Hstep2.
    - injection Hstep2 as <-. split; [reflexivity|]. exists (p_slug (sh_self h1)).
      now destruct (sh_self h1).
    - apply bind_Ok_inv in Hstep2 as (users & h1a & Hget & Hstep2).
      unfold gets in Hget. injection Hget as <- <-.
      apply bind_Ok_inv in Hstep2 as (owner & h1b & Howner & Hstep2).
      apply lift_Ok_inv in Howner as [Howner ->].
      apply bind_Ok_inv in Hstep2 as (projects & h1c & Hget & Hstep2).
      unfold gets in Hget. injection Hget as <- <-.
      unfold modify in Hstep2. injection Hstep2 as <-. simpl. eauto. }
  destruct H2 as (Hu2 & s2 & Hself2).
  (* the extra data *)
  assert (H3 : sh_users h3 = sh_users h2
               /\ exists e, sh_self h3 = set_p_videoconferences_extra_data e (sh_self h2)).
  { destruct (truthy_option_string (p_videoconferences (sh_self h))); simpl in Hstep3;
      injection Hstep3 as <-; simpl; (split; [reflexivity|]).
    - exists (p_videoconferences_extra_data (sh_self h2)). now destruct (sh_self h2).
    - eauto. }
  destruct H3 as (Hu3 & e3 & Hself3).
  apply super_save_self in Hsave as (Hu4 & Hself4).
  pose proof (kept_by_modified_date v1 (sh_self h)) as K1. rewrite <- Hself1 in K1.
  pose proof (kept_by_slug s2 (sh_self h1)) as K2. rewrite <- Hself2 in K2.
  pose proof (kept_by_extra_data e3 (sh_self h2)) as K3. rewrite <- Hself3 in K3.
  cbv zeta in K1, K2, K3.
  destruct K1 as (A0 & A1 & A2 & A3 & A4 & A5 & A6 & A7 & A8 & A9 & A10).
  destruct K2 as (B0 & B1 & B2 & B3 & B4 & B5 & B6 & B7 & B8 & B9 & B10 & B11).
  destruct K3 as (C0 & C1 & C2 & C3 & C4 & C5 & C6 & C7 & C8 & C9 & C10 & C11).
  assert (Hdate : p_modified_date (sh_self h1) = v1).
  { rewrite Hself1. now destruct (sh_self h). }
  destruct Hself4 as [-> | [Hnone (i & ->)]].
  - split; [repeat split; congruence|]. split; [intros _; congruence|].
    split; [congruence | congruence].
  - pose proof (kept_by_id (Some i) (sh_self h3)) as K4. cbv zeta in K4.
    destruct K4 as (D1 & D2 & D3 & D4 & D5 & D6 & D7 & D8 & D9 & D10 & D11).
    split; [repeat split; congruence|]. split; [|split; congruence].
    intros Hsaved. exfalso. apply Hsaved. congruence.
Qed.

Lemma save_keeps_the_other_fields_witness :
  exists h',
    save Demo.slugify 1 1 100 Demo.save_heap = Ok tt h'
    /\ p_name (sh_self h') = "Board"
    /\ p_owner_id (sh_self h') = Some 10
    /\ p_modified_date (sh_self h') = Some 100.
Proof.
  destruct demo_save_runs as [h' Hsave]. exists h'. split; [exact Hsave|].
  destruct (save_keeps_the_other_fields Demo.slugify 1 1 100 Demo.save_heap h' Hsave)
    as ((Hname & Howner & _) & _ & Hdate & _).
  auto.
Defined.

(** ** [save] of the status models *)

Section StatusSave.
Variable slugify_uniquely_for_queryset : string -> list string -> string.
Context {F : Type} `{HasOrdering F} `{HasSlug F}.
Implicit Types (tbl : list (Row F)) (self : Taxon F).


Lemma exclude_related i pid tbl :
  Status.exclude i (related pid tbl) = related pid (Status.exclude i tbl).
Proof.
  unfold Status.exclude. apply filter_related.
Qed.

Lemma exclude_fresh i tbl :
  existsb (fun r => row_id r =? i) tbl = false -> Status.exclude i tbl = tbl.
Proof.
  unfold Status.exclude. induction tbl as [|r tbl IH]; simpl; [reflexivity|].
  intros He. apply orb_false_iff in He as [Hr He]. rewrite Hr. simpl. now rewrite IH.
Qed.

Lemma exclude_replaced i (row : Row F) tbl :
  row_id row = i ->
  Status.exclude i (map (fun r => if row_id r =? i then row else r) tbl) = Status.exclude i tbl.
Proof.
  intros Hrow. unfold Status.exclude. induction tbl as [|r tbl IH]; simpl; [reflexivity|].
  destruct (row_id r =? i) eqn:Hr; simpl.
  - rewrite Hrow, Z.eqb_refl. simpl. exact IH.
  - rewrite Hr. simpl. now rewrite IH.
Qed.

Lemma exclude_appended i (row : Row F) tbl :
  row_id row = i -> Status.exclude i (tbl ++ [row]) = Status.exclude i tbl.
Proof.
  intros Hrow. unfold Status.exclude. rewrite List.filter_app. simpl.
  rewrite Hrow, Z.eqb_refl. simpl. apply app_nil_r.
Qed.

Lemma replace_replaced i (row : Row F) tbl :
  row_id row = i ->
  map (fun r => if row_id r =? i then row else r)
    (map (fun r => if row_id r =? i then row else r) tbl)
  = map (fun r => if row_id r =? i then row else r) tbl.
Proof.
  intros Hrow. rewrite map_map. apply map_ext. intros r.
  destruct (row_id r =? i) eqn:Hr; [now rewrite Hrow, Z.eqb_refl | now rewrite Hr].
Qed.

Lemma replace_fresh i (row : Row F) tbl :
  existsb (fun r => row_id r =? i) tbl = false ->
  map (fun r => if row_id r =? i then row else r) tbl = tbl.
Proof.
  induction tbl as [|r tbl IH]; simpl; [reflexivity|].
  intros He. apply orb_false_iff in He as [Hr He]. now rewrite Hr, IH.
Qed.

Lemma existsb_replaced i (row : Row F) tbl :
  row_id row = i ->
  existsb (fun r => row_id r =? i) tbl = true ->
  existsb (fun r => row_id r =? i) (map (fun r => if row_id r =? i then row else r) tbl) = true.
Proof.
  intros Hrow He. apply existsb_exists in He as (r & Hr & Hi).
  apply existsb_exists. exists row. split; [|now rewrite Hrow, Z.eqb_refl].
  apply in_map_iff. exists r. now rewrite Hi.
Qed.

Lemma next_id_unused tbl : existsb (fun r => row_id r =? next_id tbl) tbl = false.
Proof.
  destruct (existsb _ tbl) eqn:He; [|reflexivity].
  apply existsb_exists in He as (r & Hr & Hi). apply Z.eqb_eq in Hi.
  pose proof (next_id_fresh tbl r Hr). lia.
Qed.

Lemma next_id_positive tbl : 0 < next_id tbl.
Proof.
  unfold next_id. assert (0 <= fold_right Z.max 0 (map row_id tbl)); [|lia].
  induction tbl as [|r tbl IH]; simpl; lia.
Qed.



End StatusSave.



(** X11: saving a status instance again right after a successful [save]
    changes nothing: the slug is computed from the same queryset, which
    excludes the row of the instance, so it does not drift, and the stored
    row is rewritten as it is. (The instance has a non-zero id after the
    first save; an id of 0 counts as no id in [if self.id].) *)
Theorem status_save_twice
    (slugify_uniquely_for_queryset : string -> list string -> string)
    {F : Type} `{HasOrdering F} `{HasSlug F} (T : Manager F) (h h1 : Saving F) :
  (forall a b (f : F), set_slug a (set_slug b f) = set_slug a f) ->
  Status.save slugify_uniquely_for_queryset T h = Ok tt h1 ->
  truthy_id (tx_id (sv_self h1)) = true ->
  Status.save slugify_uniquely_for_queryset T h1 = Ok tt h1.
Proof.
  intros Hset Hsave Htruthy.
  unfold Status.save in Hsave. rewrite !bind_gets, bind_modify in Hsave.
  unfold Status.super_save, Status.assign_slug in Hsave.
  cbn [sv_self sv_db tx_id tx_project tx_name tx_fields] in Hsave.
  set (self := sv_self h) in *. set (tbl := objects T (sv_db h)) in *.
  set (slug := slugify_uniquely_for_queryset (tx_name self)
                 (map (fun r => get_slug (row_fields r)) (Status.queryset T h))) in *.
  set (self1 := mkTaxon (tx_id self) (tx_project self) (tx_name self)
                  (set_slug slug (tx_fields self))) in *.
  destruct (name_taken (tx_project self) (tx_name self) (Status.others self1 tbl)
            || slug_taken (tx_project self) (get_slug (set_slug slug (tx_fields self)))
                 (Status.others self1 tbl)) eqn:Hcheck; [discriminate|].
  assert (Hgoal : forall i tbl1,
            tx_id (sv_self h1) = Some i ->
            sv_self h1 = mkTaxon (Some i) (tx_project self) (tx_name self)
                           (set_slug slug (tx_fields self)) ->
            sv_db h1 = set_objects T tbl1 (sv_db h) ->
            Status.exclude i tbl1 = Status.others self1 tbl ->
            Status.exclude i (related (tx_project self) tbl1) = Status.queryset T h ->
            existsb (fun r => row_id r =? i) tbl1 = true ->
            map (fun r => if row_id r =? i
                          then Status.row_of i (sv_self h1) else r) tbl1 = tbl1 ->
            Status.save slugify_uniquely_for_queryset T h1 = Ok tt h1).
  { intros i tbl1 Hi Hself1 Hdb1 Hothers Hqs Hex Hmap.
    unfold Status.save. rewrite !bind_gets, bind_modify.
    assert (Hq : Status.queryset T h1 = Status.queryset T h).
    { unfold Status.queryset at 1. rewrite Hi. rewrite Hi in Htruthy. rewrite Htruthy.
      rewrite Hdb1, objects_set_objects, Hself1. cbn [tx_project]. exact Hqs. }
    rewrite Hq.
    assert (Hassign : Status.assign_slug
                        (slugify_uniquely_for_queryset (tx_name (sv_self h1))
                           (map (fun r => get_slug (row_fields r)) (Status.queryset T h))) h1
                      = h1).
    { unfold Status.assign_slug. rewrite Hself1. cbn [tx_id tx_project tx_name tx_fields].
      fold slug. rewrite Hset. rewrite <- Hself1. now destruct h1. }
    rewrite Hassign. unfold Status.super_save.
    rewrite Hdb1, objects_set_objects. unfold Status.others at 1 2. rewrite Hi, Hothers.
    rewrite Hself1 at 1 2 3 4. cbn [tx_project tx_name tx_fields].
    rewrite Hcheck, Hex, Hmap.
    unfold set_objects. rewrite update_update. fold (set_objects T tbl1 (sv_db h)).
    rewrite <- Hdb1. now destruct h1. }
  destruct (tx_id self) as [i|] eqn:Hid.
  - assert (Ht : truthy_id (Some i) = true).
    { destruct (existsb (fun r => row_id r =? i) tbl); injection Hsave as <-; exact Htruthy. }
    assert (Hq : Status.queryset T h = Status.exclude i (related (tx_project self) tbl)).
    { unfold Status.queryset. fold self. fold tbl. now rewrite Hid, Ht. }
    destruct (existsb (fun r => row_id r =? i) tbl) eqn:He; injection Hsave as <-.
    + apply (Hgoal i (map (fun r => if row_id r =? i then Status.row_of i self1 else r) tbl)).
      * reflexivity.
      * reflexivity.
      * reflexivity.
      * now apply exclude_replaced.
      * rewrite exclude_related, exclude_replaced by reflexivity.
        now rewrite <- exclude_related.
      * now apply existsb_replaced.
      * now apply replace_replaced.
    + apply (Hgoal i (tbl ++ [Status.row_of i self1])).
      * reflexivity.
      * reflexivity.
      * reflexivity.
      * now apply exclude_appended.
      * rewrite exclude_related, exclude_appended by reflexivity.
        now rewrite <- exclude_related.
      * rewrite existsb_app. simpl. rewrite Z.eqb_refl. apply orb_true_r.
      * cbn [sv_self]. rewrite map_app. simpl. rewrite Z.eqb_refl.
        now rewrite replace_fresh.
  - assert (Hq : Status.queryset T h = related (tx_project self) tbl).
    { unfold Status.queryset. fold self. fold tbl. now rewrite Hid. }
    injection Hsave as <-.
    apply (Hgoal (next_id tbl) (tbl ++ [Status.row_of (next_id tbl) self1])).
    + reflexivity.
    + reflexivity.
    + reflexivity.
    + rewrite exclude_appended by reflexivity. apply exclude_fresh, next_id_unused.
    + rewrite exclude_related, exclude_appended by reflexivity.
      now rewrite (exclude_fresh _ _ (next_id_unused tbl)).
    + rewrite existsb_app. simpl. rewrite Z.eqb_refl. apply orb_true_r.
    + cbn [sv_self]. rewrite map_app. simpl. rewrite Z.eqb_refl.
      rewrite (replace_fresh _ _ _ (next_id_unused tbl)). reflexivity.
Qed.

Lemma demo_status_save_runs :
  { h1 | Status.save Demo.slugify TaskStatus (mkSaving Demo.db0 Demo2.fresh) = Ok tt h1 }.
Proof. eexists. vm_compute. reflexivity. Defined.

Lemma status_save_twice_witness :
  exists h1,
    Status.save Demo.slugify TaskStatus (mkSaving Demo.db0 Demo2.fresh) = Ok tt h1
    /\ Status.save Demo.slugify TaskStatus h1 = Ok tt h1.
Proof.
  destruct demo_status_save_runs as [h1 Hsave]. exists h1. split; [exact Hsave|].
  apply (status_save_twice Demo.slugify TaskStatus (mkSaving Demo.db0 Demo2.fresh) h1
           set_slug_twice_status Hsave).
  revert Hsave. vm_compute. intros H. injection H as <-. reflexivity.
Defined.

(** ** [Project.get_users] *)

Lemma memberships_In db self m :
  In m (memberships db self) <-> In m (db_memberships db) /\ Some (m_project m) = p_id self.
Proof.
  unfold memberships. destruct (p_id self) as [pid|].
  - rewrite filter_In, Z.eqb_eq. split; intros [Hm Hp]; (split; [exact Hm|]); congruence.
  - split; [intros [] | intros [_ Hp]; discriminate].
Qed.

(** X12: [Project.get_users] returns exactly the users that have a
    membership in the project: an invitation (a membership without a user)
    contributes nobody, a user with several memberships is listed once
    (the result is the users table filtered, in its order), and an unsaved
    project has no users. *)
Theorem get_users_are_the_members (db : Database) (accounts : Accounts) (self : Project) :
  (forall u,
      In u (get_users db accounts self) <->
      In u (users accounts)
      /\ exists m, In m (db_memberships db)
                   /\ Some (m_project m) = p_id self
                   /\ m_user m = Some (u_id u))
  /\ (exists keep, get_users db accounts self = List.filter keep (users accounts))
  /\ (p_id self = None -> get_users db accounts self = []).
Proof.
  split; [|split].
  - intros u. unfold get_users. rewrite filter_In, existsb_exists. split.
    + intros (Hu & x & Hx & Hk). split; [exact Hu|].
      apply in_map_iff in Hx as (m & <- & Hm). apply memberships_In in Hm as [Hm Hp].
      apply same_key_true in Hk. exists m. auto.
    + intros (Hu & m & Hm & Hp & Hmu). split; [exact Hu|].
      exists (m_user m). split.
      * apply in_map. apply memberships_In. auto.
      * apply same_key_true. now rewrite Hmu.
  - eexists. reflexivity.
  - intros Hnone. unfold get_users, memberships. rewrite Hnone. simpl.
    induction (users accounts) as [|u us IH]; [reflexivity | exact IH].
Qed.

(** ** [Membership.clean] accepts *)

(** X13: [Membership.clean] accepts a membership when no stored membership
    of the same user and project has another id: the first membership of a
    user in a project, and the stored membership of that user validated
    again. *)
Theorem clean_accepts_the_only_membership (db : Database) (self : Membership) :
  (forall m, In m (db_memberships db) ->
             m_user m = m_user self -> m_project m = m_project self ->
             m_id m = m_id self) ->
  clean db self = inr tt.
Proof.
  intros Honly. unfold clean.
  destruct (m_user self) as [u|] eqn:Hu; [|reflexivity].
  destruct (filter_memberships db (Some u) (m_project self)) as [|first rest] eqn:Hf;
    [reflexivity|].
  assert (Hin : In first (filter_memberships db (Some u) (m_project self)))
    by (rewrite Hf; now left).
  apply filter_memberships_In in Hin as (Hin & Hfu & Hfp).
  rewrite (proj2 (same_key_true _ _) (Honly first Hin Hfu Hfp)). reflexivity.
Qed.

Lemma clean_accepts_the_only_membership_witness :
  clean Demo.clean_demo_db (mkMembership (Some 1) (Some 10) 1 1 true None None) = inr tt
  /\ clean Demo.clean_demo_db (mkMembership None (Some 11) 1 1 false None None) = inr tt.
Proof.
  split.
  - apply clean_accepts_the_only_membership.
    intros m [<- | [<- | []]]; simpl; intros; congruence.
  - apply clean_accepts_the_only_membership.
    intros m [<- | [<- | []]]; simpl; intros; congruence.
Defined.

(** ** [WatchedModelMixin.get_participants] *)

(** X14: the participants of a watched object are its assignee and its
    owner, as far as they are set: [None] is never a participant, there are
    at most two, and one when the owner is the assignee. *)
Theorem get_participants_are_assignee_and_owner (self : Instance) :
  (forall x, x ∈ WatchedModelMixin.get_participants self <->
             x <> None /\ (x = i_assigned_to self \/ x = i_owner self))
  /\ (size (WatchedModelMixin.get_participants self) <= 2)%nat
  /\ (i_owner self = i_assigned_to self -> i_owner self <> None ->
      size (WatchedModelMixin.get_participants self) = 1%nat).
Proof.
  unfold WatchedModelMixin.get_participants, WatchedModelMixin.get_assigned_to,
    WatchedModelMixin.get_owner.
  split; [|split].
  - intros x. rewrite elem_of_list_to_set, list_elem_of_In, filter_In. simpl.
    rewrite negb_true_iff, bool_decide_eq_false. split.
    + intros [[<- | [<- | []]] Hx]; auto.
    + intros [Hx [-> | ->]]; auto.
  - cbv zeta.
    destruct (i_assigned_to self) as [a|], (i_owner self) as [o|];
      match goal with
      | |- context [List.filter ?f ?l] =>
          let r := eval vm_compute in (List.filter f l) in
          change (List.filter f l) with r
      end;
      rewrite ?list_to_set_cons, list_to_set_nil, ?union_empty_r_L, ?size_singleton, ?size_empty;
      try lia.
    destruct (decide (a = o)) as [->|Hne].
    + rewrite union_idemp_L, size_singleton. lia.
    + rewrite size_union, !size_singleton; [lia|]. set_solver.
  - intros <- Ho. cbv zeta. destruct (i_owner self) as [o|]; [|contradiction].
    match goal with
    | |- context [List.filter ?f ?l] =>
        let r := eval vm_compute in (List.filter f l) in
        change (List.filter f l) with r
    end.
    now rewrite !list_to_set_cons, list_to_set_nil, union_empty_r_L, union_idemp_L, size_singleton.
Qed.

(** ** The vote attributes of an authenticated request *)

(** X15: for an authenticated request, every row fetched from the queryset
    that [attach_votes_attrs_to_queryset] returns is serialized with the
    stored sum of its vote counters as [votes] (0 when there is no
    counter), and with an [is_voted] that is true exactly when a vote of
    the requesting user on that row is stored: the second annotation does
    not disturb the first, and the [or 0] and [or False] of the serializer
    change neither value. *)
Theorem serialized_votes_of_authenticated (db : SocialDB) (user : User) (queryset : QuerySet) :
  let type_id := content_type_id (qs_model queryset) in
  Forall (fun obj =>
            get_votes_counter obj
            = VInt (fold_right Z.add 0
                      (map (fun v => default 0 (votes_count v))
                         (List.filter (fun v => (votes_content_type_id v =? type_id)
                                                && (votes_object_id v =? obj_id obj))
                            (votes_votes db))))
            /\ exists b,
                 get_is_voted obj = VBool b
                 /\ (b = true <->
                     exists v, In v (votes_vote db)
                               /\ vote_content_type_id v = type_id
                               /\ vote_object_id v = obj_id obj
                               /\ vote_user_id v = u_id user))
    (fetch db (attach_votes_attrs_to_queryset (Authenticated user) queryset)).
Proof.
  intros type_id. apply List.Forall_forall. intros obj Hobj.
  pose proof (fetch_attr db _ obj "votes_count" Hobj) as Hcount.
  pose proof (fetch_attr db _ obj "is_voted" Hobj) as Hvoted.
  unfold attach_votes_attrs_to_queryset, attach_is_vote_to_queryset,
    attach_votes_count_to_queryset, extra in Hcount, Hvoted.
  simpl in Hcount, Hvoted.
  rewrite lookup_insert_ne in Hcount by discriminate.
  rewrite lookup_insert_eq in Hcount. rewrite lookup_insert_eq in Hvoted.
  simpl in Hcount, Hvoted. rewrite coalesce_sum in Hcount. fold type_id in Hcount, Hvoted.
  split.
  - unfold get_votes_counter, getattr. rewrite Hcount. simpl.
    unfold py_or. simpl.
    destruct (fold_right Z.add 0 _ =? 0) eqn:Hz; simpl; [|reflexivity].
    apply Z.eqb_eq in Hz. f_equal. symmetry. exact Hz.
  - eexists. split.
    + unfold get_is_voted, getattr. rewrite Hvoted. simpl.
      assert (Hor : forall b, py_or (VBool b) (VBool false) = VBool b)
        by (intros []; reflexivity).
      apply Hor.
    + rewrite positive_count_iff. split.
      * intros (v & Hv & Hf). exists v.
        apply andb_true_iff in Hf as [Hf Hu]. apply andb_true_iff in Hf as [Hc Ho].
        apply Z.eqb_eq in Hc, Ho, Hu. auto.
      * intros (v & Hv & Hc & Ho & Hu). exists v. split; [exact Hv|].
        rewrite Hc, Ho, Hu, !Z.eqb_refl. reflexivity.
Qed.

(** X16: the two annotators of [votes/utils.py] only add to the
    dictionary of extra select clauses, keyed by the attribute name: under
    different names they can be applied in either order; under the same
    name the later annotation replaces the earlier one, so a second
    [attach_is_vote_to_queryset] for another user overrides the first, and
    attaching the counter twice is attaching it once. *)
Theorem annotators_commute_and_last_wins (queryset : QuerySet) (user user' : User)
    (f g : string) :
  (f <> g ->
   attach_votes_count_to_queryset (attach_is_vote_to_queryset user queryset g) f
   = attach_is_vote_to_queryset user (attach_votes_count_to_queryset queryset f) g)
  /\ attach_is_vote_to_queryset user' (attach_is_vote_to_queryset user queryset f) f
     = attach_is_vote_to_queryset user' queryset f
  /\ attach_votes_count_to_queryset (attach_votes_count_to_queryset queryset f) f
     = attach_votes_count_to_queryset queryset f
  /\ attach_votes_count_to_queryset (attach_is_vote_to_queryset user queryset f) f
     = attach_votes_count_to_queryset queryset f.
Proof.
  unfold attach_votes_count_to_queryset, attach_is_vote_to_queryset, extra. simpl.
  split; [|split; [|split]].
  - intros Hne. f_equal. now apply insert_insert_ne.
  - f_equal. apply insert_insert_eq.
  - f_equal. apply insert_insert_eq.
  - f_equal. apply insert_insert_eq.
Qed.

(** ** [Project.update_role_points] *)

Lemma for_modify {S A} (f : A -> S -> S) (xs : list A) (s : S) :
  for_ xs (fun x => modify (f x)) s = Ok tt (fold_left (fun s1 x => f x s1) xs s).
Proof.
  revert s. induction xs as [|x xs IH]; intros s; simpl; [reflexivity|].
  rewrite bind_modify. apply IH.
Qed.

Lemma update_role_points_unfold slugify self arg s :
  computable_roles (est_db s) self <> [] ->
  update_role_points slugify self arg s
  = match choose_null_points slugify self (est_db s) s with
    | Ok null s0 =>
        Ok tt (delete_stale self (computable_roles (est_db s) self)
                 (fold_left
                    (fun s1 us => estimate_new_roles (computable_roles (est_db s) self) null us s1)
                    (stories_to_update self arg s) s0))
    | Raise e s0 => Raise e s0
    end.
Proof.
  intros Hroles. unfold update_role_points. rewrite bind_gets.
  change (List.filter (fun r => ro_computable (row_fields r)) (get_roles (est_db s) self))
    with (computable_roles (est_db s) self).
  destruct (computable_roles (est_db s) self) as [|r0 roles] eqn:Hr; [contradiction|].
  cbn [length Nat.eqb].
  assert (Hstories :
    match arg with
    | None => gets (user_stories self)
    | Some given => ret given
    end s = Ok (stories_to_update self arg s) s) by (destruct arg; reflexivity).
  rewrite (bind_Ok _ _ _ _ _ Hstories). clear Hstories.
  unfold choose_null_points.
  destruct (List.filter _ (all self (db_points (est_db s)))) as [|first rest].
  - unfold bind at 1.
    destruct (create_null_points _ self s) as [null s0|e s0]; [|reflexivity].
    rewrite (bind_Ok _ _ _ _ _ (for_modify (estimate_new_roles (r0 :: roles) null) _ s0)).
    reflexivity.
  - rewrite bind_ret.
    rewrite (bind_Ok _ _ _ _ _ (for_modify (estimate_new_roles (r0 :: roles) first) _ s)).
    reflexivity.
Qed.

Lemma exclude_all_estimated us s (rs : list (Row RoleFields)) :
  (forall r, In r rs -> In r (db_roles (est_db s)) /\ estimated us r s) ->
  exclude_roles (roles_estimated us s) rs = [].
Proof.
  unfold exclude_roles. induction rs as [|r rs IH]; intros Hall; [reflexivity|]. simpl.
  assert (He : existsb (fun x => row_id x =? row_id r) (roles_estimated us s) = true).
  { destruct (Hall r) as (Hstored & rp & Hrp & Hus & Hrole); [now left|].
    apply existsb_exists. exists r. split; [|apply Z.eqb_refl].
    unfold roles_estimated. apply filter_In. split; [exact Hstored|].
    apply existsb_exists. exists rp. split; [|now apply Z.eqb_eq].
    unfold role_points. apply filter_In. split; [exact Hrp | now apply Z.eqb_eq]. }
  rewrite He. simpl. apply IH. intros r' Hr'. apply Hall. now right.
Qed.

Section Loop.
Variables (roles : list (Row RoleFields)) (null : Row PointsFields).

(** What one iteration adds. *)
Lemma estimate_new_roles_covers us s r :
  In r roles -> estimated us r (estimate_new_roles roles null us s).
Proof.
  intros Hr. unfold estimated, estimate_new_roles, bulk_create. cbn [est_role_points].
  destruct (existsb (fun x => row_id x =? row_id r) (roles_estimated us s)) eqn:He.
  - apply existsb_exists in He as (x & Hx & Hid). apply Z.eqb_eq in Hid.
    unfold roles_estimated in Hx. apply filter_In in Hx as [_ Hx].
    apply existsb_exists in Hx as (rp & Hrp & Hrole). apply Z.eqb_eq in Hrole.
    unfold role_points in Hrp. apply filter_In in Hrp as [Hrp Hus]. apply Z.eqb_eq in Hus.
    exists rp. split; [apply in_or_app; now left|]. split; [exact Hus | congruence].
  - exists (mkRolePoints (row_id r) (story_id us) (row_id null)).
    split; [|split; reflexivity].
    apply in_or_app. right.
    apply (in_map (fun role => mkRolePoints (row_id role) (story_id us) (row_id null))).
    unfold exclude_roles. apply filter_In. split; [exact Hr|]. now rewrite He.
Qed.

Lemma estimated_kept us r s us' :
  estimated us r s -> estimated us r (estimate_new_roles roles null us' s).
Proof.
  intros (rp & Hrp & H). exists rp. split; [|exact H].
  unfold estimate_new_roles, bulk_create. cbn [est_role_points]. apply in_or_app. now left.
Qed.

Lemma loop_keeps_estimated stories us r s :
  estimated us r s ->
  estimated us r (fold_left (fun s1 us' => estimate_new_roles roles null us' s1) stories s).
Proof.
  revert s. induction stories as [|us' stories IH]; intros s H; simpl; [exact H|].
  apply IH. now apply estimated_kept.
Qed.

Lemma loop_covers stories s us r :
  In us stories -> In r roles ->
  estimated us r (fold_left (fun s1 us' => estimate_new_roles roles null us' s1) stories s).
Proof.
  revert s. induction stories as [|us' stories IH]; intros s Hus Hr; [destruct Hus|].
  simpl. destruct Hus as [-> | Hus].
  - apply loop_keeps_estimated. now apply estimate_new_roles_covers.
  - now apply IH.
Qed.

(** The loop only appends role points: for a computable role, with the
    chosen points, for one of the stories. *)
Lemma loop_appends stories s :
  let s' := fold_left (fun s1 us' => estimate_new_roles roles null us' s1) stories s in
  est_db s' = est_db s
  /\ est_user_stories s' = est_user_stories s
  /\ exists added,
       est_role_points s' = est_role_points s ++ added
       /\ Forall (fun rp => rp_points rp = row_id null
                            /\ (exists r, In r roles /\ row_id r = rp_role rp)
                            /\ exists us, In us stories /\ story_id us = rp_user_story rp)
            added.
Proof.
  revert s. induction stories as [|us stories IH]; intros s; simpl.
  - split; [reflexivity|]. split; [reflexivity|]. exists []. now rewrite app_nil_r.
  - destruct (IH (estimate_new_roles roles null us s)) as (Hdb & Hst & added & Hrps & Hall).
    split; [exact Hdb|]. split; [exact Hst|].
    eexists. split.
    + rewrite Hrps. unfold estimate_new_roles, bulk_create. cbn [est_role_points].
      rewrite <- app_assoc. reflexivity.
    + apply List.Forall_app. split.
      * apply List.Forall_forall. intros rp Hrp.
        apply in_map_iff in Hrp as (r & <- & Hr). unfold exclude_roles in Hr.
        apply filter_In in Hr as [Hr _]. simpl. eauto 8.
      * eapply List.Forall_impl; [|exact Hall]. simpl.
        intros rp (Hp & Hr & us' & Hus' & Hid). eauto 8.
Qed.

(** When every story has a role point for every role, the loop changes
    nothing. *)
Lemma loop_fixed stories s :
  (forall r, In r roles -> In r (db_roles (est_db s))) ->
  (forall us r, In us stories -> In r roles -> estimated us r s) ->
  fold_left (fun s1 us' => estimate_new_roles roles null us' s1) stories s = s.
Proof.
  intros Hroles. induction stories as [|us stories IH]; intros Hcov; simpl; [reflexivity|].
  assert (Hstep : estimate_new_roles roles null us s = s).
  { unfold estimate_new_roles. cbv zeta.
    rewrite (exclude_all_estimated us s roles).
    - unfold bulk_create. simpl. rewrite app_nil_r. now destruct s.
    - intros r Hr. split; [now apply Hroles | apply Hcov; [now left | exact Hr]]. }
  rewrite Hstep. apply IH. intros us' r Hus' Hr. apply Hcov; [now right | exact Hr].
Qed.

End Loop.

Lemma delete_stale_In self roles s rp :
  In rp (est_role_points (delete_stale self roles s)) <->
  In rp (est_role_points s) /\ ~ stale self roles s rp.
Proof.
  unfold delete_stale, stale. cbn [est_role_points].
  rewrite filter_In, negb_true_iff, andb_false_iff, negb_false_iff.
  split; intros [Hrp H]; (split; [exact Hrp|]).
  - intros [(us & Hus & Hid) Hnot]. destruct H as [H | H].
    + assert (Ht : existsb (fun us => story_id us =? rp_user_story rp) (user_stories self s) = true).
      { apply existsb_exists. exists us. split; [exact Hus | now apply Z.eqb_eq]. }
      congruence.
    + apply Hnot. apply existsb_exists in H as (r & Hr & Hid'). apply Z.eqb_eq in Hid'. eauto.
  - destruct (existsb (fun us => story_id us =? rp_user_story rp) (user_stories self s)) eqn:Hs;
      [|now left].
    right. destruct (existsb (fun r => row_id r =? rp_role rp) roles) eqn:Hr; [reflexivity|].
    exfalso. apply H. split.
    + apply existsb_exists in Hs as (us & Hus & Hid). apply Z.eqb_eq in Hid. eauto.
    + intros (r & Hin & Hid).
      assert (Ht : existsb (fun r => row_id r =? rp_role rp) roles = true).
      { apply existsb_exists. exists r. split; [exact Hin | now apply Z.eqb_eq]. }
      congruence.
Qed.

Lemma filter_twice {A} (f : A -> bool) (l : list A) :
  List.filter f (List.filter f l) = List.filter f l.
Proof.
  induction l as [|a l IH]; simpl; [reflexivity|].
  destruct (f a) eqn:Hf; simpl; rewrite ?Hf, IH; reflexivity.
Qed.

Lemma delete_stale_twice self roles s :
  delete_stale self roles (delete_stale self roles s) = delete_stale self roles s.
Proof.
  unfold delete_stale, user_stories. cbn [est_db est_user_stories est_role_points].
  now rewrite filter_twice.
Qed.

Lemma choose_null_points_Ok slugify self db s null s0 :
  est_db s = db ->
  choose_null_points slugify self db s = Ok null s0 ->
  est_user_stories s0 = est_user_stories s
  /\ est_role_points s0 = est_role_points s
  /\ db_roles (est_db s0) = db_roles db
  /\ (exists rest,
        List.filter (fun pt => bool_decide (pt_value (row_fields pt) = None))
          (all self (db_points (est_db s0))) = null :: rest)
  /\ ((s0 = s
       /\ exists rest,
            List.filter (fun pt => bool_decide (pt_value (row_fields pt) = None))
              (all self (db_points db)) = null :: rest)
      \/ (List.filter (fun pt => bool_decide (pt_value (row_fields pt) = None))
            (all self (db_points db)) = []
          /\ est_db s0 = set_db_points (db_points db ++ [null]) db
          /\ Some (row_project null) = p_id self
          /\ row_id null = next_id (db_points db)
          /\ row_fields null = {| pt_order := 10; pt_value := None |})).
Proof.
  intros <-. unfold choose_null_points.
  destruct (List.filter _ (all self (db_points (est_db s)))) as [|first rest] eqn:Hf.
  - unfold create_null_points. destruct (p_id self) as [pid|] eqn:Hid; [|discriminate].
    destruct (name_taken _ _ _); [discriminate|].
    intros Hrun. injection Hrun as <- <-. cbn [est_db est_user_stories est_role_points].
    split; [reflexivity|]. split; [reflexivity|].
    split; [now destruct (est_db s)|]. split.
    + exists []. unfold all in *. rewrite Hid in *.
      assert (Hpts : db_points (set_db_points
                        (db_points (est_db s)
                         ++ [mkRow (next_id (db_points (est_db s))) pid
                               (slugify "?" (map row_name (related pid (db_points (est_db s)))))
                               {| pt_order := 10; pt_value := None |}]) (est_db s))
                     = db_points (est_db s)
                       ++ [mkRow (next_id (db_points (est_db s))) pid
                             (slugify "?" (map row_name (related pid (db_points (est_db s)))))
                             {| pt_order := 10; pt_value := None |}])
        by now destruct (est_db s).
      rewrite Hpts, filter_related, List.filter_app.
      rewrite filter_related in Hf. apply related_nil in Hf.
      unfold related. rewrite List.filter_app, Hf. cbn [List.filter row_fields pt_value].
      change (bool_decide (@None spec_float = None)) with true. cbn [List.filter row_project].
      rewrite Z.eqb_refl. reflexivity.
    + right. split; [reflexivity|]. split; [reflexivity|]. simpl. auto.
  - intros Hrun. injection Hrun as <- <-.
    split; [reflexivity|]. split; [reflexivity|]. split; [reflexivity|].
    split; [eauto|]. left. eauto.
Qed.

Lemma choose_null_points_runs slugify self db s pid :
  (forall value names, ~ In (slugify value names) names) ->
  p_id self = Some pid ->
  est_db s = db ->
  exists null s0, choose_null_points slugify self db s = Ok null s0.
Proof.
  intros Hcontract Hid <-. unfold choose_null_points.
  destruct (List.filter _ (all self (db_points (est_db s)))) as [|first rest]; [|eauto].
  unfold create_null_points, all. rewrite Hid.
  destruct (name_taken _ _ _) eqn:Ht; [|eauto]. exfalso.
  unfold name_taken in Ht. apply existsb_exists in Ht as (r & Hr & Hn).
  apply String.eqb_eq in Hn.
  apply (Hcontract "?" (map row_name (related pid (db_points (est_db s))))).
  rewrite <- Hn. now apply in_map.
Qed.

Lemma computable_roles_stored db self r :
  In r (computable_roles db self) -> In r (db_roles db).
Proof.
  unfold computable_roles, get_roles, all. intros Hr. apply filter_In in Hr as [Hr _].
  destruct (p_id self); [|destruct Hr]. now apply related_In in Hr.
Qed.

Lemma computable_roles_saved db self :
  computable_roles db self <> [] -> exists pid, p_id self = Some pid.
Proof.
  unfold computable_roles, get_roles, all. destruct (p_id self); [eauto|].
  intros H. now contradiction H.
Qed.

Lemma computable_roles_same db db' self :
  db_roles db' = db_roles db -> computable_roles db' self = computable_roles db self.
Proof. unfold computable_roles, get_roles. now intros ->. Qed.

Lemma returns_at_once slugify self arg s :
  computable_roles (est_db s) self = [] ->
  update_role_points slugify self arg s = Ok tt s.
Proof.
  intros Hroles. unfold update_role_points. rewrite bind_gets.
  change (List.filter (fun r => ro_computable (row_fields r)) (get_roles (est_db s) self))
    with (computable_roles (est_db s) self).
  now rewrite Hroles.
Qed.

(** X17: [update_role_points] on a project without computable roles
    returns at once: nothing is created and nothing is deleted, so the role
    points of roles that are no longer computable stay as they are. *)
Theorem update_role_points_without_computable_roles
    (slugify_uniquely_for_queryset : string -> list string -> string)
    (self : Project) (user_stories_arg : option (list UserStory)) (s : Estimation) :
  computable_roles (est_db s) self = [] ->
  update_role_points slugify_uniquely_for_queryset self user_stories_arg s = Ok tt s.
Proof. apply returns_at_once. Qed.

Lemma update_role_points_without_computable_roles_witness :
  update_role_points Demo.slugify Demo.P None
    (mkEstimation Demo.db0 [mkUserStory 1 1] [mkRolePoints 1 1 2])
  = Ok tt (mkEstimation Demo.db0 [mkUserStory 1 1] [mkRolePoints 1 1 2]).
Proof.
  apply (update_role_points_without_computable_roles Demo.slugify Demo.P None
           (mkEstimation Demo.db0 [mkUserStory 1 1] [mkRolePoints 1 1 2])).
  reflexivity.
Defined.

(** X18: [update_role_points] on a project with computable roles, when the
    slug helper returns a name that no points row of the project has. The
    call returns; afterwards every user story it went through (the given
    ones, or all of the project) has a role point for every computable
    role of the project; no role point of a story of the project is left
    for another role; a role point that was stored before is kept, with
    its points, unless it was such a stale one; every role point that was
    added refers to a points row of the project whose value is null; and
    the only other write is at most one points row, created when the
    project had no points row with a null value. *)
Theorem update_role_points_estimates_every_role
    (slugify_uniquely_for_queryset : string -> list string -> string)
    (self : Project) (user_stories_arg : option (list UserStory)) (s : Estimation) :
  (forall value names, ~ In (slugify_uniquely_for_queryset value names) names) ->
  computable_roles (est_db s) self <> [] ->
  exists s',
    update_role_points slugify_uniquely_for_queryset self user_stories_arg s = Ok tt s'
    /\ est_user_stories s' = est_user_stories s
    /\ (forall us r,
          In us (stories_to_update self user_stories_arg s) ->
          In r (computable_roles (est_db s) self) ->
          estimated us r s')
    /\ (forall rp, In rp (est_role_points s') ->
                   ~ stale self (computable_roles (est_db s) self) s rp)
    /\ (forall rp, In rp (est_role_points s) ->
                   ~ stale self (computable_roles (est_db s) self) s rp ->
                   In rp (est_role_points s'))
    /\ (forall rp, In rp (est_role_points s') ->
          In rp (est_role_points s)
          \/ exists null, In null (all self (db_points (est_db s')))
                          /\ pt_value (row_fields null) = None
                          /\ rp_points rp = row_id null)
    /\ (est_db s' = est_db s
        \/ exists null,
             List.filter (fun pt => bool_decide (pt_value (row_fields pt) = None))
               (all self (db_points (est_db s))) = []
             /\ est_db s' = set_db_points (db_points (est_db s) ++ [null]) (est_db s)
             /\ Some (row_project null) = p_id self
             /\ pt_value (row_fields null) = None).
Proof.
  intros Hcontract Hroles.
  destruct (computable_roles_saved _ _ Hroles) as [pid Hid].
  destruct (choose_null_points_runs slugify_uniquely_for_queryset self (est_db s) s pid
              Hcontract Hid eq_refl) as (null & s0 & Hchoose).
  rewrite (update_role_points_unfold _ _ _ _ Hroles), Hchoose.
  destruct (choose_null_points_Ok _ _ _ _ _ _ eq_refl Hchoose)
    as (Hst0 & Hrp0 & Hro0 & (rest & Hnull) & Hcases).
  set (roles := computable_roles (est_db s) self) in *.
  set (stories := stories_to_update self user_stories_arg s) in *.
  destruct (loop_appends roles null stories s0) as (Hdb1 & Hst1 & added & Hrps1 & Hadded).
  set (s1 := fold_left (fun s1 us => estimate_new_roles roles null us s1) stories s0) in *.
  assert (Hus : forall x, user_stories self x = user_stories self s ->
                          forall rp, stale self roles x rp <-> stale self roles s rp).
  { intros x Hx rp. unfold stale. now rewrite Hx. }
  assert (Hus1 : user_stories self s1 = user_stories self s).
  { unfold user_stories. now rewrite Hst1, Hst0. }
  assert (Hnull_in : In null (all self (db_points (est_db s0)))
                     /\ pt_value (row_fields null) = None).
  { assert (Hin : In null (List.filter
                             (fun pt => bool_decide (pt_value (row_fields pt) = None))
                             (all self (db_points (est_db s0))))) by (rewrite Hnull; now left).
    apply filter_In in Hin as [Hin Hv]. split; [exact Hin|].
    now apply bool_decide_eq_true in Hv. }
  eexists. split; [reflexivity|].
  split; [cbn [delete_stale est_user_stories]; congruence|].
  split; [|split; [|split; [|split]]].
  - intros us r Hus' Hr. destruct (loop_covers roles null stories s0 us r Hus' Hr)
      as (rp & Hrp & Hs & Hrole).
    exists rp. split; [|auto]. apply delete_stale_In. split; [exact Hrp|].
    intros [_ Hnot]. apply Hnot. eauto.
  - intros rp Hrp. apply delete_stale_In in Hrp as [_ Hnot].
    intros Hstale. apply Hnot. now apply (Hus s1 Hus1).
  - intros rp Hrp Hnot. apply delete_stale_In. split.
    + fold s1. rewrite Hrps1, Hrp0. apply in_or_app. now left.
    + intros Hstale. apply Hnot. now apply (Hus s1 Hus1).
  - intros rp Hrp. apply delete_stale_In in Hrp as [Hrp _]. fold s1 in Hrp.
    rewrite Hrps1, Hrp0 in Hrp. apply in_app_or in Hrp as [Hrp | Hrp]; [now left|].
    right. rewrite List.Forall_forall in Hadded. destruct (Hadded rp Hrp) as (Hp & _).
    exists null. cbn [delete_stale est_db]. fold s1. rewrite Hdb1.
    destruct Hnull_in. auto.
  - cbn [delete_stale est_db]. fold s1. rewrite Hdb1.
    destruct Hcases as [[-> _] | (Hnone & Hdb0 & Hp & _ & Hf)]; [now left|].
    right. exists null. rewrite Hf. auto.
Qed.

Lemma update_role_points_estimates_every_role_witness :
  exists s',
    update_role_points Demo.slugify Demo.P None Demo2.estimation = Ok tt s'
    /\ (forall us r,
          In us [mkUserStory 1 1; mkUserStory 2 1] ->
          In r (computable_roles (est_db Demo2.estimation) Demo.P) ->
          estimated us r s')
    /\ (forall rp, In rp (est_role_points s') ->
                   ~ stale Demo.P (computable_roles (est_db Demo2.estimation) Demo.P)
                       Demo2.estimation rp).
Proof.
  destruct (update_role_points_estimates_every_role Demo.slugify Demo.P None Demo2.estimation
              demo_slugify_fresh)
    as (s' & Hrun & _ & Hcov & Hclean & _).
  - discriminate.
  - exists s'. split; [exact Hrun|]. split; [exact Hcov | exact Hclean].
Defined.

(** X19: [update_role_points] is idempotent: called again with the same
    argument right after a call that returned, it returns without changing
    anything (the points row for null estimates is found, not created
    again; every story has its role points; nothing is stale). *)
Theorem update_role_points_twice
    (slugify_uniquely_for_queryset : string -> list string -> string)
    (self : Project) (user_stories_arg : option (list UserStory)) (s s' : Estimation) :
  update_role_points slugify_uniquely_for_queryset self user_stories_arg s = Ok tt s' ->
  update_role_points slugify_uniquely_for_queryset self user_stories_arg s' = Ok tt s'.
Proof.
  intros Hrun.
  destruct (computable_roles (est_db s) self) as [|r0 rs] eqn:Hroles.
  - rewrite (returns_at_once slugify_uniquely_for_queryset self user_stories_arg s Hroles)
      in Hrun.
    injection Hrun as <-.
    exact (returns_at_once slugify_uniquely_for_queryset self user_stories_arg s Hroles).
  - assert (Hne : computable_roles (est_db s) self <> []) by (rewrite Hroles; discriminate).
    rewrite (update_role_points_unfold _ _ _ _ Hne) in Hrun.
    destruct (choose_null_points slugify_uniquely_for_queryset self (est_db s) s)
      as [null s0|e s0] eqn:Hchoose; [|discriminate].
    injection Hrun as Hs'.
    destruct (choose_null_points_Ok _ _ _ _ _ _ eq_refl Hchoose)
      as (Hst0 & Hrp0 & Hro0 & (rest & Hnull) & _).
    set (roles := computable_roles (est_db s) self) in *.
    set (stories := stories_to_update self user_stories_arg s) in *.
    destruct (loop_appends roles null stories s0) as (Hdb1 & Hst1 & _).
    set (s1 := fold_left (fun s1 us => estimate_new_roles roles null us s1) stories s0) in *.
    assert (Hdb' : est_db s' = est_db s0) by (rewrite <- Hs'; exact Hdb1).
    assert (Hst' : est_user_stories s' = est_user_stories s)
      by (rewrite <- Hs'; cbn [delete_stale est_user_stories]; congruence).
    assert (Hroles' : computable_roles (est_db s') self = roles).
    { apply computable_roles_same. now rewrite Hdb'. }
    assert (Hstories' : stories_to_update self user_stories_arg s' = stories).
    { unfold stories, stories_to_update, user_stories. now rewrite Hst'. }
    assert (Hne' : computable_roles (est_db s') self <> []) by (rewrite Hroles'; exact Hne).
    rewrite (update_role_points_unfold _ _ _ _ Hne'), Hroles', Hstories'.
    unfold choose_null_points. rewrite Hdb', Hnull.
    cbn [ret].
    assert (Hcov : forall us r, In us stories -> In r roles -> estimated us r s').
    { intros us r Hus Hr. destruct (loop_covers roles null stories s0 us r Hus Hr)
        as (rp & Hrp & Hs & Hrole).
      exists rp. split; [|auto]. rewrite <- Hs'. apply delete_stale_In. split; [exact Hrp|].
      intros [_ Hnot]. apply Hnot. eauto. }
    rewrite (loop_fixed roles null stories s').
    + rewrite <- Hs'. now rewrite delete_stale_twice.
    + intros r Hr. rewrite Hdb', Hro0. now apply (computable_roles_stored _ self).
    + exact Hcov.
Qed.

Lemma demo_update_role_points_runs :
  { s' | update_role_points Demo.slugify Demo.P None Demo2.estimation = Ok tt s' }.
Proof. eexists. vm_compute. reflexivity. Defined.

Lemma update_role_points_twice_witness :
  exists s',
    update_role_points Demo.slugify Demo.P None Demo2.estimation = Ok tt s'
    /\ update_role_points Demo.slugify Demo.P None s' = Ok tt s'.
Proof.
  destruct demo_update_role_points_runs as [s' Hrun]. exists s'. split; [exact Hrun|].
  exact (update_role_points_twice Demo.slugify Demo.P None Demo2.estimation s' Hrun).
Defined.

(** ** Notifications that are not sent *)

(** X20: [send_notifications] of a watched resource does nothing when there
    is no history entry (none given and none stored) or when the resource
    class sets [_not_notify]: no service is called, nobody is added as a
    watcher and nothing is sent. *)
Theorem send_notifications_suppressed (mentions : string -> list Z) (self : Resource)
    (obj : Instance) (history : option HistoryEntry) (w : World) :
  (history = None /\ get_last_history self = None) \/ _not_notify self = true ->
  WatchedResourceMixin.send_notifications mentions self obj history w = Ok tt w.
Proof.
  unfold WatchedResourceMixin.send_notifications.
  intros [[-> ->] | Hnot]; [reflexivity|].
  rewrite Hnot. destruct history as [entry|]; [reflexivity|].
  destruct (get_last_history self); reflexivity.
Qed.

Lemma send_notifications_suppressed_witness :
  WatchedResourceMixin.send_notifications Demo.mentions
    (mkResource true (Some Demo.change) (fun obj => obj)) Demo.task1 None Demo.world
  = Ok tt Demo.world
  /\ WatchedResourceMixin.send_notifications Demo.mentions
       (mkResource false None (fun obj => obj)) Demo.task1 None Demo.world
     = Ok tt Demo.world.
Proof.
  split.
  - apply send_notifications_suppressed. right. reflexivity.
  - apply send_notifications_suppressed. left. split; reflexivity.
Defined.

(** ** The watchers that [restore_object] stores *)















